(** * ansible.posix firewalld module: reconciliation of firewall primitives

    A shallow embedding of [plugins/modules/firewalld.py]: the transaction
    classes (one per firewall primitive), the orchestrating [main], and the
    properties the specification states about them.

    Conventions of the embedding:
    - the firewall daemon is an explicit state ([Firewall]) with a permanent
      and a runtime layer, each a finite map from zone names to settings;
    - code that talks to the daemon is a function [Firewall -> outcome A];
      [module.fail_json] and an uncaught Python exception both stop the run
      and are outcomes of their own, which keep the state reached so far;
    - the module runs in normal (not check) mode. *)

From Stdlib Require Import String Ascii ZArith List Bool Lia.
From stdpp Require Import base option gmap sets strings list fin_maps pretty.
Import ListNotations.

Open Scope string_scope.
Open Scope list_scope.

(** ** Python string operations used by [main] *)

Module PyStr.

(** A string of the model is a Python 3 [str] whose code points are below
    256, one character per code point.

    The characters [str.strip()] removes when called without argument are
    those [str.isspace()] holds of.  Below 256 these are the code points 9
    to 13 (tab, line feed, vertical tab, form feed, carriage return), 28 to
    31 (the four separators), 32 (space), 133 (next line, U+0085) and 160
    (no-break space, U+00A0). *)
Definition isspace (c : ascii) : bool :=
  let n := nat_of_ascii c in
  ((9 <=? n)%nat && (n <=? 13)%nat) || ((28 <=? n)%nat && (n <=? 32)%nat)
  || (n =? 133)%nat || (n =? 160)%nat.

Fixpoint lstrip (s : string) : string :=
  match s with
  | EmptyString => EmptyString
  | String c s' => if isspace c then lstrip s' else s
  end.

Fixpoint rstrip (s : string) : string :=
  match s with
  | EmptyString => EmptyString
  | String c s' =>
      match rstrip s' with
      | EmptyString => if isspace c then EmptyString else String c EmptyString
      | r => String c r
      end
  end.

(** [s.strip()] *)
Definition strip (s : string) : string := rstrip (lstrip s).

(** [s.count(c)] for a one-character [c]. *)
Fixpoint count (c : ascii) (s : string) : nat :=
  match s with
  | EmptyString => 0
  | String c' s' => (if Ascii.eqb c' c then 1 else 0) + count c s'
  end.

(** [c in s] for a one-character [c]. *)
Fixpoint contains (c : ascii) (s : string) : bool :=
  match s with
  | EmptyString => false
  | String c' s' => Ascii.eqb c' c || contains c s'
  end.

(** [s.split(c)] for a one-character separator. *)
Fixpoint split (c : ascii) (s : string) : list string :=
  match s with
  | EmptyString => [EmptyString]
  | String c' s' =>
      if Ascii.eqb c' c then EmptyString :: split c s'
      else match split c s' with
           | [] => [String c' EmptyString]
           | h :: t => String c' h :: t
           end
  end.

(** Truth value of a string: [bool(s)]. *)
Definition truthy (s : string) : bool :=
  match s with EmptyString => false | _ => true end.

End PyStr.

Definition slash : ascii := "/"%char.

(** ** Data model *)

(** The [state] parameter: [choices=['absent', 'disabled', 'enabled',
    'present']]. *)
Inductive State := absent | disabled | enabled | present.

#[global] Instance State_eq_dec : EqDecision State.
Proof. solve_decision. Defined.

Definition State_str (s : State) : string :=
  match s with
  | absent => "absent" | disabled => "disabled"
  | enabled => "enabled" | present => "present"
  end.

(** The two configuration layers. *)
Inductive Layer := Permanent | Immediate.

(** A zone's settings.  The daemon's settings object holds one collection per
    primitive, three flags and the target. *)
Record ZoneSettings := mkZoneSettings {
  z_services : gset string;
  z_ports : gset (string * string);
  z_protocols : gset string;
  z_source_ports : gset (string * string);
  z_forward_ports : gset (string * string * string * string);
  z_rich_rules : gset string;
  z_interfaces : gset string;
  z_sources : gset string;
  z_icmp_blocks : gset string;
  z_forward : bool;
  z_masquerade : bool;
  z_icmp_block_inversion : bool;
  z_target : string
}.

(** [FirewallClientZoneSettings()]: the settings of a new zone. *)
Definition FirewallClientZoneSettings : ZoneSettings :=
  mkZoneSettings ∅ ∅ ∅ ∅ ∅ ∅ ∅ ∅ ∅ false false false "default".

(** The daemon: whether it is unreachable ([fw_offline]), its default zone,
    the permanent (on-disk) configuration and the runtime configuration. *)
Record Firewall := mkFirewall {
  fw_offline : bool;
  default_zone : string;
  config : gmap string ZoneSettings;
  runtime : gmap string ZoneSettings
}.

Definition set_config (c : gmap string ZoneSettings) (fw : Firewall) : Firewall :=
  mkFirewall (fw_offline fw) (default_zone fw) c (runtime fw).

Definition set_runtime (r : gmap string ZoneSettings) (fw : Firewall) : Firewall :=
  mkFirewall (fw_offline fw) (default_zone fw) (config fw) r.

(** ** Outcomes and the monad of daemon calls *)

(** Python exceptions that [main] lets escape. *)
Inductive PyExn := ValueError | IndexError.

Inductive outcome (A : Type) : Type :=
| Done (a : A) (fw : Firewall)
| FailJson (msg : string) (fw : Firewall)
| Raised (exn : PyExn) (fw : Firewall).
Arguments Done {A} a fw.
Arguments FailJson {A} msg fw.
Arguments Raised {A} exn fw.

Definition M (A : Type) : Type := Firewall -> outcome A.

Definition ret {A} (a : A) : M A := fun fw => Done a fw.

Definition bind {A B} (m : M A) (k : A -> M B) : M B :=
  fun fw =>
    match m fw with
    | Done a fw' => k a fw'
    | FailJson msg fw' => FailJson msg fw'
    | Raised e fw' => Raised e fw'
    end.

Definition fail_json {A} (msg : string) : M A := fun fw => FailJson msg fw.

Definition raise {A} (e : PyExn) : M A := fun fw => Raised e fw.

Declare Scope fw_scope.
Delimit Scope fw_scope with fw.
Notation "x <- m ;; k" := (bind m (fun x => k))
  (at level 100, m at next level, right associativity) : fw_scope.
Notation "m ;;; k" := (bind m (fun _ => k))
  (at level 100, right associativity) : fw_scope.
Open Scope fw_scope.


(** ** The daemon's client binding

    The binding ([firewall.client]) is an external collaborator.

    Modelled from the spec: a zone holds a set of each primitive kind, rich
    rules in canonical string form, three boolean flags and a target; [addX]
    puts a primitive into the set, [removeX] takes it out, [queryX] and [getX]
    read it.  A lease duration passed to the live layer is a daemon-side
    expiry and has no effect within a run.  A call that names a zone the
    layer does not have is an operation-level error. *)

(** The canonical string form of a rich rule,
    [str(Rich_Rule(rule_str=rule))]. *)
Class RichLanguage := { Rich_Rule : string -> string }.

(** *** Methods of a settings snapshot *)

Module Settings.

Definition with_services (f : gset string -> gset string) (z : ZoneSettings) :=
  mkZoneSettings (f (z_services z)) (z_ports z) (z_protocols z)
    (z_source_ports z) (z_forward_ports z) (z_rich_rules z) (z_interfaces z)
    (z_sources z) (z_icmp_blocks z) (z_forward z) (z_masquerade z)
    (z_icmp_block_inversion z) (z_target z).

Definition with_ports (f : gset (string * string) -> gset (string * string))
    (z : ZoneSettings) :=
  mkZoneSettings (z_services z) (f (z_ports z)) (z_protocols z)
    (z_source_ports z) (z_forward_ports z) (z_rich_rules z) (z_interfaces z)
    (z_sources z) (z_icmp_blocks z) (z_forward z) (z_masquerade z)
    (z_icmp_block_inversion z) (z_target z).

Definition with_protocols (f : gset string -> gset string) (z : ZoneSettings) :=
  mkZoneSettings (z_services z) (z_ports z) (f (z_protocols z))
    (z_source_ports z) (z_forward_ports z) (z_rich_rules z) (z_interfaces z)
    (z_sources z) (z_icmp_blocks z) (z_forward z) (z_masquerade z)
    (z_icmp_block_inversion z) (z_target z).

Definition with_source_ports
    (f : gset (string * string) -> gset (string * string)) (z : ZoneSettings) :=
  mkZoneSettings (z_services z) (z_ports z) (z_protocols z)
    (f (z_source_ports z)) (z_forward_ports z) (z_rich_rules z) (z_interfaces z)
    (z_sources z) (z_icmp_blocks z) (z_forward z) (z_masquerade z)
    (z_icmp_block_inversion z) (z_target z).

Definition with_forward_ports
    (f : gset (string * string * string * string) ->
         gset (string * string * string * string)) (z : ZoneSettings) :=
  mkZoneSettings (z_services z) (z_ports z) (z_protocols z)
    (z_source_ports z) (f (z_forward_ports z)) (z_rich_rules z) (z_interfaces z)
    (z_sources z) (z_icmp_blocks z) (z_forward z) (z_masquerade z)
    (z_icmp_block_inversion z) (z_target z).

Definition with_rich_rules (f : gset string -> gset string) (z : ZoneSettings) :=
  mkZoneSettings (z_services z) (z_ports z) (z_protocols z)
    (z_source_ports z) (z_forward_ports z) (f (z_rich_rules z)) (z_interfaces z)
    (z_sources z) (z_icmp_blocks z) (z_forward z) (z_masquerade z)
    (z_icmp_block_inversion z) (z_target z).

Definition with_interfaces (f : gset string -> gset string) (z : ZoneSettings) :=
  mkZoneSettings (z_services z) (z_ports z) (z_protocols z)
    (z_source_ports z) (z_forward_ports z) (z_rich_rules z) (f (z_interfaces z))
    (z_sources z) (z_icmp_blocks z) (z_forward z) (z_masquerade z)
    (z_icmp_block_inversion z) (z_target z).

Definition with_sources (f : gset string -> gset string) (z : ZoneSettings) :=
  mkZoneSettings (z_services z) (z_ports z) (z_protocols z)
    (z_source_ports z) (z_forward_ports z) (z_rich_rules z) (z_interfaces z)
    (f (z_sources z)) (z_icmp_blocks z) (z_forward z) (z_masquerade z)
    (z_icmp_block_inversion z) (z_target z).

Definition with_icmp_blocks (f : gset string -> gset string) (z : ZoneSettings) :=
  mkZoneSettings (z_services z) (z_ports z) (z_protocols z)
    (z_source_ports z) (z_forward_ports z) (z_rich_rules z) (z_interfaces z)
    (z_sources z) (f (z_icmp_blocks z)) (z_forward z) (z_masquerade z)
    (z_icmp_block_inversion z) (z_target z).

Definition setForward (b : bool) (z : ZoneSettings) :=
  mkZoneSettings (z_services z) (z_ports z) (z_protocols z)
    (z_source_ports z) (z_forward_ports z) (z_rich_rules z) (z_interfaces z)
    (z_sources z) (z_icmp_blocks z) b (z_masquerade z)
    (z_icmp_block_inversion z) (z_target z).

Definition setMasquerade (b : bool) (z : ZoneSettings) :=
  mkZoneSettings (z_services z) (z_ports z) (z_protocols z)
    (z_source_ports z) (z_forward_ports z) (z_rich_rules z) (z_interfaces z)
    (z_sources z) (z_icmp_blocks z) (z_forward z) b
    (z_icmp_block_inversion z) (z_target z).

Definition setIcmpBlockInversion (b : bool) (z : ZoneSettings) :=
  mkZoneSettings (z_services z) (z_ports z) (z_protocols z)
    (z_source_ports z) (z_forward_ports z) (z_rich_rules z) (z_interfaces z)
    (z_sources z) (z_icmp_blocks z) (z_forward z) (z_masquerade z)
    b (z_target z).

Definition setTarget (t : string) (z : ZoneSettings) :=
  mkZoneSettings (z_services z) (z_ports z) (z_protocols z)
    (z_source_ports z) (z_forward_ports z) (z_rich_rules z) (z_interfaces z)
    (z_sources z) (z_icmp_blocks z) (z_forward z) (z_masquerade z)
    (z_icmp_block_inversion z) t.

Definition getServices := z_services.
Definition addService (s : string) := with_services (fun l => {[s]} ∪ l).
Definition removeService (s : string) := with_services (fun l => l ∖ {[s]}).

Definition getProtocols := z_protocols.
Definition addProtocol (s : string) := with_protocols (fun l => {[s]} ∪ l).
Definition removeProtocol (s : string) := with_protocols (fun l => l ∖ {[s]}).

Definition queryPort (port protocol : string) (z : ZoneSettings) : bool :=
  bool_decide ((port, protocol) ∈ z_ports z).
Definition addPort (port protocol : string) :=
  with_ports (fun l => {[(port, protocol)]} ∪ l).
Definition removePort (port protocol : string) :=
  with_ports (fun l => l ∖ {[(port, protocol)]}).

Definition querySourcePort (port protocol : string) (z : ZoneSettings) : bool :=
  bool_decide ((port, protocol) ∈ z_source_ports z).
Definition addSourcePort (port protocol : string) :=
  with_source_ports (fun l => {[(port, protocol)]} ∪ l).
Definition removeSourcePort (port protocol : string) :=
  with_source_ports (fun l => l ∖ {[(port, protocol)]}).

Definition queryForwardPort (port protocol to_port to_addr : string)
    (z : ZoneSettings) : bool :=
  bool_decide ((port, protocol, to_port, to_addr) ∈ z_forward_ports z).
Definition addForwardPort (port protocol to_port to_addr : string) :=
  with_forward_ports (fun l => {[(port, protocol, to_port, to_addr)]} ∪ l).
Definition removeForwardPort (port protocol to_port to_addr : string) :=
  with_forward_ports (fun l => l ∖ {[(port, protocol, to_port, to_addr)]}).

Definition getRichRules := z_rich_rules.
Definition addRichRule `{RichLanguage} (rule : string) :=
  with_rich_rules (fun l => {[Rich_Rule rule]} ∪ l).
Definition removeRichRule `{RichLanguage} (rule : string) :=
  with_rich_rules (fun l => l ∖ {[Rich_Rule rule]}).

Definition getInterfaces := z_interfaces.
Definition addInterface (s : string) := with_interfaces (fun l => {[s]} ∪ l).
Definition removeInterface (s : string) := with_interfaces (fun l => l ∖ {[s]}).

Definition getSources := z_sources.
Definition addSource (s : string) := with_sources (fun l => {[s]} ∪ l).
Definition removeSource (s : string) := with_sources (fun l => l ∖ {[s]}).

Definition getIcmpBlocks := z_icmp_blocks.
Definition addIcmpBlock (s : string) := with_icmp_blocks (fun l => {[s]} ∪ l).
Definition removeIcmpBlock (s : string) := with_icmp_blocks (fun l => l ∖ {[s]}).

Definition queryForward := z_forward.
Definition getMasquerade := z_masquerade.
Definition getIcmpBlockInversion := z_icmp_block_inversion.
Definition getTarget := z_target.

End Settings.

(** *** The live layer: methods of [self.fw] on a running daemon *)

Definition invalid_zone (zone : string) : string := "INVALID_ZONE: " +:+ zone.

Module Live.

Definition query {A} (zone : string) (f : ZoneSettings -> A) : M A :=
  fun fw =>
    match runtime fw !! zone with
    | Some z => Done (f z) fw
    | None => FailJson (invalid_zone zone) fw
    end.

Definition change (zone : string) (f : ZoneSettings -> ZoneSettings) : M unit :=
  fun fw =>
    match runtime fw !! zone with
    | Some z => Done tt (set_runtime (<[zone := f z]> (runtime fw)) fw)
    | None => FailJson (invalid_zone zone) fw
    end.

Definition getIcmpBlocks zone := query zone Settings.getIcmpBlocks.
Definition addIcmpBlock zone (b : string) (timeout : Z) :=
  change zone (Settings.addIcmpBlock b).
Definition removeIcmpBlock zone (b : string) :=
  change zone (Settings.removeIcmpBlock b).

Definition queryIcmpBlockInversion zone := query zone Settings.getIcmpBlockInversion.
Definition addIcmpBlockInversion zone := change zone (Settings.setIcmpBlockInversion true).
Definition removeIcmpBlockInversion zone :=
  change zone (Settings.setIcmpBlockInversion false).

Definition getServices zone := query zone Settings.getServices.
Definition addService zone (s : string) (timeout : Z) :=
  change zone (Settings.addService s).
Definition removeService zone (s : string) := change zone (Settings.removeService s).

Definition getProtocols zone := query zone Settings.getProtocols.
Definition addProtocol zone (s : string) (timeout : Z) :=
  change zone (Settings.addProtocol s).
Definition removeProtocol zone (s : string) := change zone (Settings.removeProtocol s).

Definition queryForward zone := query zone Settings.queryForward.
Definition addForward zone := change zone (Settings.setForward true).
Definition removeForward zone := change zone (Settings.setForward false).

Definition queryMasquerade zone := query zone Settings.getMasquerade.
Definition addMasquerade zone := change zone (Settings.setMasquerade true).
Definition removeMasquerade zone := change zone (Settings.setMasquerade false).

Definition queryPort zone port protocol := query zone (Settings.queryPort port protocol).
Definition addPort zone port protocol (timeout : Z) :=
  change zone (Settings.addPort port protocol).
Definition removePort zone port protocol := change zone (Settings.removePort port protocol).

Definition querySourcePort zone port protocol :=
  query zone (Settings.querySourcePort port protocol).
Definition addSourcePort zone port protocol (timeout : Z) :=
  change zone (Settings.addSourcePort port protocol).
Definition removeSourcePort zone port protocol :=
  change zone (Settings.removeSourcePort port protocol).

Definition queryForwardPort zone port protocol toport toaddr :=
  query zone (Settings.queryForwardPort port protocol toport toaddr).
Definition addForwardPort zone port protocol toport toaddr (timeout : Z) :=
  change zone (Settings.addForwardPort port protocol toport toaddr).
Definition removeForwardPort zone port protocol toport toaddr :=
  change zone (Settings.removeForwardPort port protocol toport toaddr).

Definition getRichRules zone := query zone Settings.getRichRules.
Definition addRichRule `{RichLanguage} zone rule (timeout : Z) :=
  change zone (Settings.addRichRule rule).
Definition removeRichRule `{RichLanguage} zone rule :=
  change zone (Settings.removeRichRule rule).

Definition getSources zone := query zone Settings.getSources.
Definition addSource zone (s : string) := change zone (Settings.addSource s).
Definition removeSource zone (s : string) := change zone (Settings.removeSource s).

Definition getInterfaces zone := query zone Settings.getInterfaces.
Definition removeInterface zone (i : string) := change zone (Settings.removeInterface i).

(** [changeZoneOfInterface(zone, interface)]: the interface leaves the zone
    it is bound to and is bound to [zone]. *)
Definition changeZoneOfInterface (zone interface : string) : M unit :=
  fun fw =>
    match runtime fw !! zone with
    | Some z =>
        Done tt (set_runtime
                   (<[zone := Settings.addInterface interface z]>
                      (Settings.removeInterface interface <$> runtime fw)) fw)
    | None => FailJson (invalid_zone zone) fw
    end.

End Live.

(** *** The permanent layer: the configuration objects

    A zone object or handle is identified with the zone's name.  The offline
    configuration object ([self.fw.config], snake-case methods) and the
    daemon's configuration interface ([self.fw.config()], camel-case methods)
    act on the same on-disk configuration. *)

Module Config.

(** [config.get_zones()] paired with [config.get_zone(z)]: every zone object
    of the on-disk configuration, as (name, settings). *)
Definition get_zones (fw : Firewall) : list (string * ZoneSettings) :=
  map_to_list (config fw).

(** [config().listZones()] mapped to the zones' names. *)
Definition listZones (fw : Firewall) : list string :=
  (map_to_list (config fw)).*1.

Definition get_zone_config (zone : string) : M ZoneSettings :=
  fun fw =>
    match config fw !! zone with
    | Some z => Done z fw
    | None => FailJson (invalid_zone zone) fw
    end.

Definition set_zone_config (zone : string) (settings : ZoneSettings) : M unit :=
  fun fw => Done tt (set_config (<[zone := settings]> (config fw)) fw).

(** [getZoneByName(name).getSettings()] *)
Definition getSettings (zone : string) : M ZoneSettings := get_zone_config zone.

(** [zone_obj.update(settings)] *)
Definition update (zone : string) (settings : ZoneSettings) : M unit :=
  set_zone_config zone settings.

(** [config.new_zone(name, settings)] and [config().addZone(name, settings)] *)
Definition new_zone (zone : string) (settings : ZoneSettings) : M unit :=
  set_zone_config zone settings.
Definition addZone (zone : string) (settings : ZoneSettings) : M unit :=
  set_zone_config zone settings.

(** [config.remove_zone(config.get_zone(name))] and
    [config().getZoneByName(name).remove()] *)
Definition remove_zone (zone : string) : M unit :=
  fun fw =>
    match config fw !! zone with
    | Some _ => Done tt (set_config (delete zone (config fw)) fw)
    | None => FailJson (invalid_zone zone) fw
    end.
Definition remove (zone : string) : M unit := remove_zone zone.

(** The zone objects whose interface list has [interface]. *)
Definition zones_of_interface (interface : string) (fw : Firewall)
    : list (string * ZoneSettings) :=
  filter (fun o => interface ∈ z_interfaces o.2) (get_zones fw).

(** [config().getZoneOfInterface(interface)]: the name of the zone that has
    the interface in the permanent configuration, the empty string when no
    zone has it. *)
Definition getZoneOfInterface (interface : string) : M string :=
  fun fw =>
    match zones_of_interface interface fw with
    | [] => Done EmptyString fw
    | o :: _ => Done o.1 fw
    end.

End Config.

(** ** The transaction engine ([FirewallTransaction])

    The base class lives in [plugins/module_utils/firewalld.py]. *)

(** Modelled from the spec: the base class's constructor, which belongs to
    [module_utils/firewalld.py].  A transaction names its zone; without a [zone]
    parameter the module's documentation makes it the daemon's default
    zone. *)
Definition self_zone (zone : option string) : M string :=
  fun fw => Done (default (default_zone fw) zone) fw.

(** Modelled from the spec: [get_fw_zone_settings], the ZoneSettingsCache's
    [get(zone)], of [module_utils/firewalld.py]: a fresh snapshot of the
    zone's permanent settings together with the zone's handle. *)
Definition get_fw_zone_settings (zone : string) : M (string * ZoneSettings) :=
  fw_settings <- Config.get_zone_config zone;; ret (zone, fw_settings).

(** Modelled from the spec: [update_fw_settings], the ZoneSettingsCache's
    [commit(handle, snapshot)], of [module_utils/firewalld.py]: the zone's
    persistent configuration is replaced by the snapshot. *)
Definition update_fw_settings (fw_zone : string) (fw_settings : ZoneSettings)
    : M unit :=
  Config.set_zone_config fw_zone fw_settings.

(** A message of the result.  [LayerMsg l txt] is the engine's message for a
    mutation of layer [l], with the text the transaction class sets for it
    ([enabled_msg] or [disabled_msg]) when it sets one; [Text] is a message
    [main] appends. *)
Inductive Msg :=
| LayerMsg (l : Layer) (txt : option string)
| Text (s : string).

(** A transaction object: the six operations of its class, bound to the
    zone and the action arguments, the desired-state values that mean
    enabled and disabled, and the class's message texts. *)
Record Transaction := mkTransaction {
  tx_get_enabled_immediate : M bool;
  tx_get_enabled_permanent : M bool;
  tx_set_enabled_immediate : M unit;
  tx_set_enabled_permanent : M unit;
  tx_set_disabled_immediate : M unit;
  tx_set_disabled_permanent : M unit;
  tx_enabled_values : list State;
  tx_disabled_values : list State;
  tx_enabled_msg : option string;
  tx_disabled_msg : option string
}.

(** Modelled from the spec: the values the base class takes for enabled and
    for disabled when a class passes none ("desired_state in {enabled,
    present} -> true; {disabled, absent} -> false"). *)
Definition default_enabled_values : list State := [enabled; present].
Definition default_disabled_values : list State := [disabled; absent].

Definition offline_immediate_msg : string :=
  "immediate operations are impossible without a running daemon".

(** The desired boolean of a desired state; [None] when the state is in
    neither list of the class, for which the spec gives no rule: nothing is
    reconciled then. *)
Definition desired_bool (tx : Transaction) (desired_state : State) : option bool :=
  if bool_decide (desired_state ∈ tx_enabled_values tx) then Some true
  else if bool_decide (desired_state ∈ tx_disabled_values tx) then Some false
  else None.

(** Probing one layer, when it is requested. *)
Definition probe (requested : bool) (get_enabled : M bool) : M (option bool) :=
  if requested then b <- get_enabled;; ret (Some b) else ret None.

(** The setter that brings layer [l] to the desired boolean [want]. *)
Definition setter (tx : Transaction) (l : Layer) (want : bool) : M unit :=
  match l, want with
  | Permanent, true => tx_set_enabled_permanent tx
  | Permanent, false => tx_set_disabled_permanent tx
  | Immediate, true => tx_set_enabled_immediate tx
  | Immediate, false => tx_set_disabled_immediate tx
  end.

(** Reconciling one layer: no mutation when the layer was not probed or the
    queried boolean equals the desired one; otherwise the matching setter,
    [changed=true] and a message for the layer. *)
Definition reconcile (tx : Transaction) (l : Layer) (want : bool)
    (is_enabled : option bool) : M (bool * list Msg) :=
  match is_enabled with
  | None => ret (false, [])
  | Some b =>
      if Bool.eqb b want then ret (false, [])
      else
        setter tx l want;;;
        ret (true, [LayerMsg l (if want then tx_enabled_msg tx
                                else tx_disabled_msg tx)])
  end.

(** Modelled from the spec: [FirewallTransaction.run], the reconciliation
    algorithm of the TransactionEngine, of [module_utils/firewalld.py].
    Init -> Probed: each requested layer is probed, permanent first; an
    immediate layer requested in offline mode is fatal.  Probed ->
    Reconciled: each probed layer is compared with the desired boolean and
    mutated when it differs.  [changed] is the OR over the layers. *)
Definition run (tx : Transaction) (desired_state : State)
    (permanent immediate : bool) : M (bool * list Msg) :=
  fun fw =>
    if immediate && fw_offline fw then FailJson offline_immediate_msg fw
    else
      (is_enabled_permanent <- probe permanent (tx_get_enabled_permanent tx);;
       is_enabled_immediate <- probe immediate (tx_get_enabled_immediate tx);;
       match desired_bool tx desired_state with
       | None => ret (false, [])
       | Some want =>
           rp <- reconcile tx Permanent want is_enabled_permanent;;
           ri <- reconcile tx Immediate want is_enabled_immediate;;
           ret (rp.1 || ri.1, rp.2 ++ ri.2)
       end) fw.

(** ** The transaction classes of [plugins/modules/firewalld.py]

    One module per class.  The operations take [self.zone] first and then
    the action arguments, as the Python methods do. *)

Module IcmpBlockTransaction.

Definition get_enabled_immediate (zone icmp_block : string) (timeout : Z) : M bool :=
  l <- Live.getIcmpBlocks zone;; ret (bool_decide (icmp_block ∈ l)).

Definition get_enabled_permanent (zone icmp_block : string) (timeout : Z) : M bool :=
  s <- get_fw_zone_settings zone;;
  ret (bool_decide (icmp_block ∈ Settings.getIcmpBlocks s.2)).

Definition set_enabled_immediate (zone icmp_block : string) (timeout : Z) : M unit :=
  Live.addIcmpBlock zone icmp_block timeout.

Definition set_enabled_permanent (zone icmp_block : string) (timeout : Z) : M unit :=
  s <- get_fw_zone_settings zone;;
  update_fw_settings s.1 (Settings.addIcmpBlock icmp_block s.2).

Definition set_disabled_immediate (zone icmp_block : string) (timeout : Z) : M unit :=
  Live.removeIcmpBlock zone icmp_block.

Definition set_disabled_permanent (zone icmp_block : string) (timeout : Z) : M unit :=
  s <- get_fw_zone_settings zone;;
  update_fw_settings s.1 (Settings.removeIcmpBlock icmp_block s.2).

Definition make (zone icmp_block : string) (timeout : Z) : Transaction :=
  mkTransaction
    (get_enabled_immediate zone icmp_block timeout)
    (get_enabled_permanent zone icmp_block timeout)
    (set_enabled_immediate zone icmp_block timeout)
    (set_enabled_permanent zone icmp_block timeout)
    (set_disabled_immediate zone icmp_block timeout)
    (set_disabled_permanent zone icmp_block timeout)
    default_enabled_values default_disabled_values None None.

End IcmpBlockTransaction.

Module IcmpBlockInversionTransaction.

Definition get_enabled_immediate (zone : string) : M bool :=
  b <- Live.queryIcmpBlockInversion zone;; if b then ret true else ret false.

Definition get_enabled_permanent (zone : string) : M bool :=
  s <- get_fw_zone_settings zone;;
  if Settings.getIcmpBlockInversion s.2 then ret true else ret false.

Definition set_enabled_immediate (zone : string) : M unit :=
  Live.addIcmpBlockInversion zone.

Definition set_enabled_permanent (zone : string) : M unit :=
  s <- get_fw_zone_settings zone;;
  update_fw_settings s.1 (Settings.setIcmpBlockInversion true s.2).

Definition set_disabled_immediate (zone : string) : M unit :=
  Live.removeIcmpBlockInversion zone.

Definition set_disabled_permanent (zone : string) : M unit :=
  s <- get_fw_zone_settings zone;;
  update_fw_settings s.1 (Settings.setIcmpBlockInversion false s.2).

Definition make (zone : string) : Transaction :=
  mkTransaction
    (get_enabled_immediate zone) (get_enabled_permanent zone)
    (set_enabled_immediate zone) (set_enabled_permanent zone)
    (set_disabled_immediate zone) (set_disabled_permanent zone)
    default_enabled_values default_disabled_values None None.

End IcmpBlockInversionTransaction.

Module ServiceTransaction.

Definition get_enabled_immediate (zone service : string) (timeout : Z) : M bool :=
  l <- Live.getServices zone;;
  if bool_decide (service ∈ l) then ret true else ret false.

Definition get_enabled_permanent (zone service : string) (timeout : Z) : M bool :=
  s <- get_fw_zone_settings zone;;
  if bool_decide (service ∈ Settings.getServices s.2) then ret true else ret false.

Definition set_enabled_immediate (zone service : string) (timeout : Z) : M unit :=
  Live.addService zone service timeout.

Definition set_enabled_permanent (zone service : string) (timeout : Z) : M unit :=
  s <- get_fw_zone_settings zone;;
  update_fw_settings s.1 (Settings.addService service s.2).

Definition set_disabled_immediate (zone service : string) (timeout : Z) : M unit :=
  Live.removeService zone service.

Definition set_disabled_permanent (zone service : string) (timeout : Z) : M unit :=
  s <- get_fw_zone_settings zone;;
  update_fw_settings s.1 (Settings.removeService service s.2).

Definition make (zone service : string) (timeout : Z) : Transaction :=
  mkTransaction
    (get_enabled_immediate zone service timeout)
    (get_enabled_permanent zone service timeout)
    (set_enabled_immediate zone service timeout)
    (set_enabled_permanent zone service timeout)
    (set_disabled_immediate zone service timeout)
    (set_disabled_permanent zone service timeout)
    default_enabled_values default_disabled_values None None.

End ServiceTransaction.

Module ProtocolTransaction.

Definition get_enabled_immediate (zone protocol : string) (timeout : Z) : M bool :=
  l <- Live.getProtocols zone;;
  if bool_decide (protocol ∈ l) then ret true else ret false.

Definition get_enabled_permanent (zone protocol : string) (timeout : Z) : M bool :=
  s <- get_fw_zone_settings zone;;
  if bool_decide (protocol ∈ Settings.getProtocols s.2) then ret true else ret false.

Definition set_enabled_immediate (zone protocol : string) (timeout : Z) : M unit :=
  Live.addProtocol zone protocol timeout.

Definition set_enabled_permanent (zone protocol : string) (timeout : Z) : M unit :=
  s <- get_fw_zone_settings zone;;
  update_fw_settings s.1 (Settings.addProtocol protocol s.2).

Definition set_disabled_immediate (zone protocol : string) (timeout : Z) : M unit :=
  Live.removeProtocol zone protocol.

Definition set_disabled_permanent (zone protocol : string) (timeout : Z) : M unit :=
  s <- get_fw_zone_settings zone;;
  update_fw_settings s.1 (Settings.removeProtocol protocol s.2).

Definition make (zone protocol : string) (timeout : Z) : Transaction :=
  mkTransaction
    (get_enabled_immediate zone protocol timeout)
    (get_enabled_permanent zone protocol timeout)
    (set_enabled_immediate zone protocol timeout)
    (set_enabled_permanent zone protocol timeout)
    (set_disabled_immediate zone protocol timeout)
    (set_disabled_permanent zone protocol timeout)
    default_enabled_values default_disabled_values None None.

End ProtocolTransaction.

Module ForwardTransaction.

Definition enabled_msg (zone : string) : string := "Added forward to zone " +:+ zone.
Definition disabled_msg (zone : string) : string :=
  "Removed forward from zone " +:+ zone.

Definition get_enabled_immediate (zone : string) : M bool :=
  b <- Live.queryForward zone;; if b then ret true else ret false.

Definition get_enabled_permanent (zone : string) : M bool :=
  s <- get_fw_zone_settings zone;;
  if Settings.queryForward s.2 then ret true else ret false.

Definition set_enabled_immediate (zone : string) : M unit := Live.addForward zone.

Definition set_enabled_permanent (zone : string) : M unit :=
  s <- get_fw_zone_settings zone;;
  update_fw_settings s.1 (Settings.setForward true s.2).

Definition set_disabled_immediate (zone : string) : M unit := Live.removeForward zone.

Definition set_disabled_permanent (zone : string) : M unit :=
  s <- get_fw_zone_settings zone;;
  update_fw_settings s.1 (Settings.setForward false s.2).

Definition make (zone : string) : Transaction :=
  mkTransaction
    (get_enabled_immediate zone) (get_enabled_permanent zone)
    (set_enabled_immediate zone) (set_enabled_permanent zone)
    (set_disabled_immediate zone) (set_disabled_permanent zone)
    default_enabled_values default_disabled_values
    (Some (enabled_msg zone)) (Some (disabled_msg zone)).

End ForwardTransaction.

Module MasqueradeTransaction.

Definition enabled_msg (zone : string) : string :=
  "Added masquerade to zone " +:+ zone.
Definition disabled_msg (zone : string) : string :=
  "Removed masquerade from zone " +:+ zone.

Definition get_enabled_immediate (zone : string) : M bool :=
  b <- Live.queryMasquerade zone;; if b then ret true else ret false.

Definition get_enabled_permanent (zone : string) : M bool :=
  s <- get_fw_zone_settings zone;;
  if Settings.getMasquerade s.2 then ret true else ret false.

Definition set_enabled_immediate (zone : string) : M unit := Live.addMasquerade zone.

Definition set_enabled_permanent (zone : string) : M unit :=
  s <- get_fw_zone_settings zone;;
  update_fw_settings s.1 (Settings.setMasquerade true s.2).

Definition set_disabled_immediate (zone : string) : M unit :=
  Live.removeMasquerade zone.

Definition set_disabled_permanent (zone : string) : M unit :=
  s <- get_fw_zone_settings zone;;
  update_fw_settings s.1 (Settings.setMasquerade false s.2).

Definition make (zone : string) : Transaction :=
  mkTransaction
    (get_enabled_immediate zone) (get_enabled_permanent zone)
    (set_enabled_immediate zone) (set_enabled_permanent zone)
    (set_disabled_immediate zone) (set_disabled_permanent zone)
    default_enabled_values default_disabled_values
    (Some (enabled_msg zone)) (Some (disabled_msg zone)).

End MasqueradeTransaction.

(** [self.fw_offline], the flag the offline branches of the classes test. *)
Definition self_fw_offline : M bool := fun fw => Done (fw_offline fw) fw.

Module PortTransaction.

Definition get_enabled_immediate (zone port protocol : string) (timeout : Z)
    : M bool :=
  off <- self_fw_offline;;
  if off then
    s <- get_fw_zone_settings zone;; ret (Settings.queryPort port protocol s.2)
  else Live.queryPort zone port protocol.

Definition get_enabled_permanent (zone port protocol : string) (timeout : Z)
    : M bool :=
  s <- get_fw_zone_settings zone;; ret (Settings.queryPort port protocol s.2).

Definition set_enabled_immediate (zone port protocol : string) (timeout : Z)
    : M unit :=
  Live.addPort zone port protocol timeout.

Definition set_enabled_permanent (zone port protocol : string) (timeout : Z)
    : M unit :=
  s <- get_fw_zone_settings zone;;
  update_fw_settings s.1 (Settings.addPort port protocol s.2).

Definition set_disabled_immediate (zone port protocol : string) (timeout : Z)
    : M unit :=
  Live.removePort zone port protocol.

Definition set_disabled_permanent (zone port protocol : string) (timeout : Z)
    : M unit :=
  s <- get_fw_zone_settings zone;;
  update_fw_settings s.1 (Settings.removePort port protocol s.2).

Definition make (zone port protocol : string) (timeout : Z) : Transaction :=
  mkTransaction
    (get_enabled_immediate zone port protocol timeout)
    (get_enabled_permanent zone port protocol timeout)
    (set_enabled_immediate zone port protocol timeout)
    (set_enabled_permanent zone port protocol timeout)
    (set_disabled_immediate zone port protocol timeout)
    (set_disabled_permanent zone port protocol timeout)
    default_enabled_values default_disabled_values None None.

End PortTransaction.

Module SourcePortTransaction.

Definition get_enabled_immediate (zone port protocol : string) (timeout : Z)
    : M bool :=
  off <- self_fw_offline;;
  if off then
    s <- get_fw_zone_settings zone;;
    ret (Settings.querySourcePort port protocol s.2)
  else Live.querySourcePort zone port protocol.

Definition get_enabled_permanent (zone port protocol : string) (timeout : Z)
    : M bool :=
  s <- get_fw_zone_settings zone;;
  ret (Settings.querySourcePort port protocol s.2).

Definition set_enabled_immediate (zone port protocol : string) (timeout : Z)
    : M unit :=
  Live.addSourcePort zone port protocol timeout.

Definition set_enabled_permanent (zone port protocol : string) (timeout : Z)
    : M unit :=
  s <- get_fw_zone_settings zone;;
  update_fw_settings s.1 (Settings.addSourcePort port protocol s.2).

Definition set_disabled_immediate (zone port protocol : string) (timeout : Z)
    : M unit :=
  Live.removeSourcePort zone port protocol.

Definition set_disabled_permanent (zone port protocol : string) (timeout : Z)
    : M unit :=
  s <- get_fw_zone_settings zone;;
  update_fw_settings s.1 (Settings.removeSourcePort port protocol s.2).

Definition make (zone port protocol : string) (timeout : Z) : Transaction :=
  mkTransaction
    (get_enabled_immediate zone port protocol timeout)
    (get_enabled_permanent zone port protocol timeout)
    (set_enabled_immediate zone port protocol timeout)
    (set_enabled_permanent zone port protocol timeout)
    (set_disabled_immediate zone port protocol timeout)
    (set_disabled_permanent zone port protocol timeout)
    default_enabled_values default_disabled_values None None.

End SourcePortTransaction.

Module InterfaceTransaction.

Definition enabled_msg (zone interface : string) : string :=
  "Changed " +:+ interface +:+ " to zone " +:+ zone.
Definition disabled_msg (zone interface : string) : string :=
  "Removed " +:+ interface +:+ " from zone " +:+ zone.

(** The message of the failure when several zone files have the interface. *)
Definition several_zones_msg (interface : string) (n : nat) : string :=
  "ERROR: interface " +:+ interface +:+ " is in " +:+ pretty n +:+
  " zone XML file, can only be in one".

Definition get_enabled_immediate (zone interface : string) : M bool :=
  off <- self_fw_offline;;
  interface_list <-
    (if off then s <- get_fw_zone_settings zone;; ret (Settings.getInterfaces s.2)
     else Live.getInterfaces zone);;
  if bool_decide (interface ∈ interface_list) then ret true else ret false.

Definition get_enabled_permanent (zone interface : string) : M bool :=
  s <- get_fw_zone_settings zone;;
  if bool_decide (interface ∈ Settings.getInterfaces s.2) then ret true
  else ret false.

Definition set_enabled_immediate (zone interface : string) : M unit :=
  Live.changeZoneOfInterface zone interface.

Definition set_enabled_permanent (zone interface : string) : M unit :=
  s <- get_fw_zone_settings zone;;
  off <- self_fw_offline;;
  if off then
    iface_zone_objs <- (fun fw => Done (Config.zones_of_interface interface fw) fw);;
    (if (1 <? length iface_zone_objs)%nat then
       fail_json (several_zones_msg interface (length iface_zone_objs))
     else
       match iface_zone_objs with
       | old_zone_obj :: _ =>
           if (length iface_zone_objs =? 1)%nat
              && bool_decide (old_zone_obj.1 ≠ zone)
           then
             old_zone_config <- Config.get_zone_config old_zone_obj.1;;
             Config.set_zone_config old_zone_obj.1
               (Settings.removeInterface interface old_zone_config)
           else ret tt
       | [] => ret tt
       end);;;
    Config.set_zone_config s.1 (Settings.addInterface interface s.2)
  else
    old_zone_name <- Config.getZoneOfInterface interface;;
    if bool_decide (old_zone_name ≠ zone) then
      (if PyStr.truthy old_zone_name then
         old_zone_settings <- Config.getSettings old_zone_name;;
         Config.update old_zone_name
           (Settings.removeInterface interface old_zone_settings)
       else ret tt);;;
      Config.update s.1 (Settings.addInterface interface s.2)
    else ret tt.

Definition set_disabled_immediate (zone interface : string) : M unit :=
  Live.removeInterface zone interface.

Definition set_disabled_permanent (zone interface : string) : M unit :=
  s <- get_fw_zone_settings zone;;
  update_fw_settings s.1 (Settings.removeInterface interface s.2).

Definition make (zone interface : string) : Transaction :=
  mkTransaction
    (get_enabled_immediate zone interface) (get_enabled_permanent zone interface)
    (set_enabled_immediate zone interface) (set_enabled_permanent zone interface)
    (set_disabled_immediate zone interface) (set_disabled_permanent zone interface)
    default_enabled_values default_disabled_values
    (Some (enabled_msg zone interface)) (Some (disabled_msg zone interface)).

End InterfaceTransaction.

Module RichRuleTransaction.

Definition get_enabled_immediate `{RichLanguage} (zone rule : string) (timeout : Z)
    : M bool :=
  let rule := Rich_Rule rule in
  l <- Live.getRichRules zone;;
  if bool_decide (rule ∈ l) then ret true else ret false.

Definition get_enabled_permanent `{RichLanguage} (zone rule : string) (timeout : Z)
    : M bool :=
  s <- get_fw_zone_settings zone;;
  let rule := Rich_Rule rule in
  if bool_decide (rule ∈ Settings.getRichRules s.2) then ret true else ret false.

Definition set_enabled_immediate `{RichLanguage} (zone rule : string) (timeout : Z)
    : M unit :=
  Live.addRichRule zone rule timeout.

Definition set_enabled_permanent `{RichLanguage} (zone rule : string) (timeout : Z)
    : M unit :=
  s <- get_fw_zone_settings zone;;
  update_fw_settings s.1 (Settings.addRichRule rule s.2).

Definition set_disabled_immediate `{RichLanguage} (zone rule : string) (timeout : Z)
    : M unit :=
  Live.removeRichRule zone rule.

Definition set_disabled_permanent `{RichLanguage} (zone rule : string) (timeout : Z)
    : M unit :=
  s <- get_fw_zone_settings zone;;
  update_fw_settings s.1 (Settings.removeRichRule rule s.2).

Definition make `{RichLanguage} (zone rule : string) (timeout : Z) : Transaction :=
  mkTransaction
    (get_enabled_immediate zone rule timeout)
    (get_enabled_permanent zone rule timeout)
    (set_enabled_immediate zone rule timeout)
    (set_enabled_permanent zone rule timeout)
    (set_disabled_immediate zone rule timeout)
    (set_disabled_permanent zone rule timeout)
    default_enabled_values default_disabled_values None None.

End RichRuleTransaction.

Module SourceTransaction.

Definition enabled_msg (zone source : string) : string :=
  "Added " +:+ source +:+ " to zone " +:+ zone.
Definition disabled_msg (zone source : string) : string :=
  "Removed " +:+ source +:+ " from zone " +:+ zone.

Definition get_enabled_immediate (zone source : string) : M bool :=
  l <- Live.getSources zone;;
  if bool_decide (source ∈ l) then ret true else ret false.

Definition get_enabled_permanent (zone source : string) : M bool :=
  s <- get_fw_zone_settings zone;;
  if bool_decide (source ∈ Settings.getSources s.2) then ret true else ret false.

Definition set_enabled_immediate (zone source : string) : M unit :=
  Live.addSource zone source.

Definition set_enabled_permanent (zone source : string) : M unit :=
  s <- get_fw_zone_settings zone;;
  update_fw_settings s.1 (Settings.addSource source s.2).

Definition set_disabled_immediate (zone source : string) : M unit :=
  Live.removeSource zone source.

Definition set_disabled_permanent (zone source : string) : M unit :=
  s <- get_fw_zone_settings zone;;
  update_fw_settings s.1 (Settings.removeSource source s.2).

Definition make (zone source : string) : Transaction :=
  mkTransaction
    (get_enabled_immediate zone source) (get_enabled_permanent zone source)
    (set_enabled_immediate zone source) (set_enabled_permanent zone source)
    (set_disabled_immediate zone source) (set_disabled_permanent zone source)
    default_enabled_values default_disabled_values
    (Some (enabled_msg zone source)) (Some (disabled_msg zone source)).

End SourceTransaction.

(** [tx_not_permanent_error_msg] of the two zone-level classes. *)
Definition tx_not_permanent_error_msg : string :=
  "Zone operations must be permanent. " +:+
  "Make sure you didn't set the 'permanent' flag to 'false' or the 'immediate' flag to 'true'.".

Module ZoneTargetTransaction.

Definition enabled_values : list State := [present; enabled].
Definition disabled_values : list State := [absent; disabled].

Definition enabled_msg (zone target : string) : string :=
  "Set zone " +:+ zone +:+ " target to " +:+ target.
Definition disabled_msg (zone : string) : string :=
  "Reset zone " +:+ zone +:+ " target to default".

Definition get_enabled_immediate (zone target : string) : M bool :=
  fail_json tx_not_permanent_error_msg.

Definition get_enabled_permanent (zone target : string) : M bool :=
  s <- get_fw_zone_settings zone;;
  let current_target := Settings.getTarget s.2 in
  ret (bool_decide (current_target = target)).

Definition set_enabled_immediate (zone target : string) : M unit :=
  fail_json tx_not_permanent_error_msg.

Definition set_enabled_permanent (zone target : string) : M unit :=
  s <- get_fw_zone_settings zone;;
  update_fw_settings s.1 (Settings.setTarget target s.2).

Definition set_disabled_immediate (zone target : string) : M unit :=
  fail_json tx_not_permanent_error_msg.

Definition set_disabled_permanent (zone target : string) : M unit :=
  s <- get_fw_zone_settings zone;;
  update_fw_settings s.1 (Settings.setTarget "default" s.2).

Definition make (zone target : string) : Transaction :=
  mkTransaction
    (get_enabled_immediate zone target) (get_enabled_permanent zone target)
    (set_enabled_immediate zone target) (set_enabled_permanent zone target)
    (set_disabled_immediate zone target) (set_disabled_permanent zone target)
    enabled_values disabled_values
    (Some (enabled_msg zone target)) (Some (disabled_msg zone)).

End ZoneTargetTransaction.

Module ZoneTransaction.

Definition enabled_values : list State := [present].
Definition disabled_values : list State := [absent].

Definition enabled_msg (zone : string) : string := "Added zone " +:+ zone.
Definition disabled_msg (zone : string) : string := "Removed zone " +:+ zone.

Definition get_enabled_immediate (zone : string) : M bool :=
  fail_json tx_not_permanent_error_msg.

Definition get_enabled_permanent (zone : string) : M bool :=
  off <- self_fw_offline;;
  zone_names <-
    (if off then (fun fw => Done (Config.get_zones fw).*1 fw)
     else (fun fw => Done (Config.listZones fw) fw));;
  ret (bool_decide (zone ∈ zone_names)).

Definition set_enabled_immediate (zone : string) : M unit :=
  fail_json tx_not_permanent_error_msg.

Definition set_enabled_permanent (zone : string) : M unit :=
  off <- self_fw_offline;;
  if off then Config.new_zone zone FirewallClientZoneSettings
  else Config.addZone zone FirewallClientZoneSettings.

Definition set_disabled_immediate (zone : string) : M unit :=
  fail_json tx_not_permanent_error_msg.

Definition set_disabled_permanent (zone : string) : M unit :=
  off <- self_fw_offline;;
  if off then Config.remove_zone zone else Config.remove zone.

Definition make (zone : string) : Transaction :=
  mkTransaction
    (get_enabled_immediate zone) (get_enabled_permanent zone)
    (set_enabled_immediate zone) (set_enabled_permanent zone)
    (set_disabled_immediate zone) (set_disabled_permanent zone)
    enabled_values disabled_values
    (Some (enabled_msg zone)) (Some (disabled_msg zone)).

End ZoneTransaction.

Module ForwardPortTransaction.

Definition get_enabled_immediate (zone port proto toport toaddr : string)
    (timeout : Z) : M bool :=
  off <- self_fw_offline;;
  if off then
    s <- get_fw_zone_settings zone;;
    ret (Settings.queryForwardPort port proto toport toaddr s.2)
  else Live.queryForwardPort zone port proto toport toaddr.

Definition get_enabled_permanent (zone port proto toport toaddr : string)
    (timeout : Z) : M bool :=
  s <- get_fw_zone_settings zone;;
  ret (Settings.queryForwardPort port proto toport toaddr s.2).

Definition set_enabled_immediate (zone port proto toport toaddr : string)
    (timeout : Z) : M unit :=
  Live.addForwardPort zone port proto toport toaddr timeout.

Definition set_enabled_permanent (zone port proto toport toaddr : string)
    (timeout : Z) : M unit :=
  s <- get_fw_zone_settings zone;;
  update_fw_settings s.1 (Settings.addForwardPort port proto toport toaddr s.2).

Definition set_disabled_immediate (zone port proto toport toaddr : string)
    (timeout : Z) : M unit :=
  Live.removeForwardPort zone port proto toport toaddr.

Definition set_disabled_permanent (zone port proto toport toaddr : string)
    (timeout : Z) : M unit :=
  s <- get_fw_zone_settings zone;;
  update_fw_settings s.1 (Settings.removeForwardPort port proto toport toaddr s.2).

Definition make (zone port proto toport toaddr : string) (timeout : Z)
    : Transaction :=
  mkTransaction
    (get_enabled_immediate zone port proto toport toaddr timeout)
    (get_enabled_permanent zone port proto toport toaddr timeout)
    (set_enabled_immediate zone port proto toport toaddr timeout)
    (set_enabled_permanent zone port proto toport toaddr timeout)
    (set_disabled_immediate zone port proto toport toaddr timeout)
    (set_disabled_permanent zone port proto toport toaddr timeout)
    default_enabled_values default_disabled_values None None.

End ForwardPortTransaction.

(** ** The orchestrator: [main] *)

(** [module.params] after the framework has validated them against
    [argument_spec]: a parameter that was not given is [None]; [immediate],
    [permanent], [offline] and [timeout] have defaults; [state] is
    required.  An element of [port_forward] is a dictionary. *)
Record Params := mkParams {
  p_icmp_block : option string;
  p_icmp_block_inversion : option bool;
  p_service : option string;
  p_protocol : option string;
  p_port : option string;
  p_source_port : option string;
  p_port_forward : option (list (gmap string string));
  p_rich_rule : option string;
  p_zone : option string;
  p_immediate : bool;
  p_source : option string;
  p_permanent : bool;
  p_state : State;
  p_timeout : Z;
  p_interface : option string;
  p_forward : option bool;
  p_masquerade : option bool;
  p_offline : bool;
  p_target : option string
}.

(** The [mutually_exclusive] list of the argument spec: at most one of the
    thirteen primitives is given. *)
Definition given {A} (o : option A) : nat :=
  match o with Some _ => 1 | None => 0 end.

Definition mutually_exclusive (p : Params) : bool :=
  (given (p_icmp_block p) + given (p_icmp_block_inversion p) + given (p_service p)
   + given (p_protocol p) + given (p_port p) + given (p_source_port p)
   + given (p_port_forward p) + given (p_rich_rule p) + given (p_interface p)
   + given (p_forward p) + given (p_masquerade p) + given (p_source p)
   + given (p_target p) <=? 1)%nat.

(** Truth values as [any([...])] takes them. *)
Definition truthy_str (o : option string) : bool :=
  match o with Some s => PyStr.truthy s | None => false end.
Definition truthy_bool (o : option bool) : bool :=
  match o with Some b => b | None => false end.
Definition truthy_dict (o : option (gmap string string)) : bool :=
  match o with Some d => bool_decide (d ≠ ∅) | None => false end.

(** ["%s" % v] for an optional string and for a boolean. *)
Definition fmt_opt (o : option string) : string := default "None" o.
Definition fmt_bool (b : bool) : string := if b then "True" else "False".

Definition offline_without_permanent_msg : string :=
  "offline cannot be enabled unless permanent changes are allowed".
Definition firewall_not_running_msg : string :=
  "firewall is not currently running, unable to perform immediate actions without a running firewall daemon".
Definition improper_port_msg : string := "improper port format (missing protocol?)".
Definition improper_source_port_msg : string :=
  "improper source_port format (missing protocol?)".
Definition zone_level_only_msg : string :=
  "absent and present state can only be used in zone level operations".

(** [if offline: ...]: offline without permanent is refused; offline
    overrides immediate to false if firewalld is offline. *)
Definition offline_override (offline permanent immediate : bool) : M bool :=
  if offline then
    (if negb permanent then fail_json offline_without_permanent_msg else ret tt);;;
    off <- self_fw_offline;;
    if off then ret false else ret immediate
  else ret immediate.

(** [if not permanent and not immediate: immediate = True] *)
Definition immediate_default (permanent immediate : bool) : bool :=
  if negb permanent && negb immediate then true else immediate.

(** [if immediate and fw_offline: module.fail_json(...)] *)
Definition require_running (immediate : bool) : M unit :=
  off <- self_fw_offline;;
  if immediate && off then fail_json firewall_not_running_msg else ret tt.

(** The layer flags [(permanent, immediate)] that [main] works with. *)
Definition layer_flags (offline permanent immediate : bool) : M (bool * bool) :=
  immediate <- offline_override offline permanent immediate;;
  let immediate := immediate_default permanent immediate in
  require_running immediate;;;
  ret (permanent, immediate).

(** The parsing of [port] and of [source_port] into (port, protocol);
    [msg] is the failure message of the parameter. *)
Definition parse_port (msg : string) (param : option string)
    : M (option string * option string) :=
  match param with
  | Some v =>
      r <- (if PyStr.contains slash v then
              match PyStr.split slash (PyStr.strip v) with
              | [port; port_protocol] => ret (Some port, Some port_protocol)
              | _ => raise ValueError
              end
            else ret (None, None));;
      if negb (truthy_str r.2) then fail_json msg else ret r
  | None => ret (None, None)
  end.

Definition require_key (key msg : string) (d : gmap string string) : M unit :=
  if bool_decide (is_Some (d !! key)) then ret tt else fail_json msg.

(** The checks on [port_forward]; the result is the dictionary and
    [port_forward_toaddr]. *)
Definition parse_port_forward (param : option (list (gmap string string)))
    : M (option (gmap string string) * string) :=
  match param with
  | Some l =>
      (if (1 <? length l)%nat
       then fail_json "Only one port forward supported at a time" else ret tt);;;
      match l with
      | [] => raise IndexError
      | port_forward :: _ =>
          require_key "port" "port must be specified for port forward" port_forward;;;
          require_key "proto" "proto udp/tcp must be specified for port forward"
            port_forward;;;
          require_key "toport" "toport must be specified for port forward"
            port_forward;;;
          ret (Some port_forward, default EmptyString (port_forward !! "toaddr"))
      end
  | None => ret (None, EmptyString)
  end.

(** [modification]: whether any primitive has a true value. *)
Definition modification_of (p : Params) (port source_port : option string)
    (port_forward : option (gmap string string)) : bool :=
  truthy_str (p_icmp_block p) || truthy_bool (p_icmp_block_inversion p)
  || truthy_str (p_service p) || truthy_str (p_protocol p) || truthy_str port
  || truthy_str source_port || truthy_dict port_forward
  || truthy_str (p_rich_rule p) || truthy_str (p_interface p)
  || truthy_bool (p_forward p) || truthy_bool (p_masquerade p)
  || truthy_str (p_source p) || truthy_str (p_target p).

(** The normalization of a boolean flag against the requested state:
    ['enabled' if (desired_state == 'enabled') == flag else 'disabled']. *)
Definition expected_state (desired_state : State) (flag : bool) : State :=
  if Bool.eqb (bool_decide (desired_state = enabled)) flag then enabled
  else disabled.

(** One transaction of [main]: [changed, transaction_msgs =
    transaction.run()], [msgs = msgs + transaction_msgs], and the messages
    [extra] appended [if changed is True].  [changed] is overwritten. *)
Definition transact (tx : Transaction) (desired_state : State)
    (permanent immediate : bool) (extra : list Msg) (acc : bool * list Msg)
    : M (bool * list Msg) :=
  r <- run tx desired_state permanent immediate;;
  ret (r.1, acc.2 ++ r.2 ++ (if r.1 then extra else [])).

(** The end of [main]: the offline note, then
    [module.exit_json(changed=changed, msg=', '.join(msgs))]; the messages
    are kept as a list. *)
Definition exit_json (acc : bool * list Msg) : M (bool * list Msg) :=
  off <- self_fw_offline;;
  let msgs :=
    if off then acc.2 ++ [Text "(offline operation: only on-disk configs were altered)"]
    else acc.2 in
  ret (acc.1, msgs).

(** [desired_state in ['absent', 'present']] *)
Definition zone_level_state (desired_state : State) : bool :=
  bool_decide (desired_state ∈ [absent; present]).

(** [main], from the sanity check on.  [FirewallTransaction.sanity_check]
    looks at the Python bindings of the host, not at the parameters or the
    daemon's configuration, and is taken to pass.  The base-class
    constructor resolves the zone of every transaction; the default zone
    does not change within a run, so it is resolved once. *)
Definition main `{RichLanguage} (p : Params) : M (bool * list Msg) :=
  let desired_state := p_state p in
  let timeout := p_timeout p in
  let zone := p_zone p in
  layers <- layer_flags (p_offline p) (p_permanent p) (p_immediate p);;
  let permanent := layers.1 in
  let immediate := layers.2 in
  pp <- parse_port improper_port_msg (p_port p);;
  let port := pp.1 in
  let port_protocol := default EmptyString pp.2 in
  sp <- parse_port improper_source_port_msg (p_source_port p);;
  let source_port := sp.1 in
  let source_port_protocol := default EmptyString sp.2 in
  pf <- parse_port_forward (p_port_forward p);;
  let port_forward := pf.1 in
  let port_forward_toaddr := pf.2 in
  let modification := modification_of p port source_port port_forward in
  (if modification && zone_level_state desired_state
      && bool_decide (p_target p = None)
   then fail_json zone_level_only_msg else ret tt);;;
  z <- self_zone zone;;
  acc <- ret (false, []);;
  acc <- match p_icmp_block p with
         | Some icmp_block =>
             transact (IcmpBlockTransaction.make z icmp_block timeout)
               desired_state permanent immediate
               [Text ("Changed icmp-block " +:+ icmp_block +:+ " to "
                      +:+ State_str desired_state)] acc
         | None => ret acc
         end;;
  acc <- match p_icmp_block_inversion p with
         | Some icmp_block_inversion =>
             transact (IcmpBlockInversionTransaction.make z)
               (expected_state desired_state icmp_block_inversion)
               permanent immediate
               [Text ("Changed icmp-block-inversion "
                      +:+ fmt_bool icmp_block_inversion +:+ " to "
                      +:+ State_str desired_state)] acc
         | None => ret acc
         end;;
  acc <- match p_service p with
         | Some service =>
             transact (ServiceTransaction.make z service timeout)
               desired_state permanent immediate
               [Text ("Changed service " +:+ service +:+ " to "
                      +:+ State_str desired_state)] acc
         | None => ret acc
         end;;
  acc <- match p_protocol p with
         | Some protocol =>
             transact (ProtocolTransaction.make z protocol timeout)
               desired_state permanent immediate
               [Text ("Changed protocol " +:+ protocol +:+ " to "
                      +:+ State_str desired_state)] acc
         | None => ret acc
         end;;
  acc <- match p_source p with
         | Some source =>
             transact (SourceTransaction.make z source)
               desired_state permanent immediate [] acc
         | None => ret acc
         end;;
  acc <- match port with
         | Some port =>
             transact (PortTransaction.make z port port_protocol timeout)
               desired_state permanent immediate
               [Text ("Changed port " +:+ port +:+ "/" +:+ port_protocol
                      +:+ " to " +:+ State_str desired_state)] acc
         | None => ret acc
         end;;
  acc <- match source_port with
         | Some source_port =>
             transact
               (SourcePortTransaction.make z source_port source_port_protocol
                  timeout)
               desired_state permanent immediate
               [Text ("Changed source_port " +:+ source_port +:+ "/"
                      +:+ source_port_protocol +:+ " to "
                      +:+ State_str desired_state)] acc
         | None => ret acc
         end;;
  acc <- match port_forward with
         | Some d =>
             let port := default EmptyString (d !! "port") in
             let proto := default EmptyString (d !! "proto") in
             let toport := default EmptyString (d !! "toport") in
             transact
               (ForwardPortTransaction.make z port proto toport
                  port_forward_toaddr timeout)
               desired_state permanent immediate
               [Text ("Changed port_forward port=" +:+ port +:+ ":proto="
                      +:+ proto +:+ ":toport=" +:+ toport +:+ ":toaddr="
                      +:+ port_forward_toaddr +:+ " to "
                      +:+ State_str desired_state)] acc
         | None => ret acc
         end;;
  acc <- match p_rich_rule p with
         | Some rich_rule =>
             transact (RichRuleTransaction.make z rich_rule timeout)
               desired_state permanent immediate
               [Text ("Changed rich_rule " +:+ rich_rule +:+ " to "
                      +:+ State_str desired_state)] acc
         | None => ret acc
         end;;
  acc <- match p_interface p with
         | Some interface =>
             transact (InterfaceTransaction.make z interface)
               desired_state permanent immediate [] acc
         | None => ret acc
         end;;
  acc <- match p_forward p with
         | Some forward =>
             transact (ForwardTransaction.make z)
               (expected_state desired_state forward)
               permanent immediate [] acc
         | None => ret acc
         end;;
  acc <- match p_masquerade p with
         | Some masquerade =>
             transact (MasqueradeTransaction.make z)
               (expected_state desired_state masquerade)
               permanent immediate [] acc
         | None => ret acc
         end;;
  acc <- match p_target p with
         | Some target =>
             transact (ZoneTargetTransaction.make z target)
               desired_state permanent immediate [] acc
         | None => ret acc
         end;;
  acc <- (if negb modification && zone_level_state desired_state
          then
            transact (ZoneTransaction.make z) desired_state permanent immediate
              [Text ("Changed zone " +:+ fmt_opt zone +:+ " to "
                     +:+ State_str desired_state)] acc
          else ret acc);;
  exit_json acc.

(** ** Rule kinds

    The closed set of transaction classes, each with the action arguments
    [main] passes to it. *)
Inductive RuleKind :=
| IcmpBlock (icmp_block : string) (timeout : Z)
| IcmpBlockInversion
| Service (service : string) (timeout : Z)
| Protocol (protocol : string) (timeout : Z)
| Forward
| Masquerade
| Port (port protocol : string) (timeout : Z)
| SourcePort (port protocol : string) (timeout : Z)
| Interface (interface : string)
| RichRule (rule : string) (timeout : Z)
| Source (source : string)
| ZoneTarget (target : string)
| Zone
| ForwardPort (port proto toport toaddr : string) (timeout : Z).

(** The transaction object of a rule kind on a zone. *)
Definition transaction `{RichLanguage} (zone : string) (k : RuleKind) : Transaction :=
  match k with
  | IcmpBlock b t => IcmpBlockTransaction.make zone b t
  | IcmpBlockInversion => IcmpBlockInversionTransaction.make zone
  | Service s t => ServiceTransaction.make zone s t
  | Protocol s t => ProtocolTransaction.make zone s t
  | Forward => ForwardTransaction.make zone
  | Masquerade => MasqueradeTransaction.make zone
  | Port p pr t => PortTransaction.make zone p pr t
  | SourcePort p pr t => SourcePortTransaction.make zone p pr t
  | Interface i => InterfaceTransaction.make zone i
  | RichRule r t => RichRuleTransaction.make zone r t
  | Source s => SourceTransaction.make zone s
  | ZoneTarget t => ZoneTargetTransaction.make zone t
  | Zone => ZoneTransaction.make zone
  | ForwardPort p pr tp ta t => ForwardPortTransaction.make zone p pr tp ta t
  end.

(** The three kinds whose parameter is a boolean flag. *)
Inductive FlagKind := FlagForward | FlagMasquerade | FlagIcmpBlockInversion.

Definition flag_transaction (zone : string) (k : FlagKind) : Transaction :=
  match k with
  | FlagForward => ForwardTransaction.make zone
  | FlagMasquerade => MasqueradeTransaction.make zone
  | FlagIcmpBlockInversion => IcmpBlockInversionTransaction.make zone
  end.

(** The rule kind of a flag kind. *)
Definition flag_rule_kind (k : FlagKind) : RuleKind :=
  match k with
  | FlagForward => Forward
  | FlagMasquerade => Masquerade
  | FlagIcmpBlockInversion => IcmpBlockInversion
  end.

(** The flag of a kind in a zone's settings. *)
Definition flag_of (k : FlagKind) (z : ZoneSettings) : bool :=
  match k with
  | FlagForward => z_forward z
  | FlagMasquerade => z_masquerade z
  | FlagIcmpBlockInversion => z_icmp_block_inversion z
  end.

(** ** Laws of a transaction object

    What the reconciliation relies on: probing does not mutate; a layer's
    mutation leaves the daemon's mode and the other layer's probe alone.
    The immediate operations are only ever called on a running daemon. *)
Record Lawful (tx : Transaction) : Prop := mkLawful {
  probe_permanent_pure : forall fw b fw',
    tx_get_enabled_permanent tx fw = Done b fw' -> fw' = fw;
  probe_immediate_pure : forall fw b fw',
    tx_get_enabled_immediate tx fw = Done b fw' -> fw' = fw;
  set_keeps_mode : forall op fw fw',
    op ∈ [tx_set_enabled_permanent tx; tx_set_disabled_permanent tx;
          tx_set_enabled_immediate tx; tx_set_disabled_immediate tx] ->
    op fw = Done tt fw' -> fw_offline fw' = fw_offline fw;
  permanent_keeps_immediate : forall op fw fw' b,
    op ∈ [tx_set_enabled_permanent tx; tx_set_disabled_permanent tx] ->
    fw_offline fw = false ->
    op fw = Done tt fw' ->
    tx_get_enabled_immediate tx fw = Done b fw ->
    tx_get_enabled_immediate tx fw' = Done b fw';
  immediate_keeps_permanent : forall op fw fw' b,
    op ∈ [tx_set_enabled_immediate tx; tx_set_disabled_immediate tx] ->
    fw_offline fw = false ->
    op fw = Done tt fw' ->
    tx_get_enabled_permanent tx fw = Done b fw ->
    tx_get_enabled_permanent tx fw' = Done b fw'
}.

(** Enabling a layer makes its probe answer true. *)
Record Enables (tx : Transaction) : Prop := mkEnables {
  enabled_permanent : forall fw fw',
    tx_set_enabled_permanent tx fw = Done tt fw' ->
    tx_get_enabled_permanent tx fw' = Done true fw';
  enabled_immediate : forall fw fw',
    fw_offline fw = false ->
    tx_set_enabled_immediate tx fw = Done tt fw' ->
    tx_get_enabled_immediate tx fw' = Done true fw'
}.

(** Disabling a layer makes its probe answer false. *)
Record Disables (tx : Transaction) : Prop := mkDisables {
  disabled_permanent : forall fw fw',
    tx_set_disabled_permanent tx fw = Done tt fw' ->
    tx_get_enabled_permanent tx fw' = Done false fw';
  disabled_immediate : forall fw fw',
    fw_offline fw = false ->
    tx_set_disabled_immediate tx fw = Done tt fw' ->
    tx_get_enabled_immediate tx fw' = Done false fw'
}.

(** The one combination whose disabling does not make the probe answer
    false: a zone target of ["default"] with a disabling state. *)
Definition resets_default_target (k : RuleKind) (desired_state : State) : bool :=
  match k with
  | ZoneTarget target =>
      bool_decide (target = "default")
      && bool_decide (desired_state ∈ ZoneTargetTransaction.disabled_values)
  | _ => false
  end.

(** ** Invocations of one boolean flag *)

(** The flag parameter of a kind. *)
Definition flag_param (k : FlagKind) (p : Params) : option bool :=
  match k with
  | FlagForward => p_forward p
  | FlagMasquerade => p_masquerade p
  | FlagIcmpBlockInversion => p_icmp_block_inversion p
  end.

(** The messages [main] appends after a changing transaction of the kind. *)
Definition flag_changed_msgs (k : FlagKind) (flag : bool) (desired_state : State)
    : list Msg :=
  match k with
  | FlagIcmpBlockInversion =>
      [Text ("Changed icmp-block-inversion " +:+ fmt_bool flag +:+ " to "
             +:+ State_str desired_state)]
  | _ => []
  end.

(** An invocation without any primitive. *)
Definition zone_invocation (zone : option string) (desired_state : State)
    (permanent immediate offline : bool) (timeout : Z) : Params :=
  mkParams None None None None None None None None zone immediate None
    permanent desired_state timeout None None None offline None.

(** An invocation whose only primitive is the flag of kind [k]. *)
Definition flag_invocation (k : FlagKind) (flag : bool) (zone : option string)
    (desired_state : State) (permanent immediate offline : bool) (timeout : Z)
    : Params :=
  mkParams None
    (match k with FlagIcmpBlockInversion => Some flag | _ => None end)
    None None None None None None zone immediate None
    permanent desired_state timeout None
    (match k with FlagForward => Some flag | _ => None end)
    (match k with FlagMasquerade => Some flag | _ => None end)
    offline None.

(** ** Example data *)

(** A rich language whose rules are their own canonical form. *)
Definition plain_rules : RichLanguage := {| Rich_Rule := fun rule => rule |}.

Definition zone_home : ZoneSettings :=
  Settings.addInterface "eth0" FirewallClientZoneSettings.

Definition zone_drop : ZoneSettings :=
  Settings.setIcmpBlockInversion true FirewallClientZoneSettings.

(** A running daemon with three zones; [eth0] is bound to [home]. *)
Definition fw_running : Firewall :=
  mkFirewall false "public"
    {[ "public" := FirewallClientZoneSettings; "home" := zone_home;
       "drop" := zone_drop ]}
    {[ "public" := FirewallClientZoneSettings; "home" := zone_home;
       "drop" := zone_drop ]}.

(** The same configuration with the daemon stopped. *)
Definition fw_stopped : Firewall :=
  mkFirewall true "public" (config fw_running) (runtime fw_running).

(** A stopped daemon whose zone files bind [eth0] twice. *)
Definition fw_twice : Firewall :=
  mkFirewall true "public"
    {[ "public" := zone_home; "home" := zone_home;
       "drop" := zone_drop ]}
    ∅.

(** The outcome of [main] without its messages. *)
Definition changed_only (o : outcome (bool * list Msg)) : outcome bool :=
  match o with
  | Done r fw => Done r.1 fw
  | FailJson msg fw => FailJson msg fw
  | Raised e fw => Raised e fw
  end.

(** An invocation whose only primitive is [port]. *)
Definition port_invocation (port : string) (zone : option string)
    (desired_state : State) (permanent immediate offline : bool) (timeout : Z)
    : Params :=
  mkParams None None None None (Some port) None None None zone immediate None
    permanent desired_state timeout None None None offline None.

(** An invocation whose only primitive is [target]. *)
Definition target_invocation (target : string) (zone : option string)
    (desired_state : State) (permanent immediate offline : bool) (timeout : Z)
    : Params :=
  mkParams None None None None None None None None zone immediate None
    permanent desired_state timeout None None None offline (Some target).

(** ** Views of [main] and of the state used by the properties *)

(** The state an outcome ends in. *)
Definition outcome_state {A} (o : outcome A) : Firewall :=
  match o with Done _ fw | FailJson _ fw | Raised _ fw => fw end.

(** The number of primitives an invocation gives: the sum the
    [mutually_exclusive] check bounds. *)
Definition primitives_given (p : Params) : nat :=
  given (p_icmp_block p) + given (p_icmp_block_inversion p) + given (p_service p)
  + given (p_protocol p) + given (p_port p) + given (p_source_port p)
  + given (p_port_forward p) + given (p_rich_rule p) + given (p_interface p)
  + given (p_forward p) + given (p_masquerade p) + given (p_source p)
  + given (p_target p).

(** The transactions [main] runs, in its order: for each, the rule kind, the
    desired state it is constructed with, and the messages appended when it
    reports a change.  [pp], [sp] and [pf] are the results of the parsing of
    [port], [source_port] and [port_forward]. *)
Definition planned (p : Params) (pp sp : option string * option string)
    (pf : option (gmap string string) * string)
    : list (RuleKind * State * list Msg) :=
  let desired_state := p_state p in
  let timeout := p_timeout p in
  let port_protocol := default EmptyString pp.2 in
  let source_port_protocol := default EmptyString sp.2 in
  let port_forward_toaddr := pf.2 in
  let modification := modification_of p pp.1 sp.1 pf.1 in
  match p_icmp_block p with
  | Some icmp_block =>
      [(IcmpBlock icmp_block timeout, desired_state,
        [Text ("Changed icmp-block " +:+ icmp_block +:+ " to "
               +:+ State_str desired_state)])]
  | None => []
  end
  ++ match p_icmp_block_inversion p with
     | Some icmp_block_inversion =>
         [(IcmpBlockInversion, expected_state desired_state icmp_block_inversion,
           [Text ("Changed icmp-block-inversion "
                  +:+ fmt_bool icmp_block_inversion +:+ " to "
                  +:+ State_str desired_state)])]
     | None => []
     end
  ++ match p_service p with
     | Some service =>
         [(Service service timeout, desired_state,
           [Text ("Changed service " +:+ service +:+ " to "
                  +:+ State_str desired_state)])]
     | None => []
     end
  ++ match p_protocol p with
     | Some protocol =>
         [(Protocol protocol timeout, desired_state,
           [Text ("Changed protocol " +:+ protocol +:+ " to "
                  +:+ State_str desired_state)])]
     | None => []
     end
  ++ match p_source p with
     | Some source => [(Source source, desired_state, [])]
     | None => []
     end
  ++ match pp.1 with
     | Some port =>
         [(Port port port_protocol timeout, desired_state,
           [Text ("Changed port " +:+ port +:+ "/" +:+ port_protocol
                  +:+ " to " +:+ State_str desired_state)])]
     | None => []
     end
  ++ match sp.1 with
     | Some source_port =>
         [(SourcePort source_port source_port_protocol timeout, desired_state,
           [Text ("Changed source_port " +:+ source_port +:+ "/"
                  +:+ source_port_protocol +:+ " to "
                  +:+ State_str desired_state)])]
     | None => []
     end
  ++ match pf.1 with
     | Some d =>
         let port := default EmptyString (d !! "port") in
         let proto := default EmptyString (d !! "proto") in
         let toport := default EmptyString (d !! "toport") in
         [(ForwardPort port proto toport port_forward_toaddr timeout,
           desired_state,
           [Text ("Changed port_forward port=" +:+ port +:+ ":proto="
                  +:+ proto +:+ ":toport=" +:+ toport +:+ ":toaddr="
                  +:+ port_forward_toaddr +:+ " to "
                  +:+ State_str desired_state)])]
     | None => []
     end
  ++ match p_rich_rule p with
     | Some rich_rule =>
         [(RichRule rich_rule timeout, desired_state,
           [Text ("Changed rich_rule " +:+ rich_rule +:+ " to "
                  +:+ State_str desired_state)])]
     | None => []
     end
  ++ match p_interface p with
     | Some interface => [(Interface interface, desired_state, [])]
     | None => []
     end
  ++ match p_forward p with
     | Some forward => [(Forward, expected_state desired_state forward, [])]
     | None => []
     end
  ++ match p_masquerade p with
     | Some masquerade =>
         [(Masquerade, expected_state desired_state masquerade, [])]
     | None => []
     end
  ++ match p_target p with
     | Some target => [(ZoneTarget target, desired_state, [])]
     | None => []
     end
  ++ (if negb modification && zone_level_state desired_state
      then [(Zone, desired_state,
             [Text ("Changed zone " +:+ fmt_opt (p_zone p) +:+ " to "
                    +:+ State_str desired_state)])]
      else []).

(** Running a list of transactions the way [main] chains them. *)
Fixpoint run_all `{RichLanguage} (z : string) (permanent immediate : bool)
    (plan : list (RuleKind * State * list Msg)) (acc : bool * list Msg)
    : M (bool * list Msg) :=
  match plan with
  | [] => ret acc
  | (k, st, extra) :: plan' =>
      acc' <- transact (transaction z k) st permanent immediate extra acc;;
      run_all z permanent immediate plan' acc'
  end.

(** The parts of the state a layer's operations leave alone. *)
Definition same_mode (fw fw' : Firewall) : Prop :=
  fw_offline fw' = fw_offline fw /\ default_zone fw' = default_zone fw.

Definition same_runtime (fw fw' : Firewall) : Prop :=
  runtime fw' = runtime fw /\ same_mode fw fw'.

Definition same_config (fw fw' : Firewall) : Prop :=
  config fw' = config fw /\ same_mode fw fw'.

(** A computation that keeps a relation between the state it starts in and
    the state it ends in, however it ends. *)
Definition keeps (R : Firewall -> Firewall -> Prop) {A} (m : M A) : Prop :=
  forall fw, R fw (outcome_state (m fw)).

(** The frame of a transaction object: probing changes nothing, the
    permanent setters leave the runtime alone, the immediate setters leave
    the permanent configuration alone, and none changes the daemon's mode
    or its default zone; all of it however the operation ends. *)
Record Framed (tx : Transaction) : Prop := mkFramed {
  frame_get_permanent : keeps eq (tx_get_enabled_permanent tx);
  frame_get_immediate : keeps eq (tx_get_enabled_immediate tx);
  frame_set_enabled_permanent : keeps same_runtime (tx_set_enabled_permanent tx);
  frame_set_disabled_permanent : keeps same_runtime (tx_set_disabled_permanent tx);
  frame_set_enabled_immediate : keeps same_config (tx_set_enabled_immediate tx);
  frame_set_disabled_immediate : keeps same_config (tx_set_disabled_immediate tx)
}.

(** The note [main] appends to its messages when the daemon is offline. *)
Definition offline_note (fw : Firewall) : list Msg :=
  if fw_offline fw
  then [Text "(offline operation: only on-disk configs were altered)"]
  else [].

(** An interface is bound to at most one zone of a layer. *)
Definition exclusive (m : gmap string ZoneSettings) : Prop :=
  forall i z1 z2 s1 s2,
    m !! z1 = Some s1 -> m !! z2 = Some s2 ->
    i ∈ z_interfaces s1 -> i ∈ z_interfaces s2 -> z1 = z2.

(** The invariant of interface bindings: exclusive in both layers; and no
    zone of the permanent configuration has the empty name, which
    [getZoneOfInterface] answers for an unbound interface. *)
Definition interfaces_exclusive (fw : Firewall) : Prop :=
  exclusive (config fw) /\ exclusive (runtime fw)
  /\ config fw !! EmptyString = None.

(** The relation of a computation that maintains [I]. *)
Definition preserves (I : Firewall -> Prop) (fw fw' : Firewall) : Prop :=
  I fw -> I fw'.

(** Every zone but [zone] is what it was, in both layers. *)
Definition other_zones (zone : string) (fw fw' : Firewall) : Prop :=
  forall z', z' <> zone ->
    config fw' !! z' = config fw !! z' /\ runtime fw' !! z' = runtime fw !! z'.

Definition is_interface (k : RuleKind) : bool :=
  match k with Interface _ => true | _ => false end.

(** * Properties *)

(** ** The monad *)

Lemma bind_Done {A B} (m : M A) (k : A -> M B) fw b fw' :
  bind m k fw = Done b fw' ->
  exists a fw1, m fw = Done a fw1 /\ k a fw1 = Done b fw'.
Proof.
  unfold bind. destruct (m fw) as [a fw1|msg fw1|e fw1]; try discriminate.
  eauto.
Qed.

Lemma bind_FailJson {A B} (m : M A) (k : A -> M B) fw msg fw' :
  bind m k fw = FailJson msg fw' ->
  m fw = FailJson msg fw' \/
  exists a fw1, m fw = Done a fw1 /\ k a fw1 = FailJson msg fw'.
Proof.
  unfold bind. destruct (m fw) as [a fw1|msg1 fw1|e fw1]; intros Hk;
    [right; eauto | left; by injection Hk as -> -> | discriminate].
Qed.

(** ** Unfolding the daemon's operations *)

Create HintDb fw_ops.
#[local] Hint Unfold bind ret fail_json raise self_fw_offline self_zone
  get_fw_zone_settings update_fw_settings
  Config.get_zone_config Config.set_zone_config Config.getSettings Config.update
  Config.new_zone Config.addZone Config.remove_zone Config.remove
  Live.query Live.change
  Live.getIcmpBlocks Live.addIcmpBlock Live.removeIcmpBlock
  Live.queryIcmpBlockInversion Live.addIcmpBlockInversion
  Live.removeIcmpBlockInversion
  Live.getServices Live.addService Live.removeService
  Live.getProtocols Live.addProtocol Live.removeProtocol
  Live.queryForward Live.addForward Live.removeForward
  Live.queryMasquerade Live.addMasquerade Live.removeMasquerade
  Live.queryPort Live.addPort Live.removePort
  Live.querySourcePort Live.addSourcePort Live.removeSourcePort
  Live.queryForwardPort Live.addForwardPort Live.removeForwardPort
  Live.getRichRules Live.addRichRule Live.removeRichRule
  Live.getSources Live.addSource Live.removeSource
  Live.getInterfaces Live.removeInterface Live.changeZoneOfInterface : fw_ops.

#[local] Hint Unfold
  Settings.getServices Settings.addService Settings.removeService
  Settings.getProtocols Settings.addProtocol Settings.removeProtocol
  Settings.queryPort Settings.addPort Settings.removePort
  Settings.querySourcePort Settings.addSourcePort Settings.removeSourcePort
  Settings.queryForwardPort Settings.addForwardPort Settings.removeForwardPort
  Settings.getRichRules Settings.addRichRule Settings.removeRichRule
  Settings.getInterfaces Settings.addInterface Settings.removeInterface
  Settings.getSources Settings.addSource Settings.removeSource
  Settings.getIcmpBlocks Settings.addIcmpBlock Settings.removeIcmpBlock
  Settings.queryForward Settings.getMasquerade Settings.getIcmpBlockInversion
  Settings.getTarget Settings.setTarget Settings.setForward Settings.setMasquerade
  Settings.setIcmpBlockInversion
  Settings.with_services Settings.with_ports Settings.with_protocols
  Settings.with_source_ports Settings.with_forward_ports Settings.with_rich_rules
  Settings.with_interfaces Settings.with_sources Settings.with_icmp_blocks
  set_config set_runtime : fw_ops.

Create HintDb fw_tx.
#[local] Hint Unfold
  IcmpBlockTransaction.get_enabled_immediate
  IcmpBlockTransaction.get_enabled_permanent
  IcmpBlockTransaction.set_enabled_immediate
  IcmpBlockTransaction.set_enabled_permanent
  IcmpBlockTransaction.set_disabled_immediate
  IcmpBlockTransaction.set_disabled_permanent
  IcmpBlockInversionTransaction.get_enabled_immediate
  IcmpBlockInversionTransaction.get_enabled_permanent
  IcmpBlockInversionTransaction.set_enabled_immediate
  IcmpBlockInversionTransaction.set_enabled_permanent
  IcmpBlockInversionTransaction.set_disabled_immediate
  IcmpBlockInversionTransaction.set_disabled_permanent
  ServiceTransaction.get_enabled_immediate ServiceTransaction.get_enabled_permanent
  ServiceTransaction.set_enabled_immediate ServiceTransaction.set_enabled_permanent
  ServiceTransaction.set_disabled_immediate ServiceTransaction.set_disabled_permanent
  ProtocolTransaction.get_enabled_immediate ProtocolTransaction.get_enabled_permanent
  ProtocolTransaction.set_enabled_immediate ProtocolTransaction.set_enabled_permanent
  ProtocolTransaction.set_disabled_immediate
  ProtocolTransaction.set_disabled_permanent
  ForwardTransaction.get_enabled_immediate ForwardTransaction.get_enabled_permanent
  ForwardTransaction.set_enabled_immediate ForwardTransaction.set_enabled_permanent
  ForwardTransaction.set_disabled_immediate ForwardTransaction.set_disabled_permanent
  MasqueradeTransaction.get_enabled_immediate
  MasqueradeTransaction.get_enabled_permanent
  MasqueradeTransaction.set_enabled_immediate
  MasqueradeTransaction.set_enabled_permanent
  MasqueradeTransaction.set_disabled_immediate
  MasqueradeTransaction.set_disabled_permanent
  PortTransaction.get_enabled_immediate PortTransaction.get_enabled_permanent
  PortTransaction.set_enabled_immediate PortTransaction.set_enabled_permanent
  PortTransaction.set_disabled_immediate PortTransaction.set_disabled_permanent
  SourcePortTransaction.get_enabled_immediate
  SourcePortTransaction.get_enabled_permanent
  SourcePortTransaction.set_enabled_immediate
  SourcePortTransaction.set_enabled_permanent
  SourcePortTransaction.set_disabled_immediate
  SourcePortTransaction.set_disabled_permanent
  InterfaceTransaction.get_enabled_immediate
  InterfaceTransaction.get_enabled_permanent
  InterfaceTransaction.set_enabled_immediate
  InterfaceTransaction.set_disabled_immediate
  InterfaceTransaction.set_disabled_permanent
  RichRuleTransaction.get_enabled_immediate RichRuleTransaction.get_enabled_permanent
  RichRuleTransaction.set_enabled_immediate RichRuleTransaction.set_enabled_permanent
  RichRuleTransaction.set_disabled_immediate
  RichRuleTransaction.set_disabled_permanent
  SourceTransaction.get_enabled_immediate SourceTransaction.get_enabled_permanent
  SourceTransaction.set_enabled_immediate SourceTransaction.set_enabled_permanent
  SourceTransaction.set_disabled_immediate SourceTransaction.set_disabled_permanent
  ZoneTargetTransaction.get_enabled_immediate
  ZoneTargetTransaction.get_enabled_permanent
  ZoneTargetTransaction.set_enabled_immediate
  ZoneTargetTransaction.set_enabled_permanent
  ZoneTargetTransaction.set_disabled_immediate
  ZoneTargetTransaction.set_disabled_permanent
  ForwardPortTransaction.get_enabled_immediate
  ForwardPortTransaction.get_enabled_permanent
  ForwardPortTransaction.set_enabled_immediate
  ForwardPortTransaction.set_enabled_permanent
  ForwardPortTransaction.set_disabled_immediate
  ForwardPortTransaction.set_disabled_permanent
  : fw_tx.

(** Case analysis on what an operation looks up. *)
Ltac fw_case :=
  match goal with
  | H : context [match config ?fw !! ?z with _ => _ end] |- _ =>
      destruct (config fw !! z) eqn:?
  | H : context [match runtime ?fw !! ?z with _ => _ end] |- _ =>
      destruct (runtime fw !! z) eqn:?
  | H : context [if fw_offline ?fw then _ else _] |- _ =>
      destruct (fw_offline fw) eqn:?
  | |- context [match config ?fw !! ?z with _ => _ end] =>
      destruct (config fw !! z) eqn:?
  | |- context [match runtime ?fw !! ?z with _ => _ end] =>
      destruct (runtime fw !! z) eqn:?
  | |- context [if fw_offline ?fw then _ else _] =>
      destruct (fw_offline fw) eqn:?
  | H : context [if bool_decide ?P then _ else _] |- _ =>
      destruct (bool_decide P) eqn:?
  | H : context [if ?b then _ else _] |- _ =>
      match type of b with bool => destruct b eqn:? end
  end.

Ltac fw_simpl :=
  repeat (autounfold with fw_ops in *; simpl in *; simplify_eq;
          try rewrite lookup_insert_eq in *; simpl in *).

(** Membership questions left after the case analysis. *)
Ltac fw_member :=
  first [ reflexivity
        | congruence
        | apply elem_of_union_l, elem_of_singleton_2; reflexivity
        | let Hn := fresh in
          intros [_ Hn]%elem_of_difference;
          apply Hn, elem_of_singleton_2; reflexivity ].

Ltac fw_finish :=
  repeat match goal with
  | |- context [bool_decide ?P] =>
      (rewrite (bool_decide_eq_true_2 P) by fw_member)
      || (rewrite (bool_decide_eq_false_2 P) by fw_member)
  end; try reflexivity; try congruence.

Ltac fw_crush := fw_simpl; repeat (fw_case; fw_simpl); fw_finish.

Ltac tx_crush := autounfold with fw_tx in *; fw_crush.

(** Splitting a law into one goal per operation. *)
Ltac law_cases :=
  split; simpl; intros;
  try match goal with
      | H : _ ∈ _ |- _ =>
          rewrite ?elem_of_cons, elem_of_nil in H;
          repeat match goal with
                 | H' : _ \/ _ |- _ => destruct H' as [H' | H']
                 | H' : False |- _ => destruct H'
                 end; subst
      end.

(** ** The engine *)

Lemma probe_Done requested get fw o fw' :
  (forall fw b fw', get fw = Done b fw' -> fw' = fw) ->
  probe requested get fw = Done o fw' ->
  fw' = fw /\
  match o with
  | Some b => requested = true /\ get fw = Done b fw
  | None => requested = false
  end.
Proof.
  intros Hpure. unfold probe. destruct requested.
  - intros (b & fw1 & Hget & Hret)%bind_Done. unfold ret in Hret.
    injection Hret as <- <-. pose proof (Hpure _ _ _ Hget) as ->. auto.
  - unfold ret. intros [= <- <-]. auto.
Qed.

Lemma probe_eq requested get fw b :
  requested = true -> get fw = Done b fw ->
  probe requested get fw = Done (Some b) fw.
Proof. intros -> Hget. unfold probe, bind, ret. by rewrite Hget. Qed.

Lemma reconcile_None tx l want fw :
  reconcile tx l want None fw = Done (false, []) fw.
Proof. reflexivity. Qed.

Lemma reconcile_same tx l want fw :
  reconcile tx l want (Some want) fw = Done (false, []) fw.
Proof. unfold reconcile. by rewrite eqb_reflx. Qed.

(** What a reconciliation that returns did: nothing, or the one setter. *)
Lemma reconcile_Done tx l want o r fw fw' :
  reconcile tx l want o fw = Done r fw' ->
  (r = (false, []) /\ fw' = fw /\ (o = None \/ o = Some want)) \/
  (o = Some (negb want) /\ r.1 = true /\ setter tx l want fw = Done tt fw').
Proof.
  unfold reconcile. destruct o as [b|].
  - destruct (Bool.eqb b want) eqn:E.
    + apply eqb_prop in E as ->. unfold ret. intros [= <- <-]. left. auto.
    + apply eqb_false_iff in E. intros Hrec. right.
      assert (b = negb want) as -> by (destruct b, want; simpl; congruence).
      apply bind_Done in Hrec as ([] & fw1 & Hop & Hret).
      unfold ret in Hret. injection Hret as <- <-. auto.
  - unfold ret. intros [= <- <-]. left. auto.
Qed.

Lemma setter_permanent_elem tx want :
  setter tx Permanent want
  ∈ [tx_set_enabled_permanent tx; tx_set_disabled_permanent tx].
Proof. destruct want; set_solver. Qed.

Lemma setter_immediate_elem tx want :
  setter tx Immediate want
  ∈ [tx_set_enabled_immediate tx; tx_set_disabled_immediate tx].
Proof. destruct want; set_solver. Qed.

Lemma setter_elem tx l want :
  setter tx l want
  ∈ [tx_set_enabled_permanent tx; tx_set_disabled_permanent tx;
     tx_set_enabled_immediate tx; tx_set_disabled_immediate tx].
Proof. destruct l, want; set_solver. Qed.

(** A run on a state whose requested layers already answer the desired
    boolean changes nothing. *)
Lemma run_settled tx st perm imm want fw :
  desired_bool tx st = Some want ->
  imm && fw_offline fw = false ->
  (perm = true -> tx_get_enabled_permanent tx fw = Done want fw) ->
  (imm = true -> tx_get_enabled_immediate tx fw = Done want fw) ->
  run tx st perm imm fw = Done (false, []) fw.
Proof.
  intros Hwant Hoff Hp Hi. unfold run. rewrite Hoff, Hwant.
  unfold bind at 1.
  assert (probe perm (tx_get_enabled_permanent tx) fw
          = Done (if perm then Some want else None) fw) as ->.
  { destruct perm; [by apply probe_eq; auto | reflexivity]. }
  unfold bind at 1.
  assert (probe imm (tx_get_enabled_immediate tx) fw
          = Done (if imm then Some want else None) fw) as ->.
  { destruct imm; [by apply probe_eq; auto | reflexivity]. }
  unfold bind.
  assert (forall l (b : bool),
            reconcile tx l want (if b then Some want else None) fw
            = Done (false, []) fw) as Hrec.
  { intros l []; [apply reconcile_same | apply reconcile_None]. }
  by rewrite !Hrec.
Qed.

(** The two reconciliations of a run that returns. *)
Lemma run_Done tx st perm imm fw r fw1 want :
  Lawful tx ->
  desired_bool tx st = Some want ->
  run tx st perm imm fw = Done r fw1 ->
  imm && fw_offline fw = false /\
  exists op oi rp fwp ri,
    probe perm (tx_get_enabled_permanent tx) fw = Done op fw /\
    probe imm (tx_get_enabled_immediate tx) fw = Done oi fw /\
    reconcile tx Permanent want op fw = Done rp fwp /\
    reconcile tx Immediate want oi fwp = Done ri fw1 /\
    r = (rp.1 || ri.1, rp.2 ++ ri.2).
Proof.
  intros L Hwant Hrun. unfold run in Hrun.
  destruct (imm && fw_offline fw) eqn:Hoff; [discriminate|]. split; [done|].
  rewrite Hwant in Hrun.
  apply bind_Done in Hrun as (op & fwa & Hpp & (oi & fwb & Hpi & Hrec)%bind_Done).
  pose proof Hpp as [-> _]%probe_Done; [|apply L].
  pose proof Hpi as [-> _]%probe_Done; [|apply L].
  apply bind_Done in Hrec as (rp & fwp & Hrp & (ri & fwi & Hri & Hret)%bind_Done).
  unfold ret in Hret. injection Hret as <- <-.
  exists op, oi, rp, fwp, ri. auto.
Qed.

Lemma run_unwanted tx st perm imm fw r fw1 :
  Lawful tx ->
  desired_bool tx st = None ->
  run tx st perm imm fw = Done r fw1 ->
  r = (false, []) /\ fw1 = fw.
Proof.
  intros L Hnone. unfold run. destruct (imm && fw_offline fw); [discriminate|].
  rewrite Hnone.
  intros (op & fwa & Hpp & (oi & fwb & Hpi & Hret)%bind_Done)%bind_Done.
  apply probe_Done in Hpp as [-> _]; [|apply L].
  apply probe_Done in Hpi as [-> _]; [|apply L].
  unfold ret in Hret. by injection Hret as <- <-.
Qed.

(** After a run that returns, every requested layer answers the desired
    boolean, and the daemon's mode is what it was. *)
Lemma run_establishes tx st perm imm fw r fw1 want :
  Lawful tx ->
  (want = true -> Enables tx) ->
  (want = false -> Disables tx) ->
  desired_bool tx st = Some want ->
  run tx st perm imm fw = Done r fw1 ->
  fw_offline fw1 = fw_offline fw /\
  (perm = true -> tx_get_enabled_permanent tx fw1 = Done want fw1) /\
  (imm = true -> tx_get_enabled_immediate tx fw1 = Done want fw1).
Proof.
  intros L HE HD Hwant Hrun.
  destruct (run_Done _ _ _ _ _ _ _ _ L Hwant Hrun)
    as (Hoff & op & oi & rp & fwp & ri & Hpp & Hpi & Hrp & Hri & _).
  apply probe_Done in Hpp as [_ Hop]; [|apply L].
  apply probe_Done in Hpi as [_ Hoi]; [|apply L].
  assert (imm = true -> fw_offline fw = false) as Hon.
  { intros ->. exact Hoff. }
  assert (fw_offline fwp = fw_offline fw /\
          (perm = true -> tx_get_enabled_permanent tx fwp = Done want fwp) /\
          (forall b, imm = true -> tx_get_enabled_immediate tx fw = Done b fw ->
                     tx_get_enabled_immediate tx fwp = Done b fwp))
    as (Hm1 & Hp1 & Hi1).
  { apply reconcile_Done in Hrp as [(_ & -> & Ho) | (-> & _ & Hset)].
    - split; [done|]. split; [|auto]. intros ->.
      destruct Ho as [-> | ->]; [done | tauto].
    - destruct Hop as [_ Hget]. split; [|split].
      + eapply (set_keeps_mode _ L); [apply setter_elem | exact Hset].
      + intros _. destruct want.
        * by apply (enabled_permanent _ (HE eq_refl)) in Hset.
        * by apply (disabled_permanent _ (HD eq_refl)) in Hset.
      + intros b Himm Hb.
        eapply (permanent_keeps_immediate _ L);
          [apply setter_permanent_elem | by auto | exact Hset | exact Hb]. }
  apply reconcile_Done in Hri as [(_ & -> & Ho) | (-> & _ & Hset)].
  - split; [done|]. split; [done|]. intros ->.
    destruct Ho as [-> | ->]; [done|].
    destruct Hoi as [_ Hget]. by apply Hi1.
  - destruct Hoi as [-> Hget]. split; [|split].
    + rewrite <- Hm1. eapply (set_keeps_mode _ L); [apply setter_elem | exact Hset].
    + intros Hperm.
      eapply (immediate_keeps_permanent _ L);
        [apply setter_immediate_elem | | exact Hset | by auto].
      rewrite Hm1. auto.
    + intros _. assert (fw_offline fwp = false) by (rewrite Hm1; auto).
      destruct want.
      * by apply (enabled_immediate _ (HE eq_refl)) in Hset.
      * by apply (disabled_immediate _ (HD eq_refl)) in Hset.
Qed.

(** The engine is idempotent for every lawful transaction object whose
    setters make the probes answer the desired boolean. *)
Lemma run_idempotent tx st perm imm fw r fw1 :
  Lawful tx ->
  (desired_bool tx st = Some true -> Enables tx) ->
  (desired_bool tx st = Some false -> Disables tx) ->
  run tx st perm imm fw = Done r fw1 ->
  run tx st perm imm fw1 = Done (false, []) fw1.
Proof.
  intros L HE HD Hrun.
  destruct (desired_bool tx st) as [want|] eqn:Hwant.
  2:{ destruct (run_unwanted _ _ _ _ _ _ _ L Hwant Hrun) as [-> ->]. exact Hrun. }
  assert (imm && fw_offline fw = false) as Hoff.
  { unfold run in Hrun. by destruct (imm && fw_offline fw). }
  destruct (run_establishes tx st perm imm fw r fw1 want) as (Hm & Hp & Hi); auto.
  { intros ->. auto. }
  { intros ->. auto. }
  eapply run_settled; eauto. by rewrite Hm.
Qed.

(** A run that reports no change made none. *)
Lemma run_unchanged tx st perm imm fw r fw1 :
  Lawful tx ->
  run tx st perm imm fw = Done r fw1 ->
  r.1 = false -> fw1 = fw.
Proof.
  intros L Hrun Hr.
  destruct (desired_bool tx st) as [want|] eqn:Hwant.
  2:{ by destruct (run_unwanted _ _ _ _ _ _ _ L Hwant Hrun) as [_ ->]. }
  destruct (run_Done _ _ _ _ _ _ _ _ L Hwant Hrun)
    as (_ & op & oi & rp & fwp & ri & _ & _ & Hrp & Hri & ->).
  simpl in Hr. apply orb_false_elim in Hr as [Hrp1 Hri1].
  apply reconcile_Done in Hrp as [(_ & -> & _) | (_ & Hc & _)]; [|congruence].
  apply reconcile_Done in Hri as [(_ & -> & _) | (_ & Hc & _)]; [done|congruence].
Qed.

(** A run reports a change exactly when a requested layer did not answer
    the desired boolean. *)
Lemma run_changed_iff tx st perm imm fw r fw1 want :
  Lawful tx ->
  desired_bool tx st = Some want ->
  run tx st perm imm fw = Done r fw1 ->
  r.1 = true <->
  (perm = true /\ tx_get_enabled_permanent tx fw = Done (negb want) fw)
  \/ (imm = true /\ tx_get_enabled_immediate tx fw = Done (negb want) fw).
Proof.
  intros L Hwant Hrun.
  destruct (run_Done _ _ _ _ _ _ _ _ L Hwant Hrun)
    as (_ & op & oi & rp & fwp & ri & Hpp & Hpi & Hrp & Hri & ->).
  apply probe_Done in Hpp as [_ Hop]; [|apply L].
  apply probe_Done in Hpi as [_ Hoi]; [|apply L].
  assert (forall l o rl fwa fwb,
            reconcile tx l want o fwa = Done rl fwb ->
            rl.1 = true <-> o = Some (negb want)) as Hiff.
  { intros l o rl fwa fwb
      [(-> & _ & Ho) | (-> & Hc & _)]%reconcile_Done; [|done].
    split; [done|]. destruct Ho as [-> | ->]; [done|].
    intros [= Hw]. by destruct want. }
  simpl. rewrite orb_true_iff, (Hiff _ _ _ _ _ Hrp), (Hiff _ _ _ _ _ Hri).
  split; intros [Ho | Ho].
  - left. by rewrite Ho in Hop.
  - right. by rewrite Ho in Hoi.
  - left. destruct Ho as [Hperm Hget]. destruct op as [b|]; [|congruence].
    destruct Hop as [_ Hb]. congruence.
  - right. destruct Ho as [Himm Hget]. destruct oi as [b|]; [|congruence].
    destruct Hoi as [_ Hb]. congruence.
Qed.

(** ** The transaction classes obey the laws *)

Lemma get_zone_config_Done zone fw z fw1 :
  Config.get_zone_config zone fw = Done z fw1 ->
  fw1 = fw /\ config fw !! zone = Some z.
Proof.
  unfold Config.get_zone_config. destruct (config fw !! zone); [|discriminate].
  by intros [= <- <-].
Qed.

Lemma get_fw_zone_settings_Done zone fw s fw1 :
  get_fw_zone_settings zone fw = Done s fw1 ->
  fw1 = fw /\ s.1 = zone /\ config fw !! zone = Some s.2.
Proof.
  unfold get_fw_zone_settings.
  intros (z & fw2 & [-> Hz]%get_zone_config_Done & Hret)%bind_Done.
  unfold ret in Hret. by injection Hret as <- <-.
Qed.

Lemma get_fw_zone_settings_eq zone fw z :
  config fw !! zone = Some z ->
  get_fw_zone_settings zone fw = Done (zone, z) fw.
Proof.
  intros Hz. unfold get_fw_zone_settings, bind, Config.get_zone_config.
  by rewrite Hz.
Qed.

Lemma set_zone_config_Done zone z fw u fw1 :
  Config.set_zone_config zone z fw = Done u fw1 ->
  fw1 = set_config (<[zone := z]> (config fw)) fw.
Proof. unfold Config.set_zone_config. by intros [= <-]. Qed.

Section Classes.
Context `{RichLanguage}.

Lemma simple_kinds_lawful zone k :
  match k with Interface _ | Zone => False | _ => True end ->
  Lawful (transaction zone k).
Proof. destruct k; intros []; law_cases; tx_crush. Qed.

Lemma simple_kinds_enable zone k :
  match k with Interface _ | Zone => False | _ => True end ->
  Enables (transaction zone k).
Proof. destruct k; intros []; law_cases; tx_crush. Qed.

Lemma simple_kinds_disable zone k :
  match k with
  | Interface _ | Zone => False
  | ZoneTarget target => target <> "default"
  | _ => True
  end ->
  Disables (transaction zone k).
Proof.
  destruct k; intros Hk; try (exfalso; exact Hk); law_cases; tx_crush.
Qed.

End Classes.

(** *** The zone itself *)

Lemma elem_of_zone_names (m : gmap string ZoneSettings) zone :
  zone ∈ (map_to_list m).*1 <-> is_Some (m !! zone).
Proof.
  rewrite list_elem_of_fmap. split.
  - intros ([k v] & -> & Hin%elem_of_map_to_list). eauto.
  - intros [v Hv]. exists (zone, v). split; [done|]. by apply elem_of_map_to_list.
Qed.

Lemma zone_get_enabled_permanent zone fw :
  ZoneTransaction.get_enabled_permanent zone fw
  = Done (bool_decide (is_Some (config fw !! zone))) fw.
Proof.
  unfold ZoneTransaction.get_enabled_permanent, Config.get_zones, Config.listZones.
  autounfold with fw_ops. simpl.
  assert (bool_decide (zone ∈ (map_to_list (config fw)).*1)
          = bool_decide (is_Some (config fw !! zone))) as Heq.
  { apply bool_decide_ext, elem_of_zone_names. }
  destruct (fw_offline fw); simpl; by rewrite Heq.
Qed.

Lemma zone_lawful zone : Lawful (ZoneTransaction.make zone).
Proof.
  law_cases; try discriminate.
  - rewrite zone_get_enabled_permanent in *. congruence.
  - unfold ZoneTransaction.set_enabled_permanent in *. fw_crush.
  - unfold ZoneTransaction.set_disabled_permanent in *. fw_crush.
Qed.

Lemma zone_enables zone : Enables (ZoneTransaction.make zone).
Proof.
  split; simpl; intros; [|discriminate].
  rewrite zone_get_enabled_permanent.
  unfold ZoneTransaction.set_enabled_permanent in *.
  fw_simpl; repeat (fw_case; fw_simpl); reflexivity.
Qed.

Lemma zone_disables zone : Disables (ZoneTransaction.make zone).
Proof.
  split; simpl; intros; [|discriminate].
  rewrite zone_get_enabled_permanent.
  unfold ZoneTransaction.set_disabled_permanent in *.
  fw_simpl; repeat (fw_case; fw_simpl); rewrite lookup_delete_eq; reflexivity.
Qed.

(** *** Interfaces *)

Lemma zones_of_interface_head interface fw o l :
  Config.zones_of_interface interface fw = o :: l ->
  config fw !! o.1 = Some o.2 /\ interface ∈ z_interfaces o.2.
Proof.
  intros Heq.
  assert (o ∈ Config.zones_of_interface interface fw) as Hin
    by (rewrite Heq; left).
  unfold Config.zones_of_interface, Config.get_zones in Hin.
  apply list_elem_of_filter in Hin as [Hi Hin]. destruct o as [n z].
  by apply elem_of_map_to_list in Hin.
Qed.

(** Enabling an interface permanently touches the permanent configuration
    only and leaves the interface in the zone. *)
Lemma interface_set_enabled_permanent_Done zone interface fw fw' :
  zone <> EmptyString ->
  InterfaceTransaction.set_enabled_permanent zone interface fw = Done tt fw' ->
  fw_offline fw' = fw_offline fw /\ runtime fw' = runtime fw /\
  exists z, config fw' !! zone = Some z /\ interface ∈ z_interfaces z.
Proof.
  intros Hzone. unfold InterfaceTransaction.set_enabled_permanent.
  intros (s & fw1 & (-> & Hs1 & Hs2)%get_fw_zone_settings_Done & Hrest)%bind_Done.
  apply bind_Done in Hrest as (off & fw1 & Hoff & Hrest).
  unfold self_fw_offline in Hoff. injection Hoff as <- <-.
  assert (forall fw1 fw2 u,
    Config.set_zone_config s.1 (Settings.addInterface interface s.2) fw1
    = Done u fw2 ->
    fw_offline fw1 = fw_offline fw -> runtime fw1 = runtime fw ->
    fw_offline fw2 = fw_offline fw /\ runtime fw2 = runtime fw /\
    exists z, config fw2 !! zone = Some z /\ interface ∈ z_interfaces z) as Hadd.
  { intros fw1 fw2 u ->%set_zone_config_Done Hm Hr. simpl.
    split; [done|]. split; [done|]. eexists. rewrite Hs1, lookup_insert_eq.
    split; [done|]. unfold Settings.addInterface. simpl. set_solver. }
  assert (forall old fw1 fw2 u,
    (c <- Config.get_zone_config old;;
     Config.set_zone_config old (Settings.removeInterface interface c)) fw1
    = Done u fw2 ->
    fw_offline fw2 = fw_offline fw1 /\ runtime fw2 = runtime fw1) as Hrm.
  { intros old fw1 fw2 u
      (c & fw3 & [-> _]%get_zone_config_Done & ->%set_zone_config_Done)%bind_Done.
    done. }
  destruct (fw_offline fw) eqn:Hmode.
  - apply bind_Done in Hrest as (objs & fw2 & Hobjs & Hrest).
    injection Hobjs as <- <-.
    apply bind_Done in Hrest as ([] & fw1 & Hold & Hrest).
    eapply Hadd; [exact Hrest| |].
    all: destruct (1 <? length (Config.zones_of_interface interface fw))%nat;
        [discriminate|];
      destruct (Config.zones_of_interface interface fw) as [|o l];
        [by injection Hold as <-|];
      destruct (_ && _); [|by injection Hold as <-];
      apply Hrm in Hold as [? ?]; congruence.
  - apply bind_Done in Hrest as (old & fw1 & Hold & Hrest).
    unfold Config.getZoneOfInterface in Hold.
    destruct (bool_decide (old ≠ zone)) eqn:Hne.
    + apply bind_Done in Hrest as ([] & fw2 & Hrm' & Hrest).
      assert (fw1 = fw) as ->
        by (destruct (Config.zones_of_interface interface fw);
            by injection Hold as <- <-).
      eapply Hadd; [exact Hrest| |].
      all: destruct (PyStr.truthy old); [|by injection Hrm' as <-];
        apply Hrm in Hrm' as [? ?]; congruence.
    + apply bool_decide_eq_false in Hne. apply dec_stable in Hne. subst old.
      injection Hrest as <-.
      destruct (Config.zones_of_interface interface fw) as [|o l] eqn:Hobjs.
      * injection Hold as <- <-. done.
      * injection Hold as <- <-. split; [done|]. split; [done|].
        apply zones_of_interface_head in Hobjs as [Hl Hi]. eauto.
Qed.

Lemma interface_probe_immediate_frame zone interface fw fw' b :
  fw_offline fw = false -> fw_offline fw' = false -> runtime fw' = runtime fw ->
  InterfaceTransaction.get_enabled_immediate zone interface fw = Done b fw ->
  InterfaceTransaction.get_enabled_immediate zone interface fw' = Done b fw'.
Proof.
  intros Hm Hm' Hr. autounfold with fw_tx fw_ops. rewrite Hm, Hm', Hr.
  destruct (runtime fw !! zone); [|discriminate].
  destruct (bool_decide _); unfold ret; congruence.
Qed.

Lemma interface_lawful zone interface :
  zone <> EmptyString -> Lawful (InterfaceTransaction.make zone interface).
Proof.
  intros Hzone. law_cases.
  all: try match goal with
       | Hset : InterfaceTransaction.set_enabled_permanent _ _ _ = Done _ _ |- _ =>
           pose proof (interface_set_enabled_permanent_Done _ _ _ _ Hzone Hset)
             as (Hm & Hr & _);
           first [ exact Hm
                 | eapply interface_probe_immediate_frame; eauto; congruence ]
       end.
  all: tx_crush.
Qed.

Lemma interface_enables zone interface :
  zone <> EmptyString -> Enables (InterfaceTransaction.make zone interface).
Proof.
  intros Hzone. split; simpl; intros fw fw'.
  - intros (_ & _ & z & Hz & Hi)%interface_set_enabled_permanent_Done; [|done].
    autounfold with fw_tx fw_ops. rewrite Hz. simpl.
    by rewrite bool_decide_eq_true_2.
  - intros; tx_crush.
Qed.

Lemma interface_disables zone interface :
  Disables (InterfaceTransaction.make zone interface).
Proof. split; simpl; intros; tx_crush. Qed.

(** *** Every kind *)

Section Kinds.
Context `{RichLanguage}.

Lemma transaction_lawful zone k :
  zone <> EmptyString -> Lawful (transaction zone k).
Proof.
  intros Hzone. destruct k; try (by apply simple_kinds_lawful).
  - by apply interface_lawful.
  - apply zone_lawful.
Qed.

Lemma transaction_enables zone k :
  zone <> EmptyString -> Enables (transaction zone k).
Proof.
  intros Hzone. destruct k; try (by apply simple_kinds_enable).
  - by apply interface_enables.
  - apply zone_enables.
Qed.

Lemma transaction_disables zone k :
  (forall target, k = ZoneTarget target -> target <> "default") ->
  Disables (transaction zone k).
Proof.
  intros Hk. destruct k; try (by apply simple_kinds_disable).
  - apply interface_disables.
  - apply simple_kinds_disable. by apply Hk.
  - apply zone_disables.
Qed.

(** A zone target that is not reset to ["default"] by the desired state. *)
Lemma resets_default_target_false zone k st :
  resets_default_target k st = false ->
  desired_bool (transaction zone k) st = Some false ->
  forall target, k = ZoneTarget target -> target <> "default".
Proof.
  intros Hk Hwant target -> ->. simpl in Hk.
  unfold desired_bool in Hwant. simpl in Hwant.
  destruct (bool_decide (st ∈ ZoneTargetTransaction.enabled_values));
    [discriminate|].
  destruct (bool_decide (st ∈ ZoneTargetTransaction.disabled_values));
    discriminate.
Qed.

End Kinds.

(** ** Idempotence of reconciliation *)

(** Port 8080/tcp, permanent, enabled, not yet there: [changed=true] and the
    port is in the permanent settings; the same invocation again:
    [changed=false]; then disabled: [changed=true] and the port is gone. *)
Example scenario_port :
  let on := port_invocation "8080/tcp" (Some "public") enabled
              true false false 0 in
  let off := port_invocation "8080/tcp" (Some "public") disabled
               true false false 0 in
  let fw1 :=
    set_config
      (<["public" := Settings.addPort "8080" "tcp" FirewallClientZoneSettings]>
         (config fw_running)) fw_running in
  @main plain_rules on fw_running
  = Done (true, [LayerMsg Permanent None;
                 Text "Changed port 8080/tcp to enabled"]) fw1
  /\ @main plain_rules on fw1 = Done (false, []) fw1
  /\ @main plain_rules off fw1
     = Done (true, [LayerMsg Permanent None;
                    Text "Changed port 8080/tcp to disabled"]) fw_running.
Proof. repeat split; vm_compute; reflexivity. Qed.

(** Idempotence of the engine, as every kind but one has it.  For every
    rule kind, action arguments, desired state and layer selection on a
    named zone, except a zone target of ["default"] run with a disabling
    state: when an invocation of the engine returns, the same invocation on
    the state it left returns [changed=false] without a message and leaves
    the state as it is; an invocation that reports [changed=false] made no
    mutation; and it reports [changed=true] exactly when a requested layer
    did not answer the desired boolean. *)
Theorem reconciliation_idempotent `{RichLanguage} zone k st perm imm fw r fw1 :
  zone <> EmptyString ->
  resets_default_target k st = false ->
  run (transaction zone k) st perm imm fw = Done r fw1 ->
  run (transaction zone k) st perm imm fw1 = Done (false, []) fw1
  /\ (r.1 = false -> fw1 = fw)
  /\ (forall want,
        desired_bool (transaction zone k) st = Some want ->
        r.1 = true <->
        (perm = true
         /\ tx_get_enabled_permanent (transaction zone k) fw
            = Done (negb want) fw)
        \/ (imm = true
            /\ tx_get_enabled_immediate (transaction zone k) fw
               = Done (negb want) fw)).
Proof.
  intros Hzone Hk Hrun. split; [|split].
  - eapply run_idempotent; [| | |exact Hrun].
    + by apply transaction_lawful.
    + intros _. by apply transaction_enables.
    + intros Hwant. apply transaction_disables.
      by eapply resets_default_target_false.
  - eapply run_unchanged; [|exact Hrun]. by apply transaction_lawful.
  - intros want Hwant. eapply run_changed_iff; [|exact Hwant|exact Hrun].
    by apply transaction_lawful.
Qed.

(** The state [fw_running] is in after port 8080/tcp was enabled in both
    layers of zone public. *)
Lemma reconciliation_idempotent_witness :
  let tx := @transaction plain_rules "public" (Port "8080" "tcp" 0) in
  let fw1 :=
    set_runtime
      (<["public" := Settings.addPort "8080" "tcp" FirewallClientZoneSettings]>
         (runtime fw_running))
      (set_config
         (<["public" := Settings.addPort "8080" "tcp" FirewallClientZoneSettings]>
            (config fw_running)) fw_running) in
  run tx enabled true true fw_running
  = Done (true, [LayerMsg Permanent None; LayerMsg Immediate None]) fw1
  /\ run tx enabled true true fw1 = Done (false, []) fw1.
Proof.
  intros tx fw1.
  assert (run tx enabled true true fw_running
          = Done (true, [LayerMsg Permanent None; LayerMsg Immediate None]) fw1)
    as Hrun by (vm_compute; reflexivity).
  split; [exact Hrun|].
  refine (proj1 (@reconciliation_idempotent plain_rules "public"
                   (Port "8080" "tcp" 0) enabled true true fw_running _ fw1
                   _ _ Hrun)).
  - discriminate.
  - reflexivity.
Defined.

(** C1.  The engine is not idempotent for the reset of a zone target that
    is ["default"].  On zone [public] of the running daemon, whose target is
    ["default"], the zone-target transaction for ["default"] with state
    absent, and with state disabled, reports [changed=true] with the reset
    message and leaves the state as it was; so the same invocation made
    again on the state it left reports [changed=true] again, at the engine
    and through [main]. *)
Theorem default_target_reset_repeats :
  let tx := @transaction plain_rules "public" (ZoneTarget "default") in
  let p st := target_invocation "default" (Some "public") st
                true false false 0 in
  let msgs := [LayerMsg Permanent (Some "Reset zone public target to default")] in
  Settings.getTarget FirewallClientZoneSettings = "default"
  /\ config fw_running !! "public" = Some FirewallClientZoneSettings
  /\ (exists fw1,
        run tx absent true false fw_running = Done (true, msgs) fw1
        /\ run tx absent true false fw1 = Done (true, msgs) fw1
        /\ fw1 = fw_running)
  /\ (exists fw1,
        run tx disabled true false fw_running = Done (true, msgs) fw1
        /\ run tx disabled true false fw1 = Done (true, msgs) fw1
        /\ fw1 = fw_running)
  /\ (exists fw1,
        @main plain_rules (p absent) fw_running = Done (true, msgs) fw1
        /\ @main plain_rules (p absent) fw1 = Done (true, msgs) fw1
        /\ fw1 = fw_running)
  /\ (exists fw1,
        @main plain_rules (p disabled) fw_running = Done (true, msgs) fw1
        /\ @main plain_rules (p disabled) fw1 = Done (true, msgs) fw1
        /\ fw1 = fw_running).
Proof.
  intros tx p msgs.
  split; [reflexivity|]. split; [reflexivity|].
  split; [|split; [|split]]; exists fw_running;
    (split; [|split]); vm_compute; reflexivity.
Qed.

(** ** Interface single-ownership *)

(** A list without duplicates whose elements all equal [a] and that has
    [a] is [[a]]. *)
Lemma NoDup_all_eq {A} (a : A) (l : list A) :
  NoDup l -> a ∈ l -> (forall x, x ∈ l -> x = a) -> l = [a].
Proof.
  intros Hnd Hin Hall. destruct l as [|x l]; [by apply elem_of_nil in Hin|].
  assert (x = a) as -> by (apply Hall; left).
  destruct l as [|y l]; [done|].
  assert (y = a) as -> by (apply Hall; right; left).
  apply NoDup_cons in Hnd as [Hnotin _]. exfalso. apply Hnotin. left.
Qed.

(** Two different elements make a list at least two long. *)
Lemma length_two_elems {A} (x y : A) (l : list A) :
  x ∈ l -> y ∈ l -> x <> y -> (1 < length l)%nat.
Proof.
  intros Hx Hy Hne. destruct l as [|a [|b l]]; simpl; try lia.
  - by apply elem_of_nil in Hx.
  - apply list_elem_of_singleton in Hx. apply list_elem_of_singleton in Hy.
    congruence.
Qed.

Lemma elem_of_zones_of_interface interface fw zone z :
  (zone, z) ∈ Config.zones_of_interface interface fw
  <-> config fw !! zone = Some z /\ interface ∈ z_interfaces z.
Proof.
  unfold Config.zones_of_interface, Config.get_zones.
  rewrite list_elem_of_filter, elem_of_map_to_list. simpl. tauto.
Qed.

(** The zone objects of an interface that one zone alone has. *)
Lemma zones_of_interface_sole interface fw zone z :
  config fw !! zone = Some z ->
  interface ∈ z_interfaces z ->
  map_Forall (fun n s => (interface ∈ z_interfaces s) -> n = zone) (config fw) ->
  Config.zones_of_interface interface fw = [(zone, z)].
Proof.
  intros Hz Hi Hsole. apply NoDup_all_eq.
  - apply NoDup_filter, NoDup_map_to_list.
  - by apply elem_of_zones_of_interface.
  - intros [n s] [Hs Hin]%elem_of_zones_of_interface.
    pose proof (Hsole n s Hs Hin) as ->. congruence.
Qed.

(** Moving an interface: what the permanent enabling computes when one
    other zone has the interface. *)
Lemma interface_move interface zone_A zone_B zA zB fw :
  zone_A <> EmptyString -> zone_A <> zone_B ->
  config fw !! zone_A = Some zA ->
  interface ∈ z_interfaces zA ->
  map_Forall (fun n s => (interface ∈ z_interfaces s) -> n = zone_A) (config fw) ->
  config fw !! zone_B = Some zB ->
  InterfaceTransaction.set_enabled_permanent zone_B interface fw
  = Done tt
      (set_config
         (<[zone_B := Settings.addInterface interface zB]>
            (<[zone_A := Settings.removeInterface interface zA]> (config fw)))
         fw).
Proof.
  intros HA Hne HzA Hi Hsole HzB.
  pose proof (zones_of_interface_sole _ _ _ _ HzA Hi Hsole) as Hobjs.
  unfold InterfaceTransaction.set_enabled_permanent.
  unfold bind at 1. rewrite (get_fw_zone_settings_eq _ _ _ HzB).
  unfold bind at 1, self_fw_offline. destruct (fw_offline fw) eqn:Hmode.
  - unfold bind at 1 2. rewrite Hobjs. simpl.
    rewrite (bool_decide_eq_true_2 _ Hne).
    unfold bind, Config.get_zone_config. rewrite HzA. reflexivity.
  - unfold bind at 1, Config.getZoneOfInterface. rewrite Hobjs. simpl.
    rewrite (bool_decide_eq_true_2 _ Hne).
    assert (PyStr.truthy zone_A = true) as Htruthy by (by destruct zone_A).
    rewrite Htruthy.
    unfold bind, Config.getSettings, Config.get_zone_config. rewrite HzA.
    reflexivity.
Qed.

(** C2.  Enabling an interface in zone B in the permanent layer while zone A
    alone has it takes it out of A's persistent interface set and puts it
    into B's, in one operation that touches no other zone and not the
    runtime; and in offline mode an interface that several zone files have
    makes the operation fail with the message "ERROR: interface i is in n
    zone XML file, can only be in one", where n is the number of zone files
    that have it, printed in decimal, the state being left as it was. *)
Theorem interface_single_ownership interface zone_A zone_B zA zB fw :
  (zone_A <> EmptyString -> zone_A <> zone_B ->
   config fw !! zone_A = Some zA ->
   interface ∈ z_interfaces zA ->
   map_Forall (fun n s => (interface ∈ z_interfaces s) -> n = zone_A) (config fw) ->
   config fw !! zone_B = Some zB ->
   exists fw' zA' zB',
     InterfaceTransaction.set_enabled_permanent zone_B interface fw = Done tt fw'
     /\ config fw' !! zone_A = Some zA' /\ (interface ∉ z_interfaces zA')
     /\ config fw' !! zone_B = Some zB' /\ interface ∈ z_interfaces zB'
     /\ (forall n, n <> zone_A -> n <> zone_B -> config fw' !! n = config fw !! n)
     /\ runtime fw' = runtime fw)
  /\
  (forall zone_C zC,
     fw_offline fw = true ->
     zone_A <> zone_C ->
     config fw !! zone_A = Some zA -> interface ∈ z_interfaces zA ->
     config fw !! zone_C = Some zC -> interface ∈ z_interfaces zC ->
     config fw !! zone_B = Some zB ->
     let n := length (Config.zones_of_interface interface fw) in
     (1 < n)%nat
     /\ InterfaceTransaction.set_enabled_permanent zone_B interface fw
        = FailJson
            ("ERROR: interface " +:+ interface +:+ " is in " +:+ pretty n
             +:+ " zone XML file, can only be in one") fw).
Proof.
  split.
  - intros HA Hne HzA Hi Hsole HzB.
    eexists _, (Settings.removeInterface interface zA),
      (Settings.addInterface interface zB).
    split; [by apply interface_move|]. simpl.
    rewrite lookup_insert_ne by congruence. rewrite !lookup_insert_eq.
    repeat split; try done.
    + unfold Settings.removeInterface. simpl.
      intros [_ Hn]%elem_of_difference. by apply Hn, elem_of_singleton.
    + unfold Settings.addInterface. simpl.
      by apply elem_of_union_l, elem_of_singleton.
    + intros n HnA HnB. by rewrite !lookup_insert_ne by congruence.
  - intros zone_C zC Hmode Hne HzA HiA HzC HiC HzB n.
    assert (1 < n)%nat as Hn.
    { apply (length_two_elems (zone_A, zA) (zone_C, zC)).
      - by apply elem_of_zones_of_interface.
      - by apply elem_of_zones_of_interface.
      - congruence. }
    split; [exact Hn|].
    unfold InterfaceTransaction.set_enabled_permanent.
    unfold bind at 1. rewrite (get_fw_zone_settings_eq _ _ _ HzB).
    unfold bind at 1, self_fw_offline. rewrite Hmode.
    unfold bind at 1 2. fold n.
    apply Nat.ltb_lt in Hn. rewrite Hn. reflexivity.
Qed.

(** C2 on a running daemon: [eth0], bound to [home], is enabled in
    [public]; and on the stopped daemon whose zone files bind it twice. *)
Lemma interface_single_ownership_witness :
  (exists fw' zA' zB',
     InterfaceTransaction.set_enabled_permanent "public" "eth0" fw_running
     = Done tt fw'
     /\ config fw' !! "home" = Some zA' /\ ("eth0" ∉ z_interfaces zA')
     /\ config fw' !! "public" = Some zB' /\ "eth0" ∈ z_interfaces zB'
     /\ (forall n, n <> "home" -> n <> "public" ->
                   config fw' !! n = config fw_running !! n)
     /\ runtime fw' = runtime fw_running)
  /\ InterfaceTransaction.set_enabled_permanent "drop" "eth0" fw_twice
     = FailJson "ERROR: interface eth0 is in 2 zone XML file, can only be in one"
         fw_twice.
Proof.
  split.
  - apply (proj1 (interface_single_ownership "eth0" "home" "public" zone_home
                    FirewallClientZoneSettings fw_running)).
    + discriminate.
    + discriminate.
    + reflexivity.
    + refine (bool_decide_unpack _ _); vm_compute; exact I.
    + refine (bool_decide_unpack _ _); vm_compute; exact I.
    + reflexivity.
  - destruct (proj2 (interface_single_ownership "eth0" "home" "drop" zone_home
                       zone_drop fw_twice) "public" zone_home) as [_ Hfail].
    + reflexivity.
    + discriminate.
    + reflexivity.
    + refine (bool_decide_unpack _ _); vm_compute; exact I.
    + reflexivity.
    + refine (bool_decide_unpack _ _); vm_compute; exact I.
    + reflexivity.
    + rewrite Hfail. vm_compute. reflexivity.
Defined.

(** ** Zone-level operations are permanent only *)

(** C5.  For the zone-existence and the zone-target transaction, each of
    the three immediate-layer operations fails with the message that
    begins "Zone operations must be permanent" and leaves the state as it
    was, whatever the zone, the target and the state; and so does the engine
    when the immediate layer of such a transaction is requested. *)
Theorem zone_operations_must_be_permanent zone target st perm fw :
  ZoneTargetTransaction.get_enabled_immediate zone target fw
  = FailJson tx_not_permanent_error_msg fw
  /\ ZoneTargetTransaction.set_enabled_immediate zone target fw
     = FailJson tx_not_permanent_error_msg fw
  /\ ZoneTargetTransaction.set_disabled_immediate zone target fw
     = FailJson tx_not_permanent_error_msg fw
  /\ ZoneTransaction.get_enabled_immediate zone fw
     = FailJson tx_not_permanent_error_msg fw
  /\ ZoneTransaction.set_enabled_immediate zone fw
     = FailJson tx_not_permanent_error_msg fw
  /\ ZoneTransaction.set_disabled_immediate zone fw
     = FailJson tx_not_permanent_error_msg fw
  /\ String.prefix "Zone operations must be permanent" tx_not_permanent_error_msg
     = true
  /\ run (ZoneTransaction.make zone) st perm true fw
     = FailJson (if fw_offline fw then offline_immediate_msg
                 else tx_not_permanent_error_msg) fw
  /\ run (ZoneTargetTransaction.make zone target) st perm true fw
     = FailJson (if fw_offline fw then offline_immediate_msg
                 else if perm && bool_decide (config fw !! zone = None)
                      then invalid_zone zone
                      else tx_not_permanent_error_msg) fw.
Proof.
  repeat split.
  - unfold run. rewrite andb_true_l. destruct (fw_offline fw); [done|].
    destruct perm; unfold probe, bind; simpl; [|done].
    by rewrite zone_get_enabled_permanent.
  - unfold run. rewrite andb_true_l. destruct (fw_offline fw); [done|].
    destruct perm; unfold probe, bind; simpl; [|done].
    unfold ZoneTargetTransaction.get_enabled_permanent, bind,
      get_fw_zone_settings, bind, Config.get_zone_config.
    by destruct (config fw !! zone) eqn:Hz.
Qed.

(** ** Layer flags *)

Lemma layer_flags_state offline permanent immediate fw layers fw' :
  layer_flags offline permanent immediate fw = Done layers fw' -> fw' = fw.
Proof.
  unfold layer_flags, offline_override, require_running, self_fw_offline,
    bind, ret, fail_json.
  destruct offline, permanent, immediate; simpl;
    destruct (fw_offline fw) eqn:Hmode; simpl; rewrite ?Hmode; simpl;
    intros Heq; by inversion Heq.
Qed.

(** [main] stops where the layer flags are refused. *)
Lemma main_layer_flags_refused `{RichLanguage} p fw msg fw' :
  layer_flags (p_offline p) (p_permanent p) (p_immediate p) fw = FailJson msg fw' ->
  main p fw = FailJson msg fw'.
Proof. intros Hl. unfold main. unfold bind at 1. by rewrite Hl. Qed.

(** C6.  Without [permanent] and without [immediate], [immediate] becomes
    true, so a bare invocation works on the live layer of a running daemon;
    with [offline] and an unreachable daemon [immediate] becomes false;
    [offline] without [permanent] is fatal; and an immediate layer that is
    requested after the defaulting while the daemon does not run is
    fatal. *)
Theorem layer_flag_defaulting `{RichLanguage} p fw :
  let offline := p_offline p in
  let permanent := p_permanent p in
  let immediate := p_immediate p in
  (permanent = false -> immediate = false ->
   immediate_default permanent immediate = true
   /\ (offline = false -> fw_offline fw = false ->
       layer_flags offline permanent immediate fw = Done (false, true) fw))
  /\ (offline = true -> permanent = true -> fw_offline fw = true ->
      offline_override offline permanent immediate fw = Done false fw
      /\ layer_flags offline permanent immediate fw = Done (true, false) fw)
  /\ (offline = true -> permanent = false ->
      main p fw = FailJson offline_without_permanent_msg fw)
  /\ (forall immediate',
        offline_override offline permanent immediate fw = Done immediate' fw ->
        immediate_default permanent immediate' = true ->
        fw_offline fw = true ->
        main p fw = FailJson firewall_not_running_msg fw).
Proof.
  intros offline permanent immediate. split; [|split; [|split]].
  - intros Hperm Himm. rewrite Hperm, Himm. split; [reflexivity|].
    intros -> Hmode.
    unfold layer_flags, offline_override, require_running, self_fw_offline, bind.
    simpl. by rewrite Hmode.
  - intros -> -> Hmode. split.
    + unfold offline_override, self_fw_offline, bind. simpl. by rewrite Hmode.
    + unfold layer_flags, offline_override, require_running, self_fw_offline,
        bind.
      simpl. by rewrite Hmode.
  - intros Hoff Hperm. apply main_layer_flags_refused.
    fold offline permanent. by rewrite Hoff, Hperm.
  - intros immediate' Hover Hdef Hmode. apply main_layer_flags_refused.
    fold offline permanent immediate.
    unfold layer_flags. unfold bind at 1. rewrite Hover.
    unfold bind, require_running, bind, self_fw_offline.
    by rewrite Hdef, Hmode.
Qed.

(** C6 on a bare invocation, on an offline one with a stopped daemon, on
    an offline one without [permanent], and on a bare one with a stopped
    daemon. *)
Lemma layer_flag_defaulting_witness :
  layer_flags false false false fw_running = Done (false, true) fw_running
  /\ layer_flags true true true fw_stopped = Done (true, false) fw_stopped
  /\ @main plain_rules (zone_invocation None present false false true 0) fw_stopped
     = FailJson offline_without_permanent_msg fw_stopped
  /\ @main plain_rules (zone_invocation None present false false false 0) fw_stopped
     = FailJson firewall_not_running_msg fw_stopped.
Proof.
  split; [|split; [|split]].
  - apply (proj2 (proj1 (@layer_flag_defaulting plain_rules
                           (zone_invocation None present false false false 0)
                           fw_running) eq_refl eq_refl)); reflexivity.
  - apply (proj1 (proj2 (@layer_flag_defaulting plain_rules
                           (zone_invocation None present true true true 0)
                           fw_stopped))); reflexivity.
  - apply (proj1 (proj2 (proj2 (@layer_flag_defaulting plain_rules
                                  (zone_invocation None present false false true 0)
                                  fw_stopped)))); reflexivity.
  - apply (proj2 (proj2 (proj2 (@layer_flag_defaulting plain_rules
                                  (zone_invocation None present false false false 0)
                                  fw_stopped))) false); reflexivity.
Defined.

(** ** Port parsing *)

Example strip_port : PyStr.strip "  8080/tcp " = "8080/tcp".
Proof. reflexivity. Qed.

Example split_port : PyStr.split slash "8080/tcp" = ["8080"; "tcp"].
Proof. reflexivity. Qed.

Example split_three : PyStr.split slash "80/tcp/x" = ["80"; "tcp"; "x"].
Proof. reflexivity. Qed.

Example split_only_slash : PyStr.split slash "/" = [EmptyString; EmptyString].
Proof. reflexivity. Qed.

Lemma isspace_slash : PyStr.isspace slash = false.
Proof. reflexivity. Qed.

Lemma count_lstrip c s :
  PyStr.isspace c = false -> PyStr.count c (PyStr.lstrip s) = PyStr.count c s.
Proof.
  intros Hc. induction s as [|a s IH]; simpl; [done|].
  destruct (PyStr.isspace a) eqn:Ha; [|done].
  rewrite IH. destruct (Ascii.eqb_spec a c) as [->|]; [congruence | done].
Qed.

Lemma count_rstrip c s :
  PyStr.isspace c = false -> PyStr.count c (PyStr.rstrip s) = PyStr.count c s.
Proof.
  intros Hc. induction s as [|a s IH]; simpl; [done|].
  destruct (PyStr.rstrip s) as [|b r] eqn:Hr.
  - simpl in IH. rewrite <- IH.
    destruct (PyStr.isspace a) eqn:Ha; simpl; [|done].
    destruct (Ascii.eqb_spec a c) as [->|]; [congruence | done].
  - rewrite <- IH. reflexivity.
Qed.

Lemma count_strip c s :
  PyStr.isspace c = false -> PyStr.count c (PyStr.strip s) = PyStr.count c s.
Proof.
  intros Hc. unfold PyStr.strip. by rewrite count_rstrip, count_lstrip.
Qed.

Lemma contains_count c s :
  PyStr.contains c s = negb (PyStr.count c s =? 0)%nat.
Proof.
  induction s as [|a s IH]; simpl; [done|].
  destruct (Ascii.eqb a c); simpl; [done | exact IH].
Qed.

Lemma split_length c s : length (PyStr.split c s) = S (PyStr.count c s).
Proof.
  induction s as [|a s IH]; simpl; [done|].
  destruct (Ascii.eqb a c); simpl; [by rewrite IH|].
  destruct (PyStr.split c s) as [|h t]; simpl in *; [done | exact IH].
Qed.


Lemma split_app c s t :
  PyStr.count c s = 0%nat ->
  PyStr.split c (s +:+ String c t) = s :: PyStr.split c t.
Proof.
  induction s as [|a s IH]; simpl.
  - intros _. by rewrite Ascii.eqb_refl.
  - destruct (Ascii.eqb a c); simpl; [done|].
    intros Hs. by rewrite (IH Hs).
Qed.

Lemma lstrip_app_nonspace s c t :
  PyStr.isspace c = false ->
  PyStr.lstrip (s +:+ String c t) = PyStr.lstrip s +:+ String c t.
Proof.
  intros Hc. induction s as [|a s IH]; simpl; [by rewrite Hc|].
  by destruct (PyStr.isspace a).
Qed.

Lemma rstrip_app_nonspace s c :
  PyStr.isspace c = false ->
  PyStr.rstrip (s +:+ String c EmptyString) = s +:+ String c EmptyString.
Proof.
  intros Hc. induction s as [|a s IH]; simpl; [by rewrite Hc|].
  rewrite IH. by destruct s.
Qed.

(** The three ways the parsing of a port value ends, by the number of
    slashes in the value. *)
Lemma parse_port_no_slash msg v fw :
  PyStr.count slash v = 0%nat ->
  parse_port msg (Some v) fw = FailJson msg fw.
Proof.
  intros Hv. unfold parse_port. rewrite contains_count, Hv. reflexivity.
Qed.

Lemma parse_port_one_slash msg v fw :
  PyStr.count slash v = 1%nat ->
  exists port protocol,
    PyStr.split slash (PyStr.strip v) = [port; protocol]
    /\ parse_port msg (Some v) fw
       = if PyStr.truthy protocol then Done (Some port, Some protocol) fw
         else FailJson msg fw.
Proof.
  intros Hv. unfold parse_port. rewrite contains_count, Hv. simpl.
  pose proof (split_length slash (PyStr.strip v)) as Hlen.
  rewrite (count_strip _ _ isspace_slash), Hv in Hlen.
  destruct (PyStr.split slash (PyStr.strip v)) as [|port [|protocol [|]]];
    try discriminate.
  exists port, protocol. split; [done|].
  unfold bind, ret. simpl. by destruct (PyStr.truthy protocol).
Qed.

Lemma parse_port_many_slashes msg v fw :
  (2 <= PyStr.count slash v)%nat ->
  parse_port msg (Some v) fw = Raised ValueError fw.
Proof.
  intros Hv. unfold parse_port. rewrite contains_count.
  destruct (PyStr.count slash v =? 0)%nat eqn:Hz;
    [apply Nat.eqb_eq in Hz; lia|]. simpl.
  pose proof (split_length slash (PyStr.strip v)) as Hlen.
  rewrite (count_strip _ _ isspace_slash) in Hlen.
  destruct (PyStr.split slash (PyStr.strip v)) as [|port [|protocol [|]]];
    simpl in Hlen; try lia; reflexivity.
Qed.

(** A value that ends in its only slash has an empty protocol. *)
Lemma parse_port_empty_protocol msg a fw :
  PyStr.count slash a = 0%nat ->
  parse_port msg (Some (a +:+ "/")) fw = FailJson msg fw.
Proof.
  intros Ha. unfold parse_port.
  change (a +:+ "/") with (a +:+ String slash EmptyString).
  assert (PyStr.contains slash (a +:+ String slash EmptyString) = true) as ->.
  { clear. induction a as [|c a IH]; simpl; [done|]. by rewrite IH, orb_true_r. }
  unfold bind at 1.
  unfold PyStr.strip.
  rewrite (lstrip_app_nonspace a slash EmptyString isspace_slash).
  rewrite (rstrip_app_nonspace _ slash isspace_slash).
  rewrite split_app by (by rewrite count_lstrip by apply isspace_slash).
  reflexivity.
Qed.

(** With [source_port] given, the argument spec leaves [port] out. *)
Lemma exclusive_source_port p v :
  mutually_exclusive p = true -> p_source_port p = Some v -> p_port p = None.
Proof.
  unfold mutually_exclusive. intros Hex%Nat.leb_le Hsp. rewrite Hsp in Hex.
  destruct (p_port p); [|done]. simpl in Hex. lia.
Qed.

(** [main] up to the parsing of [port], and of [source_port]. *)
Lemma main_parse_port `{RichLanguage} p fw layers fw' :
  layer_flags (p_offline p) (p_permanent p) (p_immediate p) fw = Done layers fw' ->
  (forall msg, parse_port improper_port_msg (p_port p) fw = FailJson msg fw ->
               main p fw = FailJson msg fw)
  /\ (parse_port improper_port_msg (p_port p) fw = Raised ValueError fw ->
      main p fw = Raised ValueError fw)
  /\ (p_port p = None ->
      (forall msg,
         parse_port improper_source_port_msg (p_source_port p) fw = FailJson msg fw ->
         main p fw = FailJson msg fw)
      /\ (parse_port improper_source_port_msg (p_source_port p) fw
          = Raised ValueError fw ->
          main p fw = Raised ValueError fw)).
Proof.
  intros Hl. pose proof (layer_flags_state _ _ _ _ _ _ Hl) as ->.
  split; [|split; [|intros Hport; split]].
  - intros msg Hp. unfold main. unfold bind at 1. rewrite Hl.
    unfold bind at 1. by rewrite Hp.
  - intros Hp. unfold main. unfold bind at 1. rewrite Hl.
    unfold bind at 1. by rewrite Hp.
  - intros msg Hp. unfold main. unfold bind at 1. rewrite Hl.
    unfold bind at 1. rewrite Hport. simpl. unfold bind at 1. by rewrite Hp.
  - intros Hp. unfold main. unfold bind at 1. rewrite Hl.
    unfold bind at 1. rewrite Hport. simpl. unfold bind at 1. by rewrite Hp.
Qed.

(** C7.  Once the layer flags are accepted, a [port] value without a slash,
    or with nothing after its only slash, makes [main] fail with the
    improper-port-format message before any transaction, the state being
    left as it was; a [source_port] value of that form does the same with
    the message of that parameter. *)
Theorem port_without_protocol `{RichLanguage} p fw v layers fw' :
  (PyStr.count slash v = 0%nat
   \/ exists a, v = a +:+ "/" /\ PyStr.count slash a = 0%nat) ->
  layer_flags (p_offline p) (p_permanent p) (p_immediate p) fw = Done layers fw' ->
  (p_port p = Some v -> main p fw = FailJson improper_port_msg fw)
  /\ (mutually_exclusive p = true -> p_source_port p = Some v ->
      main p fw = FailJson improper_source_port_msg fw).
Proof.
  intros Hv Hl.
  assert (forall msg, parse_port msg (Some v) fw = FailJson msg fw) as Hparse.
  { intros msg. destruct Hv as [Hv | (a & -> & Ha)].
    - by apply parse_port_no_slash.
    - by apply parse_port_empty_protocol. }
  destruct (main_parse_port p fw layers fw' Hl) as (Hport & _ & Hsource).
  split.
  - intros Hp. apply Hport. rewrite Hp. apply Hparse.
  - intros Hex Hsp. apply Hsource; [by eapply exclusive_source_port|].
    rewrite Hsp. apply Hparse.
Qed.

(** C7 on the port values 8081 and 8081/, and on the source port 8081. *)
Lemma port_without_protocol_witness :
  @main plain_rules (port_invocation "8081" None enabled true false false 0)
    fw_running
  = FailJson improper_port_msg fw_running
  /\ @main plain_rules (port_invocation "8081/" None enabled true false false 0)
       fw_running
     = FailJson improper_port_msg fw_running
  /\ @main plain_rules
       (mkParams None None None None None (Some "8081") None None None false
          None true enabled 0 None None None false None) fw_running
     = FailJson improper_source_port_msg fw_running.
Proof.
  split; [|split].
  - apply (proj1 (@port_without_protocol plain_rules
                    (port_invocation "8081" None enabled true false false 0)
                    fw_running "8081" (true, false) fw_running
                    (or_introl eq_refl) eq_refl)).
    reflexivity.
  - apply (proj1 (@port_without_protocol plain_rules
                    (port_invocation "8081/" None enabled true false false 0)
                    fw_running "8081/" (true, false) fw_running
                    (or_intror (ex_intro _ "8081" (conj eq_refl eq_refl)))
                    eq_refl)).
    reflexivity.
  - apply (proj2 (@port_without_protocol plain_rules
                    (mkParams None None None None None (Some "8081") None None
                       None false None true enabled 0 None None None false None)
                    fw_running "8081" (true, false) fw_running
                    (or_introl eq_refl) eq_refl)); reflexivity.
Defined.

(** C10.  A [port] or [source_port] value with two or more slashes makes
    the two-variable unpacking raise [ValueError], which [main] lets escape,
    instead of the improper-port-format failure; a value with at most one
    slash never raises. *)
Theorem port_with_many_slashes `{RichLanguage} p fw v layers fw' :
  (2 <= PyStr.count slash v)%nat ->
  layer_flags (p_offline p) (p_permanent p) (p_immediate p) fw = Done layers fw' ->
  (forall msg, parse_port msg (Some v) fw = Raised ValueError fw)
  /\ (p_port p = Some v -> main p fw = Raised ValueError fw)
  /\ (mutually_exclusive p = true -> p_source_port p = Some v ->
      main p fw = Raised ValueError fw)
  /\ (forall v' msg e fw'',
        (PyStr.count slash v' <= 1)%nat ->
        parse_port msg (Some v') fw <> Raised e fw'').
Proof.
  intros Hv Hl.
  destruct (main_parse_port p fw layers fw' Hl) as (_ & Hport & Hsource).
  split; [|split; [|split]].
  - intros msg. by apply parse_port_many_slashes.
  - intros Hp. apply Hport. rewrite Hp. by apply parse_port_many_slashes.
  - intros Hex Hsp. apply Hsource; [by eapply exclusive_source_port|].
    rewrite Hsp. by apply parse_port_many_slashes.
  - intros v' msg e fw'' Hv'.
    destruct (PyStr.count slash v') as [|[|n]] eqn:Hc; [| |lia].
    + by rewrite parse_port_no_slash.
    + destruct (parse_port_one_slash msg v' fw Hc) as (port & proto & _ & ->).
      by destruct (PyStr.truthy proto).
Qed.

(** C10 on the port value 80/tcp/x, and on it as a source port. *)
Lemma port_with_many_slashes_witness :
  @main plain_rules (port_invocation "80/tcp/x" None enabled true false false 0)
    fw_running
  = Raised ValueError fw_running
  /\ @main plain_rules
       (mkParams None None None None None (Some "80/tcp/x") None None None false
          None true enabled 0 None None None false None) fw_running
     = Raised ValueError fw_running.
Proof.
  split.
  - apply (proj1 (proj2 (@port_with_many_slashes plain_rules
                    (port_invocation "80/tcp/x" None enabled true false false 0)
                    fw_running "80/tcp/x" (true, false) fw_running
                    (le_n 2) eq_refl))).
    reflexivity.
  - apply (proj1 (proj2 (proj2 (@port_with_many_slashes plain_rules
                    (mkParams None None None None None (Some "80/tcp/x") None
                       None None false None true enabled 0 None None None false
                       None)
                    fw_running "80/tcp/x" (true, false) fw_running
                    (le_n 2) eq_refl)))); reflexivity.
Defined.

(** ** Invocations of a boolean flag *)

Lemma zone_level_state_spec st :
  zone_level_state st = match st with absent | present => true | _ => false end.
Proof. by destruct st. Qed.

Lemma expected_state_spec st flag :
  expected_state st flag
  = match st, flag with
    | enabled, true => enabled
    | enabled, false => disabled
    | _, true => disabled
    | _, false => enabled
    end.
Proof. by destruct st, flag. Qed.

(** What [main] does when the flag of kind [k] is its only primitive. *)
Lemma flag_invocation_main `{RichLanguage} k flag zone st perm imm off t fw :
  main (flag_invocation k flag zone st perm imm off t) fw =
  (layers <- layer_flags off perm imm;;
   (if flag && zone_level_state st then fail_json zone_level_only_msg
    else ret tt);;;
   z <- self_zone zone;;
   acc <- transact (flag_transaction z k) (expected_state st flag)
            layers.1 layers.2 (flag_changed_msgs k flag st) (false, []);;
   acc <- (if negb flag && zone_level_state st
           then transact (ZoneTransaction.make z) st layers.1 layers.2
                  [Text ("Changed zone " +:+ fmt_opt zone +:+ " to "
                         +:+ State_str st)] acc
           else ret acc);;
   exit_json acc) fw.
Proof.
  destruct k; unfold main, flag_invocation, modification_of, bind, ret; simpl;
    destruct (layer_flags off perm imm fw) as [[p i] fw1| |]; simpl;
    rewrite ?orb_false_r, ?andb_true_r; try reflexivity.
Qed.

(** Under the argument spec, an invocation that gives a flag gives nothing
    else. *)
Lemma exclusive_flag_invocation p k flag :
  mutually_exclusive p = true ->
  flag_param k p = Some flag ->
  p = flag_invocation k flag (p_zone p) (p_state p) (p_permanent p)
        (p_immediate p) (p_offline p) (p_timeout p).
Proof.
  unfold mutually_exclusive, flag_invocation. intros Hex%Nat.leb_le Hflag.
  destruct p as [icmp_block inversion service protocol port source_port
                   port_forward rich_rule zone immediate source permanent
                   state timeout interface forward masquerade offline target].
  simpl in *.
  destruct k; simpl in Hflag; subst; simpl in Hex.
  all: destruct icmp_block; [simpl in Hex; lia|].
  all: destruct service; [simpl in Hex; lia|].
  all: destruct protocol; [simpl in Hex; lia|].
  all: destruct port; [simpl in Hex; lia|].
  all: destruct source_port; [simpl in Hex; lia|].
  all: destruct port_forward; [simpl in Hex; lia|].
  all: destruct rich_rule; [simpl in Hex; lia|].
  all: destruct interface; [simpl in Hex; lia|].
  all: destruct source; [simpl in Hex; lia|].
  all: destruct target; [simpl in Hex; lia|].
  - destruct inversion; [simpl in Hex; lia|].
    destruct masquerade; [simpl in Hex; lia|]. reflexivity.
  - destruct inversion; [simpl in Hex; lia|].
    destruct forward; [simpl in Hex; lia|]. reflexivity.
  - destruct forward; [simpl in Hex; lia|].
    destruct masquerade; [simpl in Hex; lia|]. reflexivity.
Qed.

(** C8.  For each of the three flag kinds, [state=enabled] with the flag
    false and [state=disabled] with the flag true are normalized to the same
    effective state, disabled, and the two invocations have the same
    outcome: the same failure, or the same [changed] and the same final
    state. *)
Theorem flag_normalization_symmetry `{RichLanguage} k zone perm imm off t fw :
  expected_state enabled false = expected_state disabled true
  /\ changed_only (main (flag_invocation k false zone enabled perm imm off t) fw)
     = changed_only (main (flag_invocation k true zone disabled perm imm off t) fw).
Proof.
  split; [reflexivity|].
  rewrite !flag_invocation_main, !zone_level_state_spec, !expected_state_spec.
  simpl. unfold bind, ret, transact, exit_json, bind, ret, self_fw_offline.
  destruct (layer_flags off perm imm fw) as [[p i] fw1| |]; simpl; [|done|done].
  destruct (run (flag_transaction (default (default_zone fw1) zone) k)
              disabled p i fw1) as [r fw2| |]; simpl; done.
Qed.

Lemma flag_transaction_kind `{RichLanguage} zone k :
  flag_transaction zone k = transaction zone (flag_rule_kind k).
Proof. by destruct k. Qed.

Lemma flag_transaction_lawful zone k : Lawful (flag_transaction zone k).
Proof.
  rewrite (@flag_transaction_kind plain_rules).
  apply simple_kinds_lawful. by destruct k.
Qed.

Lemma flag_transaction_enables zone k : Enables (flag_transaction zone k).
Proof.
  rewrite (@flag_transaction_kind plain_rules).
  apply simple_kinds_enable. by destruct k.
Qed.

Lemma flag_transaction_disables zone k : Disables (flag_transaction zone k).
Proof.
  rewrite (@flag_transaction_kind plain_rules).
  apply simple_kinds_disable. by destruct k.
Qed.

Lemma flag_desired_bool zone k st :
  desired_bool (flag_transaction zone k) st
  = Some (match st with enabled | present => true | _ => false end).
Proof. by destruct k, st. Qed.

(** What the probes of a flag transaction read. *)
Lemma flag_probe_permanent zone k fw b :
  tx_get_enabled_permanent (flag_transaction zone k) fw = Done b fw ->
  flag_of k <$> config fw !! zone = Some b.
Proof. destruct k; simpl; intros Hget; tx_crush; by destruct b. Qed.

Lemma flag_probe_immediate zone k fw b :
  tx_get_enabled_immediate (flag_transaction zone k) fw = Done b fw ->
  flag_of k <$> runtime fw !! zone = Some b.
Proof. destruct k; simpl; intros Hget; tx_crush; by destruct b. Qed.

(** After a flag transaction that returns, the flag of every requested
    layer is the desired boolean. *)
Lemma flag_run_establishes zone k st perm imm fw r fw' :
  run (flag_transaction zone k) st perm imm fw = Done r fw' ->
  let want := match st with enabled | present => true | _ => false end in
  (perm = true -> flag_of k <$> config fw' !! zone = Some want)
  /\ (imm = true -> flag_of k <$> runtime fw' !! zone = Some want).
Proof.
  intros Hrun want.
  destruct (run_establishes (flag_transaction zone k) st perm imm fw r fw' want)
    as (_ & Hp & Hi); auto using flag_transaction_lawful,
      flag_transaction_enables, flag_transaction_disables, flag_desired_bool.
  split; intros Hl; [apply flag_probe_permanent | apply flag_probe_immediate];
    auto.
Qed.

(** C3, as the code has it.  For the invocation [icmp_block_inversion=true]
    with [state=disabled] the normalization gives the effective state
    disabled (the flag is true and the requested state is not enabled), so
    after an invocation that returns the zone's icmp-block-inversion flag is
    unset in every layer the invocation works on. *)
Theorem icmp_block_inversion_disabled `{RichLanguage} zone perm imm off t fw r fw' :
  main (flag_invocation FlagIcmpBlockInversion true zone disabled perm imm off t)
    fw = Done r fw' ->
  expected_state disabled true = disabled
  /\ exists layers,
       layer_flags off perm imm fw = Done layers fw
       /\ let z := default (default_zone fw) zone in
          (layers.1 = true ->
           z_icmp_block_inversion <$> config fw' !! z = Some false)
          /\ (layers.2 = true ->
              z_icmp_block_inversion <$> runtime fw' !! z = Some false).
Proof.
  intros Hmain. split; [reflexivity|].
  rewrite flag_invocation_main, zone_level_state_spec, expected_state_spec
    in Hmain.
  simpl in Hmain.
  apply bind_Done in Hmain as (layers & fw1 & Hl & Hmain).
  pose proof (layer_flags_state _ _ _ _ _ _ Hl) as ->.
  exists layers. split; [exact Hl|].
  apply bind_Done in Hmain as ([] & fw1 & [= <-] & Hmain).
  apply bind_Done in Hmain as (z & fw1 & [= <- <-] & Hmain).
  apply bind_Done in Hmain as (acc & fw1 & Htx & Hmain).
  apply bind_Done in Hmain as (acc' & fw2 & [= <- <-] & Hexit).
  unfold exit_json, bind, self_fw_offline, ret in Hexit.
  injection Hexit as _ <-.
  unfold transact in Htx.
  apply bind_Done in Htx as (r1 & fw2 & Hrun & [= _ <-]).
  exact (flag_run_establishes _ FlagIcmpBlockInversion _ _ _ _ _ _ Hrun).
Qed.

(** C3 on the zone [drop] of the running daemon, whose flag is set: the
    invocation unsets it in the permanent layer. *)
Lemma icmp_block_inversion_disabled_witness :
  z_icmp_block_inversion <$> config fw_running !! "drop" = Some true
  /\ exists r fw',
       @main plain_rules
         (flag_invocation FlagIcmpBlockInversion true (Some "drop") disabled
            true false false 0) fw_running = Done r fw'
       /\ z_icmp_block_inversion <$> config fw' !! "drop" = Some false.
Proof.
  split; [reflexivity|].
  destruct (@main plain_rules
              (flag_invocation FlagIcmpBlockInversion true (Some "drop")
                 disabled true false false 0) fw_running)
    as [r fw'| |] eqn:Hmain; [|by vm_compute in Hmain..].
  exists r, fw'. split; [reflexivity|].
  destruct (@icmp_block_inversion_disabled plain_rules (Some "drop") true false
              false 0 fw_running r fw' Hmain) as (_ & layers & Hl & Hp & _).
  apply Hp. vm_compute in Hl. by injection Hl as <-.
Defined.

(** C3 as stated fails: the effective state is not enabled, and the flag,
    set before the invocation, is unset after it. *)
Lemma icmp_block_inversion_counterexample :
  expected_state disabled true <> enabled
  /\ z_icmp_block_inversion <$> config fw_running !! "drop" = Some true
  /\ exists r fw',
       @main plain_rules
         (flag_invocation FlagIcmpBlockInversion true (Some "drop") disabled
            true false false 0) fw_running = Done r fw'
       /\ z_icmp_block_inversion <$> config fw' !! "drop" = Some false.
Proof.
  split; [discriminate|]. split; [reflexivity|].
  eexists _, _. split; [vm_compute; reflexivity|]. vm_compute. reflexivity.
Qed.

(** ** Failures of a run *)

Lemma probe_FailJson requested get fw msg fw' :
  probe requested get fw = FailJson msg fw' -> get fw = FailJson msg fw'.
Proof.
  unfold probe. destruct requested; [|discriminate].
  intros [Hget | (b & fw1 & _ & Hret)]%bind_FailJson; [done | discriminate].
Qed.

Lemma reconcile_FailJson tx l want o fw msg fw' :
  reconcile tx l want o fw = FailJson msg fw' ->
  setter tx l want fw = FailJson msg fw'.
Proof.
  unfold reconcile. destruct o as [b|]; [|discriminate].
  destruct (Bool.eqb b want); [discriminate|].
  intros [Hset | (u & fw1 & _ & Hret)]%bind_FailJson; [done | discriminate].
Qed.

(** A run fails on an offline daemon asked for the immediate layer, or
    where one of the transaction's operations fails. *)
Lemma run_FailJson tx st perm imm fw msg fw' :
  run tx st perm imm fw = FailJson msg fw' ->
  msg = offline_immediate_msg
  \/ (exists fw0, tx_get_enabled_permanent tx fw0 = FailJson msg fw')
  \/ (exists fw0, tx_get_enabled_immediate tx fw0 = FailJson msg fw')
  \/ (exists l want fw0, setter tx l want fw0 = FailJson msg fw').
Proof.
  unfold run. destruct (imm && fw_offline fw); [intros [= <- _]; by left|].
  intros [Hp | (op & fw1 & _ & Hrest)]%bind_FailJson.
  { apply probe_FailJson in Hp. eauto. }
  apply bind_FailJson in Hrest as [Hi | (oi & fw2 & _ & Hrest)].
  { apply probe_FailJson in Hi. eauto 6. }
  destruct (desired_bool tx st) as [want|]; [|discriminate].
  apply bind_FailJson in Hrest as [Hrp | (rp & fw3 & _ & Hrest)].
  { apply reconcile_FailJson in Hrp. eauto 8. }
  apply bind_FailJson in Hrest as [Hri | (ri & fw4 & _ & Hret)]; [|discriminate].
  apply reconcile_FailJson in Hri. eauto 8.
Qed.

(** The operations of a flag transaction fail on an unknown zone only. *)
Lemma flag_run_FailJson zone k st perm imm fw msg fw' :
  run (flag_transaction zone k) st perm imm fw = FailJson msg fw' ->
  msg = offline_immediate_msg \/ msg = invalid_zone zone.
Proof.
  intros [-> | [(fw0 & Hop) | [(fw0 & Hop) | (l & want & fw0 & Hop)]]]%run_FailJson;
    [by left|right..].
  - destruct k; simpl in Hop; tx_crush.
  - destruct k; simpl in Hop; tx_crush.
  - destruct k, l, want; simpl in Hop; tx_crush.
Qed.

(** The operations of the zone transaction fail on the immediate layer and
    on the removal of an unknown zone. *)
Lemma zone_run_FailJson zone st perm imm fw msg fw' :
  run (ZoneTransaction.make zone) st perm imm fw = FailJson msg fw' ->
  msg = offline_immediate_msg \/ msg = invalid_zone zone
  \/ msg = tx_not_permanent_error_msg.
Proof.
  intros [-> | [(fw0 & Hop) | [(fw0 & Hop) | (l & want & fw0 & Hop)]]]%run_FailJson;
    [by left|right..].
  - simpl in Hop. rewrite zone_get_enabled_permanent in Hop. discriminate.
  - simpl in Hop. injection Hop as <- _. by right.
  - destruct l, want; simpl in Hop;
      unfold ZoneTransaction.set_enabled_permanent,
        ZoneTransaction.set_disabled_permanent,
        ZoneTransaction.set_enabled_immediate,
        ZoneTransaction.set_disabled_immediate in Hop; fw_crush; auto.
Qed.

Lemma layer_flags_FailJson offline permanent immediate fw msg fw' :
  layer_flags offline permanent immediate fw = FailJson msg fw' ->
  msg = offline_without_permanent_msg \/ msg = firewall_not_running_msg.
Proof.
  unfold layer_flags, offline_override, require_running, self_fw_offline,
    bind, ret, fail_json.
  destruct offline, permanent, immediate; simpl;
    destruct (fw_offline fw) eqn:Hmode; simpl; rewrite ?Hmode; simpl;
    intros Heq; inversion Heq; auto.
Qed.

(** ** A false flag with a zone-level state *)

(** C9.  An invocation that gives [forward], [masquerade] or
    [icmp_block_inversion] as false together with [state=present] or
    [state=absent] does not meet the zone-level-only failure: [main] runs the
    flag's transaction, with the normalized state enabled, and then the
    zone transaction, and what it returns as [changed] is the zone
    transaction's [changed]. *)
Theorem false_flag_with_zone_state `{RichLanguage} p k fw :
  mutually_exclusive p = true ->
  flag_param k p = Some false ->
  zone_level_state (p_state p) = true ->
  expected_state (p_state p) false = enabled
  /\ (forall fw', main p fw <> FailJson zone_level_only_msg fw')
  /\ main p fw =
     (layers <- layer_flags (p_offline p) (p_permanent p) (p_immediate p);;
      z <- self_zone (p_zone p);;
      acc <- transact (flag_transaction z k) enabled layers.1 layers.2
               (flag_changed_msgs k false (p_state p)) (false, []);;
      acc <- transact (ZoneTransaction.make z) (p_state p) layers.1 layers.2
               [Text ("Changed zone " +:+ fmt_opt (p_zone p) +:+ " to "
                      +:+ State_str (p_state p))] acc;;
      exit_json acc) fw
  /\ (forall r fw',
        main p fw = Done r fw' ->
        let z := default (default_zone fw) (p_zone p) in
        exists layers r1 fw1 r2,
          layer_flags (p_offline p) (p_permanent p) (p_immediate p) fw
          = Done layers fw
          /\ run (flag_transaction z k) enabled layers.1 layers.2 fw = Done r1 fw1
          /\ run (ZoneTransaction.make z) (p_state p) layers.1 layers.2 fw1
             = Done r2 fw'
          /\ r.1 = r2.1).
Proof.
  intros Hex Hflag Hst.
  assert (expected_state (p_state p) false = enabled) as Hexp.
  { rewrite expected_state_spec. rewrite zone_level_state_spec in Hst.
    by destruct (p_state p). }
  assert (main p fw =
     (layers <- layer_flags (p_offline p) (p_permanent p) (p_immediate p);;
      z <- self_zone (p_zone p);;
      acc <- transact (flag_transaction z k) enabled layers.1 layers.2
               (flag_changed_msgs k false (p_state p)) (false, []);;
      acc <- transact (ZoneTransaction.make z) (p_state p) layers.1 layers.2
               [Text ("Changed zone " +:+ fmt_opt (p_zone p) +:+ " to "
                      +:+ State_str (p_state p))] acc;;
      exit_json acc) fw) as Hmain.
  { rewrite (exclusive_flag_invocation p k false Hex Hflag) at 1.
    rewrite flag_invocation_main, Hst, Hexp. reflexivity. }
  split; [exact Hexp|]. split; [|split; [exact Hmain|]].
  - intros fw' Hfail. rewrite Hmain in Hfail.
    apply bind_FailJson in Hfail as [Hl | (layers & fw1 & _ & Hfail)].
    { by apply layer_flags_FailJson in Hl as [Hl | Hl]. }
    apply bind_FailJson in Hfail as [Hz | (z & fw2 & _ & Hfail)];
      [discriminate|].
    apply bind_FailJson in Hfail as [Htx | (acc & fw3 & _ & Hfail)].
    { unfold transact in Htx.
      apply bind_FailJson in Htx as [Hrun | (? & ? & _ & ?)]; [|discriminate].
      by apply flag_run_FailJson in Hrun as [Hm | Hm]. }
    apply bind_FailJson in Hfail as [Htx | (acc' & fw4 & _ & Hfail)];
      [|discriminate].
    unfold transact in Htx.
    apply bind_FailJson in Htx as [Hrun | (? & ? & _ & ?)]; [|discriminate].
    by apply zone_run_FailJson in Hrun as [Hm | [Hm | Hm]].
  - intros r fw' Hdone. rewrite Hmain in Hdone.
    apply bind_Done in Hdone as (layers & fw1 & Hl & Hdone).
    pose proof (layer_flags_state _ _ _ _ _ _ Hl) as ->.
    apply bind_Done in Hdone as (z & fw1 & [= <- <-] & Hdone).
    apply bind_Done in Hdone as (acc & fw1 & Htx1 & Hdone).
    apply bind_Done in Hdone as (acc' & fw2 & Htx2 & Hexit).
    unfold transact in Htx1, Htx2.
    apply bind_Done in Htx1 as (r1 & fw1' & Hrun1 & [= <- <-]).
    apply bind_Done in Htx2 as (r2 & fw2' & Hrun2 & [= <- <-]).
    unfold exit_json, bind, self_fw_offline, ret in Hexit.
    injection Hexit as <- <-.
    exists layers, r1, fw1', r2. auto.
Qed.

(** C9 on the running daemon: [forward=false] with [state=present] on the
    zone [public].  Forwarding gets enabled, the zone exists already, and
    [changed] is false. *)
Lemma false_flag_with_zone_state_witness :
  let p := flag_invocation FlagForward false (Some "public") present
             true false false 0 in
  z_forward <$> config fw_running !! "public" = Some false
  /\ (exists r fw',
        @main plain_rules p fw_running = Done r fw'
        /\ r.1 = false
        /\ z_forward <$> config fw' !! "public" = Some true)
  /\ (forall fw', @main plain_rules p fw_running
                  <> FailJson zone_level_only_msg fw').
Proof.
  intros p. split; [reflexivity|]. split.
  - eexists _, _. split; [vm_compute; reflexivity|]. split; reflexivity.
  - apply (proj1 (proj2 (@false_flag_with_zone_state plain_rules p FlagForward
                           fw_running eq_refl eq_refl eq_refl))).
Defined.

(** ** The zone-level-only check *)

(** Where the check fires: some primitive has a true value, the state is
    present or absent, and no target is given. *)
Lemma zone_level_guard `{RichLanguage} p fw layers pp sp pf :
  layer_flags (p_offline p) (p_permanent p) (p_immediate p) fw = Done layers fw ->
  parse_port improper_port_msg (p_port p) fw = Done pp fw ->
  parse_port improper_source_port_msg (p_source_port p) fw = Done sp fw ->
  parse_port_forward (p_port_forward p) fw = Done pf fw ->
  modification_of p pp.1 sp.1 pf.1 = true ->
  zone_level_state (p_state p) = true ->
  p_target p = None ->
  main p fw = FailJson zone_level_only_msg fw.
Proof.
  intros Hl Hpp Hsp Hpf Hmod Hst Htarget. unfold main.
  unfold bind at 1. rewrite Hl.
  unfold bind at 1. rewrite Hpp.
  unfold bind at 1. rewrite Hsp.
  unfold bind at 1. rewrite Hpf.
  unfold bind at 1. rewrite Hmod, Hst, Htarget. reflexivity.
Qed.

(** C4 at the failing input: [forward=false] with [state=present] on the
    zone [public] of the running daemon, permanent layer.  The parameters
    satisfy the argument spec; [main] does not fail, and it enables
    forwarding in the zone. *)
Theorem present_state_with_false_flag :
  let p := flag_invocation FlagForward false (Some "public") present
             true false false 0 in
  mutually_exclusive p = true
  /\ @main plain_rules p fw_running
     = Done (false, [LayerMsg Permanent (Some "Added forward to zone public")])
         (set_config
            (<["public" := Settings.setForward true FirewallClientZoneSettings]>
               (config fw_running)) fw_running).
Proof. split; vm_compute; reflexivity. Qed.

(** * Further properties of the transaction classes and of [main] *)

(** ** Layers are independent *)

Lemma keeps_ret R `{!Reflexive R} {A} (a : A) : keeps R (ret a).
Proof. intros fw. simpl. reflexivity. Qed.

Lemma keeps_fail_json R `{!Reflexive R} {A} msg : keeps R (@fail_json A msg).
Proof. intros fw. simpl. reflexivity. Qed.

Lemma keeps_raise R `{!Reflexive R} {A} e : keeps R (@raise A e).
Proof. intros fw. simpl. reflexivity. Qed.

Lemma keeps_bind R `{!Transitive R} {A B} (m : M A) (k : A -> M B) :
  keeps R m -> (forall a, keeps R (k a)) -> keeps R (bind m k).
Proof.
  intros Hm Hk fw. unfold bind. specialize (Hm fw).
  destruct (m fw) as [a fw1| |]; simpl in *; [|done..].
  etrans; [exact Hm | apply Hk].
Qed.

Lemma keeps_weaken (R R' : Firewall -> Firewall -> Prop) {A} (m : M A) :
  (forall fw fw', R fw fw' -> R' fw fw') -> keeps R m -> keeps R' m.
Proof. intros HR Hm fw. apply HR, Hm. Qed.

#[local] Instance same_mode_refl : Reflexive same_mode.
Proof. by intros fw. Qed.

#[local] Instance same_mode_trans : Transitive same_mode.
Proof. intros a b c [? ?] [? ?]. split; congruence. Qed.

#[local] Instance same_runtime_refl : Reflexive same_runtime.
Proof. by intros fw. Qed.

#[local] Instance same_runtime_trans : Transitive same_runtime.
Proof. intros a b c [? ?] [? ?]. split; [congruence | by etrans]. Qed.

#[local] Instance same_config_refl : Reflexive same_config.
Proof. by intros fw. Qed.

#[local] Instance same_config_trans : Transitive same_config.
Proof. intros a b c [? ?] [? ?]. split; [congruence | by etrans]. Qed.

(** The building blocks of the operations. *)
Lemma keeps_get_fw_zone_settings zone : keeps eq (get_fw_zone_settings zone).
Proof.
  intros fw. unfold get_fw_zone_settings, bind, Config.get_zone_config, ret.
  by destruct (config fw !! zone).
Qed.

Lemma keeps_get_zone_config zone : keeps eq (Config.get_zone_config zone).
Proof. intros fw. unfold Config.get_zone_config. by destruct (config fw !! zone). Qed.

Lemma keeps_set_zone_config zone z :
  keeps same_runtime (Config.set_zone_config zone z).
Proof. by intros fw. Qed.

Lemma keeps_remove_zone zone : keeps same_runtime (Config.remove_zone zone).
Proof. intros fw. unfold Config.remove_zone. by destruct (config fw !! zone). Qed.

Lemma keeps_live_query {A} zone (f : ZoneSettings -> A) :
  keeps eq (Live.query zone f).
Proof. intros fw. unfold Live.query. by destruct (runtime fw !! zone). Qed.

Lemma keeps_live_change zone f : keeps same_config (Live.change zone f).
Proof. intros fw. unfold Live.change. by destruct (runtime fw !! zone). Qed.

Lemma keeps_changeZoneOfInterface zone interface :
  keeps same_config (Live.changeZoneOfInterface zone interface).
Proof.
  intros fw. unfold Live.changeZoneOfInterface. by destruct (runtime fw !! zone).
Qed.

Lemma keeps_self_fw_offline R `{!Reflexive R} : keeps R self_fw_offline.
Proof. intros fw. simpl. reflexivity. Qed.

Lemma eq_same_runtime fw fw' : fw = fw' -> same_runtime fw fw'.
Proof. by intros ->. Qed.

Lemma eq_same_config fw fw' : fw = fw' -> same_config fw fw'.
Proof. by intros ->. Qed.

(** The permanent update every class ends with. *)
Lemma keeps_permanent_update zone (f : ZoneSettings -> ZoneSettings) :
  keeps same_runtime
    (s <- get_fw_zone_settings zone;; update_fw_settings s.1 (f s.2)).
Proof.
  apply keeps_bind; [apply _| |].
  - eapply keeps_weaken; [apply eq_same_runtime | apply keeps_get_fw_zone_settings].
  - intros s. apply keeps_set_zone_config.
Qed.

(** A probe of the permanent settings. *)
Lemma keeps_permanent_probe zone (f : string * ZoneSettings -> M bool) :
  (forall s, keeps eq (f s)) ->
  keeps eq (s <- get_fw_zone_settings zone;; f s).
Proof.
  intros Hf. apply keeps_bind; [apply _ | apply keeps_get_fw_zone_settings | done].
Qed.

Lemma keeps_if R {A} (b : bool) (m1 m2 : M A) :
  keeps R m1 -> keeps R m2 -> keeps R (if b then m1 else m2).
Proof. by destruct b. Qed.

Lemma keeps_eq_any R `{!Reflexive R} {A} (m : M A) : keeps eq m -> keeps R m.
Proof. intros Hm fw. by rewrite <- (Hm fw). Qed.

Lemma keeps_getZoneOfInterface interface :
  keeps eq (Config.getZoneOfInterface interface).
Proof.
  intros fw. unfold Config.getZoneOfInterface.
  by destruct (Config.zones_of_interface interface fw).
Qed.

Create HintDb fw_names.
#[local] Hint Unfold update_fw_settings
  Config.getSettings Config.update Config.new_zone Config.addZone Config.remove
  Live.getIcmpBlocks Live.addIcmpBlock Live.removeIcmpBlock
  Live.queryIcmpBlockInversion Live.addIcmpBlockInversion
  Live.removeIcmpBlockInversion
  Live.getServices Live.addService Live.removeService
  Live.getProtocols Live.addProtocol Live.removeProtocol
  Live.queryForward Live.addForward Live.removeForward
  Live.queryMasquerade Live.addMasquerade Live.removeMasquerade
  Live.queryPort Live.addPort Live.removePort
  Live.querySourcePort Live.addSourcePort Live.removeSourcePort
  Live.queryForwardPort Live.addForwardPort Live.removeForwardPort
  Live.getRichRules Live.addRichRule Live.removeRichRule
  Live.getSources Live.addSource Live.removeSource
  Live.getInterfaces Live.removeInterface
  InterfaceTransaction.set_enabled_permanent
  ZoneTransaction.get_enabled_immediate ZoneTransaction.get_enabled_permanent
  ZoneTransaction.set_enabled_immediate ZoneTransaction.set_enabled_permanent
  ZoneTransaction.set_disabled_immediate ZoneTransaction.set_disabled_permanent
  : fw_names.

(** One step of a frame proof: a building block, or the structure of the
    computation. *)
Ltac keeps_step :=
  first
    [ apply keeps_ret; apply _
    | apply keeps_fail_json; apply _
    | apply keeps_set_zone_config
    | apply keeps_remove_zone
    | apply keeps_live_change
    | apply keeps_changeZoneOfInterface
    | apply keeps_eq_any;
        [apply _
        | first [ apply keeps_get_fw_zone_settings
                | apply keeps_get_zone_config
                | apply keeps_live_query
                | apply keeps_getZoneOfInterface
                | intros ?; reflexivity ] ]
    | apply keeps_bind; [apply _ | | intros ?]
    | match goal with
      | |- keeps _ (if ?b then _ else _) => destruct b
      | |- keeps _ (match ?x with _ => _ end) => destruct x
      | |- keeps _ (let _ := _ in _) => simpl
      end ].

Ltac keeps_solve := autounfold with fw_tx fw_names; repeat keeps_step.

Section Frames.
Context `{RichLanguage}.

Lemma transaction_frame zone k : Framed (transaction zone k).
Proof. destruct k; split; simpl; keeps_solve. Qed.

(** X1.  For every rule kind, zone and action arguments: the two probes
    leave the state as it is; the permanent setters leave the runtime
    configuration as it is and the immediate setters the permanent one; and
    no operation changes the daemon's mode or its default zone, however
    the operation ends. *)
Theorem transaction_framed zone k : Framed (transaction zone k).
Proof. apply transaction_frame. Qed.

End Frames.

(** *** The engine and [main] inherit the frame *)

Lemma keeps_bind_dep R `{!Transitive R} {A B} (m : M A) (k : A -> M B) :
  keeps R m ->
  (forall a fw fw', m fw = Done a fw' -> keeps R (k a)) ->
  keeps R (bind m k).
Proof.
  intros Hm Hk fw. unfold bind. specialize (Hm fw).
  destruct (m fw) as [a fw1| |] eqn:Hmfw; simpl in *; [|done..].
  etrans; [exact Hm | by eapply Hk].
Qed.

Lemma keeps_probe R `{!Reflexive R} requested get :
  keeps eq get -> keeps R (probe requested get).
Proof.
  intros Hget. apply keeps_eq_any; [done|]. unfold probe.
  destruct requested; [|by apply keeps_ret].
  apply keeps_bind; [apply _ | done | intros b; by apply keeps_ret].
Qed.

Lemma keeps_setter_permanent tx want :
  Framed tx -> keeps same_runtime (setter tx Permanent want).
Proof. intros F. destruct want; apply F. Qed.

Lemma keeps_setter_immediate tx want :
  Framed tx -> keeps same_config (setter tx Immediate want).
Proof. intros F. destruct want; apply F. Qed.

Lemma keeps_reconcile R `{!Reflexive R, !Transitive R} tx l want o :
  keeps R (setter tx l want) -> keeps R (reconcile tx l want o).
Proof.
  intros Hset. unfold reconcile. destruct o as [b|]; [|by apply keeps_ret].
  destruct (Bool.eqb b want); [by apply keeps_ret|].
  apply keeps_bind; [done | done | intros u; by apply keeps_ret].
Qed.

Lemma same_runtime_mode fw fw' : same_runtime fw fw' -> same_mode fw fw'.
Proof. by intros [_ ?]. Qed.

Lemma same_config_mode fw fw' : same_config fw fw' -> same_mode fw fw'.
Proof. by intros [_ ?]. Qed.

(** A run keeps [R] when the setters of the requested layers do. *)
Lemma keeps_run R `{!Reflexive R, !Transitive R} tx st perm imm :
  Framed tx ->
  (perm = true -> forall want, keeps R (setter tx Permanent want)) ->
  (imm = true -> forall want, keeps R (setter tx Immediate want)) ->
  keeps R (run tx st perm imm).
Proof.
  intros F Hp Hi fw. unfold run.
  destruct (imm && fw_offline fw); [simpl; reflexivity|].
  revert fw. change (keeps R
    (is_enabled_permanent <- probe perm (tx_get_enabled_permanent tx);;
     is_enabled_immediate <- probe imm (tx_get_enabled_immediate tx);;
     match desired_bool tx st with
     | None => ret (false, [])
     | Some want =>
         rp <- reconcile tx Permanent want is_enabled_permanent;;
         ri <- reconcile tx Immediate want is_enabled_immediate;;
         ret (rp.1 || ri.1, rp.2 ++ ri.2)
     end)).
  apply keeps_bind_dep; [done | apply keeps_probe; [done | apply F] |].
  intros op fw fw' Hop.
  apply keeps_bind_dep; [done | apply keeps_probe; [done | apply F] |].
  intros oi fw1 fw1' Hoi.
  destruct (desired_bool tx st) as [want|]; [|by apply keeps_ret].
  apply keeps_bind; [done | |].
  { destruct perm; [by apply keeps_reconcile, Hp|].
    injection Hop as <- _. by apply keeps_ret. }
  intros rp. apply keeps_bind; [done | |intros ri; by apply keeps_ret].
  destruct imm; [by apply keeps_reconcile, Hi|].
  injection Hoi as <- _. by apply keeps_ret.
Qed.

Lemma keeps_run_permanent_only tx st perm :
  Framed tx -> keeps same_runtime (run tx st perm false).
Proof.
  intros F. apply keeps_run; [apply _ | apply _ | done | | done].
  intros _ want. by apply keeps_setter_permanent.
Qed.

Lemma keeps_run_immediate_only tx st imm :
  Framed tx -> keeps same_config (run tx st false imm).
Proof.
  intros F. apply keeps_run; [apply _ | apply _ | done | done |].
  intros _ want. by apply keeps_setter_immediate.
Qed.

Lemma keeps_run_mode tx st perm imm :
  Framed tx -> keeps same_mode (run tx st perm imm).
Proof.
  intros F. apply keeps_run; [apply _ | apply _ | done | |]; intros _ want.
  - eapply keeps_weaken; [apply same_runtime_mode|].
    by apply keeps_setter_permanent.
  - eapply keeps_weaken; [apply same_config_mode|].
    by apply keeps_setter_immediate.
Qed.

Lemma keeps_transact R `{!Reflexive R, !Transitive R} tx st perm imm extra acc :
  keeps R (run tx st perm imm) ->
  keeps R (transact tx st perm imm extra acc).
Proof.
  intros Hrun. unfold transact.
  apply keeps_bind; [done | done | intros r; by apply keeps_ret].
Qed.

(** ** [main] as a plan of transactions *)

Lemma bind_cong {A B} (m1 m2 : M A) (k1 k2 : A -> M B) fw :
  m1 fw = m2 fw ->
  (forall a fw', k1 a fw' = k2 a fw') ->
  bind m1 k1 fw = bind m2 k2 fw.
Proof.
  intros Hm Hk. unfold bind. rewrite Hm.
  destruct (m2 fw) as [a fw1| |]; [apply Hk | done | done].
Qed.

Lemma bind_assoc {A B C} (m : M A) (f : A -> M B) (g : B -> M C) fw :
  bind (bind m f) g fw = bind m (fun a => bind (f a) g) fw.
Proof. unfold bind. by destruct (m fw). Qed.

Section Plan.
Context `{RichLanguage}.

Lemma run_all_app_bind {B} z perm imm l1 l2 acc (k : bool * list Msg -> M B) fw :
  bind (run_all z perm imm (l1 ++ l2) acc) k fw
  = bind (run_all z perm imm l1 acc)
      (fun acc' => bind (run_all z perm imm l2 acc') k) fw.
Proof.
  revert acc fw. induction l1 as [|[[kind st] extra] l1 IH]; intros acc fw.
  - reflexivity.
  - simpl. rewrite !bind_assoc. apply bind_cong; [done|].
    intros acc' fw'. apply IH.
Qed.

(** One optional step of [main] is the run of its segment of the plan. *)
Lemma run_all_segment {A B} z perm imm (o : option A)
    (step : A -> RuleKind * State * list Msg) acc
    (k : bool * list Msg -> M B) fw :
  bind (run_all z perm imm
          (match o with Some a => [step a] | None => [] end) acc) k fw
  = bind (match o with
          | Some a =>
              transact (transaction z (step a).1.1) (step a).1.2 perm imm
                (step a).2 acc
          | None => ret acc
          end) k fw.
Proof.
  destruct o as [a|]; [|reflexivity]. simpl.
  destruct (step a) as [[kind st] extra]. simpl. unfold bind.
  by destruct (transact (transaction z kind) st perm imm extra acc fw).
Qed.

(** [main] is: the layer flags, the parsing, the zone-level check, and then
    the plan, run in order. *)
Lemma main_planned p fw :
  main p fw =
  (layers <- layer_flags (p_offline p) (p_permanent p) (p_immediate p);;
   pp <- parse_port improper_port_msg (p_port p);;
   sp <- parse_port improper_source_port_msg (p_source_port p);;
   pf <- parse_port_forward (p_port_forward p);;
   (if modification_of p pp.1 sp.1 pf.1 && zone_level_state (p_state p)
       && bool_decide (p_target p = None)
    then fail_json zone_level_only_msg else ret tt);;;
   z <- self_zone (p_zone p);;
   acc <- run_all z layers.1 layers.2 (planned p pp sp pf) (false, []);;
   exit_json acc) fw.
Proof.
  unfold main.
  apply bind_cong; [done|]. intros layers fw1.
  apply bind_cong; [done|]. intros pp fw2.
  apply bind_cong; [done|]. intros sp fw3.
  apply bind_cong; [done|]. intros pf fw4.
  apply bind_cong; [done|]. intros u fw5.
  apply bind_cong; [done|]. intros z fw6.
  unfold planned. symmetry.
  change (bind (ret (false, [])) ?k fw6) with (k (false, []) fw6).
  cbv beta.
  generalize (@pair bool (list Msg) false []). intros acc.
  repeat (rewrite run_all_app_bind;
          etrans; [apply run_all_segment|];
          apply bind_cong; [by destruct_all option|]; clear acc; intros acc ?).
  destruct (negb _ && _); simpl; [|done].
  unfold bind. by destruct (transact _ _ _ _ _ _ _).
Qed.

End Plan.

(** ** [main] keeps the layer it is not asked for *)

Lemma keeps_layer_flags offline permanent immediate :
  keeps eq (layer_flags offline permanent immediate).
Proof.
  intros fw.
  unfold layer_flags, offline_override, require_running, self_fw_offline,
    bind, ret, fail_json.
  destruct offline, permanent, immediate; simpl;
    destruct (fw_offline fw) eqn:Hmode; simpl; rewrite ?Hmode; done.
Qed.

Lemma layer_flags_Done offline permanent immediate fw layers fw' :
  layer_flags offline permanent immediate fw = Done layers fw' ->
  layers.1 = permanent
  /\ (permanent = true -> immediate = false -> layers.2 = false)
  /\ (layers.2 = true -> fw_offline fw = false).
Proof.
  unfold layer_flags, offline_override, require_running, self_fw_offline,
    bind, ret, fail_json.
  destruct offline, permanent, immediate; simpl;
    destruct (fw_offline fw) eqn:Hmode; simpl; rewrite ?Hmode; simpl;
    intros Heq; inversion Heq; auto.
Qed.

Lemma keeps_parse_port msg param : keeps eq (parse_port msg param).
Proof.
  intros fw. unfold parse_port. destruct param as [v|]; [|done].
  unfold bind. destruct (PyStr.contains slash v); simpl; [|done].
  destruct (PyStr.split slash (PyStr.strip v)) as [|a [|b [|c l]]]; simpl;
    try done.
  by destruct (PyStr.truthy b).
Qed.

Lemma keeps_require_key key msg d : keeps eq (require_key key msg d).
Proof. intros fw. unfold require_key. by destruct (bool_decide _). Qed.

Lemma keeps_parse_port_forward param : keeps eq (parse_port_forward param).
Proof.
  unfold parse_port_forward. destruct param as [l|]; [|by apply keeps_ret].
  apply keeps_bind; [apply _ | |intros u].
  { destruct (1 <? length l)%nat; [by apply keeps_fail_json | by apply keeps_ret]. }
  destruct l as [|d l]; [by apply keeps_raise|].
  repeat (apply keeps_bind; [apply _ | apply keeps_require_key | intros ?]).
  by apply keeps_ret.
Qed.

Lemma keeps_exit_json acc : keeps eq (exit_json acc).
Proof. by intros fw. Qed.

Lemma keeps_self_zone zone : keeps eq (self_zone zone).
Proof. by intros fw. Qed.

Section MainFrame.
Context `{RichLanguage}.

Lemma keeps_run_all R `{!Reflexive R, !Transitive R} z perm imm plan acc :
  (forall k st, keeps R (run (transaction z k) st perm imm)) ->
  keeps R (run_all z perm imm plan acc).
Proof.
  intros Hrun. revert acc.
  induction plan as [|[[k st] extra] plan IH]; intros acc; simpl.
  - by apply keeps_ret.
  - apply keeps_bind; [done | by apply keeps_transact | done].
Qed.

(** [main] keeps [R] when the runs with the layer flags it computes do. *)
Lemma keeps_main R `{!Reflexive R, !Transitive R} p :
  (forall layers fw fw' z k st,
     layer_flags (p_offline p) (p_permanent p) (p_immediate p) fw
     = Done layers fw' ->
     keeps R (run (transaction z k) st layers.1 layers.2)) ->
  keeps R (main p).
Proof.
  intros Hrun fw. rewrite main_planned. revert fw.
  change (keeps R
    (layers <- layer_flags (p_offline p) (p_permanent p) (p_immediate p);;
     pp <- parse_port improper_port_msg (p_port p);;
     sp <- parse_port improper_source_port_msg (p_source_port p);;
     pf <- parse_port_forward (p_port_forward p);;
     (if modification_of p pp.1 sp.1 pf.1 && zone_level_state (p_state p)
         && bool_decide (p_target p = None)
      then fail_json zone_level_only_msg else ret tt);;;
     z <- self_zone (p_zone p);;
     acc <- run_all z layers.1 layers.2 (planned p pp sp pf) (false, []);;
     exit_json acc)).
  apply keeps_bind_dep;
    [done | apply keeps_eq_any; [done | apply keeps_layer_flags] |].
  intros layers fw fw' Hl.
  apply keeps_bind;
    [done | apply keeps_eq_any; [done | apply keeps_parse_port] | intros pp].
  apply keeps_bind;
    [done | apply keeps_eq_any; [done | apply keeps_parse_port] | intros sp].
  apply keeps_bind;
    [done | apply keeps_eq_any; [done | apply keeps_parse_port_forward]
    | intros pf].
  apply keeps_bind; [done | | intros u].
  { destruct (_ && _); [by apply keeps_fail_json | by apply keeps_ret]. }
  apply keeps_bind;
    [done | apply keeps_eq_any; [done | apply keeps_self_zone] | intros z].
  apply keeps_bind; [done | | intros acc].
  - apply keeps_run_all; [done | done |]. intros k st. by eapply Hrun.
  - apply keeps_eq_any; [done | apply keeps_exit_json].
Qed.

(** X2.  However [main] ends: the daemon's mode and default zone are what
    they were; without [permanent] the permanent configuration is what it
    was; and with [permanent] and without [immediate] the runtime
    configuration is what it was. *)
Theorem main_layers_independent p fw :
  same_mode fw (outcome_state (main p fw))
  /\ (p_permanent p = false ->
      config (outcome_state (main p fw)) = config fw)
  /\ (p_permanent p = true -> p_immediate p = false ->
      runtime (outcome_state (main p fw)) = runtime fw).
Proof.
  split; [|split].
  - apply (keeps_main same_mode). intros layers fw0 fw' z k st _.
    apply keeps_run_mode, transaction_frame.
  - intros Hperm.
    apply (keeps_main same_config). intros layers fw0 fw' z k st Hl.
    apply layer_flags_Done in Hl as (Hl1 & _ & _). rewrite Hl1, Hperm.
    apply keeps_run_immediate_only, transaction_frame.
  - intros Hperm Himm.
    apply (keeps_main same_runtime). intros layers fw0 fw' z k st Hl.
    apply layer_flags_Done in Hl as (_ & Hl2 & _). rewrite (Hl2 Hperm Himm).
    apply keeps_run_permanent_only, transaction_frame.
Qed.

End MainFrame.

(** X2 on the service [https]: enabled without [permanent], the runtime of
    [public] gets it and the permanent configuration is what it was; enabled
    with [permanent] only, it is the other way round. *)
Lemma main_layers_independent_witness :
  let live := mkParams None None (Some "https") None None None None None None
                false None false enabled 0 None None None false None in
  let perm := mkParams None None (Some "https") None None None None None None
                false None true enabled 0 None None None false None in
  (config (outcome_state (@main plain_rules live fw_running)) = config fw_running
   /\ runtime (outcome_state (@main plain_rules live fw_running))
      <> runtime fw_running)
  /\ (runtime (outcome_state (@main plain_rules perm fw_running))
      = runtime fw_running
      /\ config (outcome_state (@main plain_rules perm fw_running))
         <> config fw_running).
Proof.
  intros live perm. split; split.
  - apply (proj1 (proj2 (@main_layers_independent plain_rules live fw_running))).
    reflexivity.
  - vm_compute. discriminate.
  - apply (proj2 (proj2 (@main_layers_independent plain_rules perm fw_running)));
      reflexivity.
  - vm_compute. discriminate.
Defined.

(** ** What the parsing returns *)

Lemma parse_port_Done msg param fw r fw' :
  parse_port msg param fw = Done r fw' ->
  fw' = fw
  /\ (forall fw1, parse_port msg param fw1 = Done r fw1)
  /\ match param with
     | None => r = (None, None)
     | Some v =>
         exists port protocol,
           r = (Some port, Some protocol)
           /\ PyStr.split slash (PyStr.strip v) = [port; protocol]
           /\ PyStr.truthy protocol = true
     end.
Proof.
  unfold parse_port. destruct param as [v|].
  - unfold bind. destruct (PyStr.contains slash v); simpl; [|discriminate].
    destruct (PyStr.split slash (PyStr.strip v)) as [|a [|b [|c l]]]; simpl;
      try discriminate.
    destruct (PyStr.truthy b) eqn:Hb; simpl; [|discriminate].
    intros [= <- <-]. split; [done|]. split; [done|]. by exists a, b.
  - intros [= <- <-]. done.
Qed.

Lemma require_key_Done key msg d fw u fw' :
  require_key key msg d fw = Done u fw' -> fw' = fw /\ is_Some (d !! key).
Proof.
  unfold require_key. destruct (bool_decide (is_Some (d !! key))) eqn:Hk;
    [|discriminate].
  intros [= <-]. split; [done|]. by apply bool_decide_eq_true in Hk.
Qed.

Lemma parse_port_forward_Done param fw r fw' :
  parse_port_forward param fw = Done r fw' ->
  fw' = fw
  /\ (forall fw1, parse_port_forward param fw1 = Done r fw1)
  /\ match param with
     | None => r = (None, EmptyString)
     | Some l =>
         exists d,
           l = [d]
           /\ r = (Some d, default EmptyString (d !! "toaddr"))
           /\ is_Some (d !! "port") /\ is_Some (d !! "proto")
           /\ is_Some (d !! "toport")
     end.
Proof.
  unfold parse_port_forward. destruct param as [l|]; [|by intros [= <- <-]].
  destruct l as [|d [|d' l]]; simpl; [discriminate| |discriminate].
  unfold bind at 1. simpl. unfold require_key, bind.
  destruct (bool_decide (is_Some (d !! "port"))) eqn:H1; [|discriminate].
  destruct (bool_decide (is_Some (d !! "proto"))) eqn:H2; [|discriminate].
  destruct (bool_decide (is_Some (d !! "toport"))) eqn:H3; [|discriminate].
  simpl. intros [= <- <-].
  apply bool_decide_eq_true in H1, H2, H3.
  split; [done|]. split; [done|]. by exists d.
Qed.

Lemma layer_flags_mode offline permanent immediate fw fw1 layers fw' :
  fw_offline fw1 = fw_offline fw ->
  layer_flags offline permanent immediate fw = Done layers fw' ->
  layer_flags offline permanent immediate fw1 = Done layers fw1.
Proof.
  unfold layer_flags, offline_override, require_running, self_fw_offline,
    bind, ret, fail_json. intros Hm.
  destruct offline, permanent, immediate; simpl; rewrite ?Hm;
    destruct (fw_offline fw) eqn:Hmode; simpl; rewrite ?Hm, ?Hmode; simpl;
    intros Heq; inversion Heq; auto.
Qed.

(** ** Idempotence of [main] *)

Lemma mutually_exclusive_given p :
  mutually_exclusive p = true <-> (primitives_given p <= 1)%nat.
Proof. unfold mutually_exclusive, primitives_given. apply Nat.leb_le. Qed.

(** Every remaining optional parameter is absent once the count is used
    up. *)
Ltac prune_given Hex :=
  repeat match goal with
         | x : option _ |- _ =>
             destruct x; [exfalso; simpl in Hex; lia|]
         end.

(** Under the argument spec, and when a zone-level state comes with no
    primitive or with a target, the plan of [main] has at most one
    transaction. *)
Lemma planned_single p pp sp pf fw :
  mutually_exclusive p = true ->
  (zone_level_state (p_state p) = true ->
   primitives_given p = 0%nat \/ truthy_str (p_target p) = true) ->
  (forall target, p_target p = Some target ->
                  resets_default_target (ZoneTarget target) (p_state p) = false) ->
  parse_port improper_port_msg (p_port p) fw = Done pp fw ->
  parse_port improper_source_port_msg (p_source_port p) fw = Done sp fw ->
  parse_port_forward (p_port_forward p) fw = Done pf fw ->
  planned p pp sp pf = []
  \/ exists k st extra,
       planned p pp sp pf = [(k, st, extra)]
       /\ resets_default_target k st = false.
Proof.
  intros Hex%mutually_exclusive_given Hzl Hslip Hpp Hsp Hpf.
  apply parse_port_Done in Hpp as (_ & _ & Hpp).
  apply parse_port_Done in Hsp as (_ & _ & Hsp).
  apply parse_port_forward_Done in Hpf as (_ & _ & Hpf).
  unfold primitives_given in *.
  destruct p as [icmp_block inversion service protocol port source_port
                   port_forward rich_rule zone immediate source permanent
                   state timeout interface forward masquerade offline target].
  unfold planned, modification_of. simpl in *.
  destruct icmp_block as [v|].
  { prune_given Hex. subst. simpl.
    destruct (negb _ && zone_level_state state) eqn:Hz.
    - apply andb_true_iff in Hz as [_ Hz]. destruct (Hzl Hz); discriminate.
    - right. by eexists _, _, _. }
  destruct inversion as [v|].
  { prune_given Hex. subst. simpl.
    destruct (negb _ && zone_level_state state) eqn:Hz.
    - apply andb_true_iff in Hz as [_ Hz]. destruct (Hzl Hz); discriminate.
    - right. by eexists _, _, _. }
  destruct service as [v|].
  { prune_given Hex. subst. simpl.
    destruct (negb _ && zone_level_state state) eqn:Hz.
    - apply andb_true_iff in Hz as [_ Hz]. destruct (Hzl Hz); discriminate.
    - right. by eexists _, _, _. }
  destruct protocol as [v|].
  { prune_given Hex. subst. simpl.
    destruct (negb _ && zone_level_state state) eqn:Hz.
    - apply andb_true_iff in Hz as [_ Hz]. destruct (Hzl Hz); discriminate.
    - right. by eexists _, _, _. }
  destruct port as [v|].
  { prune_given Hex. destruct Hpp as (a & b & -> & _ & _). subst. simpl.
    destruct (negb _ && zone_level_state state) eqn:Hz.
    - apply andb_true_iff in Hz as [_ Hz]. destruct (Hzl Hz); discriminate.
    - right. by eexists _, _, _. }
  destruct source_port as [v|].
  { prune_given Hex. destruct Hsp as (a & b & -> & _ & _). subst. simpl.
    destruct (negb _ && zone_level_state state) eqn:Hz.
    - apply andb_true_iff in Hz as [_ Hz]. destruct (Hzl Hz); discriminate.
    - right. by eexists _, _, _. }
  destruct port_forward as [v|].
  { prune_given Hex. destruct Hpf as (d & -> & -> & _). subst. simpl.
    destruct (negb _ && zone_level_state state) eqn:Hz.
    - apply andb_true_iff in Hz as [_ Hz]. destruct (Hzl Hz); discriminate.
    - right. by eexists _, _, _. }
  destruct rich_rule as [v|].
  { prune_given Hex. subst. simpl.
    destruct (negb _ && zone_level_state state) eqn:Hz.
    - apply andb_true_iff in Hz as [_ Hz]. destruct (Hzl Hz); discriminate.
    - right. by eexists _, _, _. }
  destruct interface as [v|].
  { prune_given Hex. subst. simpl.
    destruct (negb _ && zone_level_state state) eqn:Hz.
    - apply andb_true_iff in Hz as [_ Hz]. destruct (Hzl Hz); discriminate.
    - right. by eexists _, _, _. }
  destruct forward as [v|].
  { prune_given Hex. subst. simpl.
    destruct (negb _ && zone_level_state state) eqn:Hz.
    - apply andb_true_iff in Hz as [_ Hz]. destruct (Hzl Hz); discriminate.
    - right. by eexists _, _, _. }
  destruct masquerade as [v|].
  { prune_given Hex. subst. simpl.
    destruct (negb _ && zone_level_state state) eqn:Hz.
    - apply andb_true_iff in Hz as [_ Hz]. destruct (Hzl Hz); discriminate.
    - right. by eexists _, _, _. }
  destruct source as [v|].
  { prune_given Hex. subst. simpl.
    destruct (negb _ && zone_level_state state) eqn:Hz.
    - apply andb_true_iff in Hz as [_ Hz]. destruct (Hzl Hz); discriminate.
    - right. by eexists _, _, _. }
  destruct target as [v|].
  { subst. simpl. pose proof (Hslip v eq_refl) as Hv.
    destruct (negb _ && zone_level_state state) eqn:Hz.
    - apply andb_true_iff in Hz as [Hm Hz]. apply negb_true_iff in Hm.
      destruct (Hzl Hz) as [|Ht]; [discriminate|].
      simpl in Hm, Ht. rewrite ?orb_false_r in Hm. congruence.
    - right. by eexists _, _, _. }
  subst. simpl. destruct (zone_level_state state); [right|by left].
  by eexists _, _, _.
Qed.

Section MainIdempotent.
Context `{RichLanguage}.

Lemma run_all_single_idempotent z perm imm plan fw acc fw1 :
  z <> EmptyString ->
  (plan = []
   \/ exists k st extra,
        plan = [(k, st, extra)] /\ resets_default_target k st = false) ->
  run_all z perm imm plan (false, []) fw = Done acc fw1 ->
  run_all z perm imm plan (false, []) fw1 = Done (false, []) fw1
  /\ same_mode fw fw1.
Proof.
  intros Hz [-> | (k & st & extra & -> & Hk)]; simpl.
  - by intros [= <- <-].
  - intros (acc' & fw2 & Htx & [= <- <-])%bind_Done.
    unfold transact in Htx.
    apply bind_Done in Htx as (r & fw2' & Hrun & [= <- <-]).
    split.
    + unfold bind, transact, bind.
      rewrite (run_idempotent _ _ _ _ _ _ _ (transaction_lawful z k Hz)
                 (fun _ => transaction_enables z k Hz)
                 (fun Hw => transaction_disables z k
                              (resets_default_target_false z k st Hk Hw))
                 Hrun).
      reflexivity.
    + pose proof (keeps_run_mode (transaction z k) st perm imm
                    (transaction_frame z k) fw) as Hmode.
      by rewrite Hrun in Hmode.
Qed.

(** X8.  [main] is idempotent.  For parameters that satisfy the argument
    spec, with a named zone, where a zone-level state comes with no
    primitive or with a target, and except the reset of a zone target that
    is ["default"]: when [main] returns, the same invocation on the state it
    left returns [changed=false], with no message but the offline note, and
    leaves the state as it is. *)
Theorem main_idempotent p fw r fw1 :
  mutually_exclusive p = true ->
  default (default_zone fw) (p_zone p) <> EmptyString ->
  (zone_level_state (p_state p) = true ->
   primitives_given p = 0%nat \/ truthy_str (p_target p) = true) ->
  (forall target, p_target p = Some target ->
                  resets_default_target (ZoneTarget target) (p_state p) = false) ->
  main p fw = Done r fw1 ->
  main p fw1
  = Done (false,
          if fw_offline fw1
          then [Text "(offline operation: only on-disk configs were altered)"]
          else []) fw1.
Proof.
  intros Hex Hzone Hzl Hslip Hmain. rewrite main_planned in Hmain.
  apply bind_Done in Hmain as (layers & fw0 & Hl & Hmain).
  pose proof (layer_flags_state _ _ _ _ _ _ Hl) as ->.
  apply bind_Done in Hmain as (pp & fw0 & Hpp & Hmain).
  pose proof Hpp as (-> & Hpp' & _)%parse_port_Done.
  apply bind_Done in Hmain as (sp & fw0 & Hsp & Hmain).
  pose proof Hsp as (-> & Hsp' & _)%parse_port_Done.
  apply bind_Done in Hmain as (pf & fw0 & Hpf & Hmain).
  pose proof Hpf as (-> & Hpf' & _)%parse_port_forward_Done.
  apply bind_Done in Hmain as ([] & fw0 & Hguard & Hmain).
  destruct (modification_of p pp.1 sp.1 pf.1 && zone_level_state (p_state p)
            && bool_decide (p_target p = None)) eqn:Hg; [discriminate|].
  injection Hguard as <-.
  apply bind_Done in Hmain as (z & fw0 & [= <- <-] & Hmain).
  apply bind_Done in Hmain as (acc & fw0 & Hall & Hexit).
  unfold exit_json, bind, self_fw_offline, ret in Hexit.
  injection Hexit as _ <-.
  destruct (run_all_single_idempotent _ _ _ _ _ _ _ Hzone
              (planned_single p pp sp pf fw Hex Hzl Hslip Hpp Hsp Hpf) Hall)
    as [Hagain [Hmode Hdefault]].
  rewrite main_planned.
  unfold bind at 1. rewrite (layer_flags_mode _ _ _ _ _ _ _ Hmode Hl).
  unfold bind at 1. rewrite Hpp'.
  unfold bind at 1. rewrite Hsp'.
  unfold bind at 1. rewrite Hpf'.
  unfold bind at 1. rewrite Hg. simpl.
  unfold bind at 1, self_zone. rewrite Hdefault.
  unfold bind at 1. rewrite Hagain.
  reflexivity.
Qed.

End MainIdempotent.

(** X8 on the rich rule of the module's examples, asked for in both layers
    of zone [public] of the running daemon. *)
Lemma main_idempotent_witness :
  let rule :=
    "rule family=ipv4 forward-port port=443 protocol=tcp to-port=8443" in
  let p := mkParams None None None None None None None (Some rule)
             (Some "public") true None true enabled 0 None None None false
             None in
  let z := @Settings.addRichRule plain_rules rule FirewallClientZoneSettings in
  let fw1 :=
    set_runtime (<["public" := z]> (runtime fw_running))
      (set_config (<["public" := z]> (config fw_running)) fw_running) in
  @main plain_rules p fw_running
  = Done (true, [LayerMsg Permanent None; LayerMsg Immediate None;
                 Text ("Changed rich_rule " +:+ rule +:+ " to enabled")]) fw1
  /\ @main plain_rules p fw1 = Done (false, []) fw1.
Proof.
  intros rule p z fw1.
  assert (@main plain_rules p fw_running
          = Done (true, [LayerMsg Permanent None; LayerMsg Immediate None;
                         Text ("Changed rich_rule " +:+ rule +:+ " to enabled")])
              fw1) as Hmain by (vm_compute; reflexivity).
  split; [exact Hmain|].
  refine (@main_idempotent plain_rules p fw_running _ fw1 eq_refl _ _ _ Hmain).
  - discriminate.
  - intros Hz. vm_compute in Hz. discriminate.
  - intros target Ht. discriminate.
Defined.

(** ** Invocations without a primitive *)

Lemma no_primitive_invocation p :
  primitives_given p = 0%nat ->
  p = zone_invocation (p_zone p) (p_state p) (p_permanent p) (p_immediate p)
        (p_offline p) (p_timeout p).
Proof.
  unfold primitives_given, zone_invocation. intros Hnone.
  destruct p as [icmp_block inversion service protocol port source_port
                   port_forward rich_rule zone immediate source permanent
                   state timeout interface forward masquerade offline target].
  simpl in *. prune_given Hnone. reflexivity.
Qed.

Lemma layer_flags_permanent_only offline permanent immediate fw layers fw' :
  layer_flags offline permanent immediate fw = Done layers fw' ->
  layers.2 = false -> layers.1 = true.
Proof.
  unfold layer_flags, offline_override, require_running, self_fw_offline,
    immediate_default, bind, ret, fail_json.
  destruct offline, permanent, immediate; simpl;
    destruct (fw_offline fw) eqn:Hmode; simpl; rewrite ?Hmode; simpl;
    intros Heq; inversion Heq; auto.
Qed.

Lemma main_zone_invocation `{RichLanguage} zone st perm imm off t fw layers :
  layer_flags off perm imm fw = Done layers fw ->
  main (zone_invocation zone st perm imm off t) fw
  = (acc <- (if zone_level_state st
             then transact (ZoneTransaction.make (default (default_zone fw) zone))
                    st layers.1 layers.2
                    [Text ("Changed zone " +:+ fmt_opt zone +:+ " to "
                           +:+ State_str st)] (false, [])
             else ret (false, []));;
     exit_json acc) fw.
Proof.
  intros Hl. unfold main. simpl. unfold bind at 1. rewrite Hl. simpl.
  unfold bind, ret, self_zone. simpl.
  destruct (zone_level_state st); reflexivity.
Qed.

Lemma exit_json_Done acc fw :
  exit_json acc fw = Done (acc.1, acc.2 ++ offline_note fw) fw.
Proof.
  unfold exit_json, offline_note, self_fw_offline, bind, ret.
  destruct (fw_offline fw); simpl; [reflexivity|]. by rewrite app_nil_r.
Qed.

Lemma main_no_primitive `{RichLanguage} p fw layers :
  primitives_given p = 0%nat ->
  layer_flags (p_offline p) (p_permanent p) (p_immediate p) fw = Done layers fw ->
  main p fw
  = (acc <- (if zone_level_state (p_state p)
             then transact
                    (ZoneTransaction.make (default (default_zone fw) (p_zone p)))
                    (p_state p) layers.1 layers.2
                    [Text ("Changed zone " +:+ fmt_opt (p_zone p) +:+ " to "
                           +:+ State_str (p_state p))] (false, [])
             else ret (false, []));;
     exit_json acc) fw.
Proof.
  intros Hnone Hl.
  rewrite (no_primitive_invocation p Hnone) at 1.
  by apply main_zone_invocation.
Qed.

Lemma main_without_primitive_aux `{RichLanguage} p fw layers fw' :
  primitives_given p = 0%nat ->
  zone_level_state (p_state p) = false ->
  layer_flags (p_offline p) (p_permanent p) (p_immediate p) fw = Done layers fw' ->
  main p fw = Done (false, offline_note fw) fw.
Proof.
  intros Hnone Hst Hl.
  pose proof (layer_flags_state _ _ _ _ _ _ Hl) as ->.
  rewrite (main_no_primitive p fw layers Hnone Hl), Hst.
  unfold bind at 1. unfold ret at 1. by rewrite exit_json_Done.
Qed.

Lemma zone_run_immediate zone st perm fw :
  zone_level_state st = true -> fw_offline fw = false ->
  run (ZoneTransaction.make zone) st perm true fw
  = FailJson tx_not_permanent_error_msg fw.
Proof.
  intros Hst Hoff. unfold run. rewrite Hoff. simpl.
  unfold probe, bind, ret. simpl.
  destruct perm; [rewrite zone_get_enabled_permanent|]; reflexivity.
Qed.

Lemma zone_run_present zone fw :
  run (ZoneTransaction.make zone) present true false fw
  = if bool_decide (is_Some (config fw !! zone)) then Done (false, []) fw
    else Done (true, [LayerMsg Permanent (Some ("Added zone " +:+ zone))])
           (set_config (<[zone := FirewallClientZoneSettings]> (config fw)) fw).
Proof.
  unfold run, probe. simpl. unfold bind at 1. unfold bind at 1.
  rewrite zone_get_enabled_permanent. unfold ret at 1.
  destruct (bool_decide (is_Some (config fw !! zone))); [reflexivity|].
  unfold bind, ret, desired_bool. simpl.
  unfold ZoneTransaction.set_enabled_permanent, self_fw_offline, bind,
    Config.new_zone, Config.addZone, Config.set_zone_config.
  destruct (fw_offline fw); reflexivity.
Qed.

Lemma zone_run_absent zone fw :
  run (ZoneTransaction.make zone) absent true false fw
  = if bool_decide (is_Some (config fw !! zone))
    then Done (true, [LayerMsg Permanent (Some ("Removed zone " +:+ zone))])
           (set_config (delete zone (config fw)) fw)
    else Done (false, []) fw.
Proof.
  unfold run, probe. simpl. unfold bind at 1. unfold bind at 1.
  rewrite zone_get_enabled_permanent. unfold ret at 1.
  destruct (bool_decide (is_Some (config fw !! zone))) eqn:Hex; [|reflexivity].
  apply bool_decide_eq_true_1 in Hex as [s Hs].
  unfold bind, ret, desired_bool. simpl.
  unfold ZoneTransaction.set_disabled_permanent, self_fw_offline, bind,
    Config.remove, Config.remove_zone.
  destruct (fw_offline fw); rewrite Hs; reflexivity.
Qed.

(** X3.  An invocation without a primitive, once the layer flags are
    accepted.  With state enabled or disabled it does nothing and reports
    [changed=false].  With state present or absent it fails with the
    not-permanent message when the immediate layer is worked on, the state
    being left as it was; on the permanent layer alone, present adds the
    zone with the settings of a new zone when the configuration has no such
    zone, absent removes it when it has one, and both do nothing
    otherwise. *)
Theorem zone_level_invocation `{RichLanguage} p fw layers fw' :
  primitives_given p = 0%nat ->
  layer_flags (p_offline p) (p_permanent p) (p_immediate p) fw = Done layers fw' ->
  let z := default (default_zone fw) (p_zone p) in
  let known := bool_decide (is_Some (config fw !! z)) in
  let text st := Text ("Changed zone " +:+ fmt_opt (p_zone p) +:+ " to "
                       +:+ State_str st) in
  (zone_level_state (p_state p) = false ->
   main p fw = Done (false, offline_note fw) fw)
  /\ (zone_level_state (p_state p) = true -> layers.2 = true ->
      main p fw = FailJson tx_not_permanent_error_msg fw)
  /\ (p_state p = present -> layers.2 = false ->
      main p fw
      = if known then Done (false, offline_note fw) fw
        else Done (true, [LayerMsg Permanent (Some ("Added zone " +:+ z));
                          text present] ++ offline_note fw)
               (set_config (<[z := FirewallClientZoneSettings]> (config fw)) fw))
  /\ (p_state p = absent -> layers.2 = false ->
      main p fw
      = if known
        then Done (true, [LayerMsg Permanent (Some ("Removed zone " +:+ z));
                          text absent] ++ offline_note fw)
               (set_config (delete z (config fw)) fw)
        else Done (false, offline_note fw) fw).
Proof.
  intros Hnone Hl z known text.
  pose proof (layer_flags_state _ _ _ _ _ _ Hl) as ->.
  destruct (layer_flags_Done _ _ _ _ _ _ Hl) as (_ & _ & Hrunning).
  pose proof (layer_flags_permanent_only _ _ _ _ _ _ Hl) as Hperm.
  rewrite (main_no_primitive p fw layers Hnone Hl).
  split; [|split; [|split]].
  - intros ->. unfold bind at 1. unfold ret at 1. by rewrite exit_json_Done.
  - intros Hst Himm. rewrite Hst. unfold bind at 1. unfold transact.
    unfold bind at 1. rewrite Himm, zone_run_immediate; auto.
  - intros Hst Himm. rewrite Hst, (Hperm Himm), Himm. simpl.
    unfold bind at 1. unfold transact. unfold bind at 1.
    rewrite zone_run_present. fold z. fold known.
    destruct known; unfold ret at 1; rewrite exit_json_Done; reflexivity.
  - intros Hst Himm. rewrite Hst, (Hperm Himm), Himm. simpl.
    unfold bind at 1. unfold transact. unfold bind at 1.
    rewrite zone_run_absent. fold z. fold known.
    destruct known; unfold ret at 1; rewrite exit_json_Done; reflexivity.
Qed.

Lemma zone_level_invocation_witness :
  let p := zone_invocation (Some "dmz") present true false false 0 in
  @main plain_rules p fw_running
  = Done (true, [LayerMsg Permanent (Some "Added zone dmz");
                 Text "Changed zone dmz to present"])
      (set_config (<["dmz" := FirewallClientZoneSettings]> (config fw_running))
         fw_running).
Proof.
  intros p.
  destruct (@zone_level_invocation plain_rules p fw_running (true, false)
              fw_running eq_refl eq_refl) as (_ & _ & Hpresent & _).
  exact (Hpresent eq_refl eq_refl).
Defined.

(** ** The fields of a port value *)

Lemma count_app c s t :
  PyStr.count c (s +:+ t) = (PyStr.count c s + PyStr.count c t)%nat.
Proof. induction s as [|a s IH]; simpl; [done|]. rewrite IH. lia. Qed.

Lemma split_one_field c s b : PyStr.split c s = [b] -> s = b.
Proof.
  revert b. induction s as [|a s IH]; intros b; simpl.
  - by intros [= <-].
  - pose proof (split_length c s) as Hlen.
    destruct (Ascii.eqb a c).
    + intros [= <- Hs]. rewrite Hs in Hlen. discriminate.
    + destruct (PyStr.split c s) as [|h t]; [discriminate|].
      intros [= <- ->]. by rewrite (IH h).
Qed.

Lemma split_two_fields c s a b :
  PyStr.split c s = [a; b] <->
  s = a +:+ String c b /\ PyStr.count c a = 0%nat /\ PyStr.count c b = 0%nat.
Proof.
  split.
  - intros Hs.
    assert (PyStr.count c s = 1%nat) as Hcount.
    { pose proof (split_length c s) as Hlen. rewrite Hs in Hlen.
      simpl in Hlen. lia. }
    assert (s = a +:+ String c b /\ PyStr.count c a = 0%nat) as [-> Ha].
    { clear Hcount. revert a Hs. induction s as [|x s IH]; intros a; simpl.
      - discriminate.
      - destruct (Ascii.eqb_spec x c) as [->|Hx].
        + intros [= <- Hs]. by rewrite (split_one_field _ _ _ Hs).
        + destruct (PyStr.split c s) as [|h t]; [discriminate|].
          intros [= <- ->]. destruct (IH h eq_refl) as [-> Hh].
          split; [done|]. simpl.
          destruct (Ascii.eqb_spec x c); [done | exact Hh]. }
    split; [done|]. split; [done|].
    rewrite count_app in Hcount. simpl in Hcount.
    rewrite Ascii.eqb_refl in Hcount. lia.
  - intros (-> & Ha & Hb). rewrite (split_app _ _ _ Ha). f_equal.
    pose proof (split_length c b) as Hlen. rewrite Hb in Hlen.
    destruct (PyStr.split c b) as [|h [|]] eqn:Hs; try discriminate.
    by rewrite (split_one_field _ _ _ Hs).
Qed.

Lemma truthy_nonempty s : PyStr.truthy s = true <-> s <> EmptyString.
Proof. destruct s; simpl; split; congruence. Qed.

Lemma parse_port_fields msg v fw r fw' :
  parse_port msg (Some v) fw = Done r fw' <->
  fw' = fw
  /\ exists port protocol,
       r = (Some port, Some protocol)
       /\ PyStr.strip v = port +:+ "/" +:+ protocol
       /\ PyStr.count slash port = 0%nat
       /\ PyStr.count slash protocol = 0%nat
       /\ protocol <> EmptyString.
Proof.
  split.
  - intros Hp. destruct (parse_port_Done _ _ _ _ _ Hp) as (-> & _ & Hr).
    destruct Hr as (port & protocol & -> & Hs & Ht).
    apply split_two_fields in Hs as (Hs & Hport & Hproto).
    split; [done|]. exists port, protocol.
    split; [done|]. split; [exact Hs|]. split; [done|]. split; [done|].
    by apply truthy_nonempty.
  - intros (-> & port & protocol & -> & Hs & Hport & Hproto & Ht).
    assert (PyStr.count slash v = 1%nat) as Hv.
    { rewrite <- (count_strip slash v isspace_slash), Hs, count_app.
      change (PyStr.count slash ("/" +:+ protocol))
        with (1 + PyStr.count slash protocol)%nat.
      lia. }
    destruct (parse_port_one_slash msg v fw Hv) as (a & b & Hsplit & ->).
    assert (PyStr.split slash (PyStr.strip v) = [port; protocol]) as Hsplit'.
    { by apply split_two_fields. }
    rewrite Hsplit in Hsplit'. injection Hsplit' as -> ->.
    apply truthy_nonempty in Ht. by rewrite Ht.
Qed.

(** X4.  The parsing of a [port] or [source_port] value returns exactly when
    the stripped value is [port/protocol] with no further slash and a
    non-empty protocol; it returns these two fields, so that joining them
    with a slash gives the stripped value back, and it leaves the state as
    it was. *)
Theorem parse_port_round_trip msg v fw r fw' :
  parse_port msg (Some v) fw = Done r fw' <->
  fw' = fw
  /\ exists port protocol,
       r = (Some port, Some protocol)
       /\ PyStr.strip v = port +:+ "/" +:+ protocol
       /\ PyStr.count slash port = 0%nat
       /\ PyStr.count slash protocol = 0%nat
       /\ protocol <> EmptyString.
Proof. apply parse_port_fields. Qed.

Lemma parse_port_round_trip_witness :
  parse_port improper_port_msg (Some " 8080-8090/tcp ") fw_running
  = Done (Some "8080-8090", Some "tcp") fw_running.
Proof.
  apply (proj2 (parse_port_round_trip improper_port_msg " 8080-8090/tcp "
                  fw_running (Some "8080-8090", Some "tcp") fw_running)).
  split; [reflexivity|]. exists "8080-8090", "tcp".
  split; [reflexivity|]. split; [reflexivity|]. split; [reflexivity|].
  split; [reflexivity|]. discriminate.
Defined.

(** A no-break space after the slash is stripped, as Python does, and
    leaves no protocol. *)
Example parse_port_no_break_space :
  PyStr.strip ("80/" +:+ String "160"%char EmptyString) = "80/"
  /\ parse_port improper_port_msg
       (Some ("80/" +:+ String "160"%char EmptyString)) fw_running
     = FailJson improper_port_msg fw_running.
Proof. split; reflexivity. Qed.

(** ** The checks on [port_forward] *)

Lemma exclusive_port_forward p l :
  mutually_exclusive p = true -> p_port_forward p = Some l ->
  p_port p = None /\ p_source_port p = None.
Proof.
  unfold mutually_exclusive. intros Hex%Nat.leb_le Hpf. rewrite Hpf in Hex.
  destruct (p_port p), (p_source_port p); simpl in Hex; try lia. done.
Qed.

Lemma main_parse_port_forward `{RichLanguage} p fw layers fw' l :
  mutually_exclusive p = true ->
  p_port_forward p = Some l ->
  layer_flags (p_offline p) (p_permanent p) (p_immediate p) fw = Done layers fw' ->
  (forall msg, parse_port_forward (Some l) fw = FailJson msg fw ->
               main p fw = FailJson msg fw)
  /\ (forall e, parse_port_forward (Some l) fw = Raised e fw ->
                main p fw = Raised e fw).
Proof.
  intros Hex Hpf Hl. pose proof (layer_flags_state _ _ _ _ _ _ Hl) as ->.
  destruct (exclusive_port_forward p l Hex Hpf) as [Hport Hsport].
  split.
  - intros msg Hp. rewrite main_planned. unfold bind at 1. rewrite Hl.
    rewrite Hport, Hsport, Hpf.
    change (parse_port improper_port_msg None)
      with (@ret (option string * option string) (None, None)).
    change (parse_port improper_source_port_msg None)
      with (@ret (option string * option string) (None, None)).
    unfold bind at 1. unfold ret at 1.
    unfold bind at 1. unfold ret at 1. unfold bind at 1. by rewrite Hp.
  - intros e Hp. rewrite main_planned. unfold bind at 1. rewrite Hl.
    rewrite Hport, Hsport, Hpf.
    change (parse_port improper_port_msg None)
      with (@ret (option string * option string) (None, None)).
    change (parse_port improper_source_port_msg None)
      with (@ret (option string * option string) (None, None)).
    unfold bind at 1. unfold ret at 1.
    unfold bind at 1. unfold ret at 1. unfold bind at 1. by rewrite Hp.
Qed.

(** X5.  Under the argument spec and once the layer flags are accepted, a
    [port_forward] list is checked before any transaction, in this order:
    an empty list raises [IndexError]; more than one entry, an entry
    without [port], without [proto], without [toport] each fail with their
    own message; the state is left as it was. *)
Theorem port_forward_validation `{RichLanguage} p fw layers fw' l :
  mutually_exclusive p = true ->
  p_port_forward p = Some l ->
  layer_flags (p_offline p) (p_permanent p) (p_immediate p) fw = Done layers fw' ->
  (l = [] -> main p fw = Raised IndexError fw)
  /\ ((1 < length l)%nat ->
      main p fw = FailJson "Only one port forward supported at a time" fw)
  /\ (forall d, l = [d] ->
      (d !! "port" = None ->
       main p fw = FailJson "port must be specified for port forward" fw)
      /\ (is_Some (d !! "port") -> d !! "proto" = None ->
          main p fw
          = FailJson "proto udp/tcp must be specified for port forward" fw)
      /\ (is_Some (d !! "port") -> is_Some (d !! "proto") ->
          d !! "toport" = None ->
          main p fw = FailJson "toport must be specified for port forward" fw)).
Proof.
  intros Hex Hpf Hl.
  destruct (main_parse_port_forward p fw layers fw' l Hex Hpf Hl) as [Hfail Hraise].
  split; [|split].
  - intros ->. by apply Hraise.
  - intros Hlen. apply Hfail. unfold parse_port_forward.
    apply Nat.ltb_lt in Hlen. unfold bind. by rewrite Hlen.
  - intros d ->. split; [|split].
    + intros Hport. apply Hfail. unfold parse_port_forward, require_key, bind.
      simpl. by rewrite Hport.
    + intros [a Hport] Hproto. apply Hfail.
      unfold parse_port_forward, require_key, bind. simpl.
      by rewrite Hport, Hproto.
    + intros [a Hport] [b Hproto] Htoport. apply Hfail.
      unfold parse_port_forward, require_key, bind. simpl.
      by rewrite Hport, Hproto, Htoport.
Qed.

Lemma port_forward_validation_witness :
  let p := mkParams None None None None None None (Some []) None
             (Some "public") false None true enabled 0 None None None false
             None in
  @main plain_rules p fw_running = Raised IndexError fw_running.
Proof.
  intros p.
  destruct (@port_forward_validation plain_rules p fw_running (true, false)
              fw_running [] eq_refl eq_refl eq_refl) as [Hempty _].
  exact (Hempty eq_refl).
Defined.

(** ** Zone targets *)

Lemma main_target_invocation `{RichLanguage} target zone st perm imm off t fw
    layers :
  target <> EmptyString ->
  layer_flags off perm imm fw = Done layers fw ->
  main (target_invocation target zone st perm imm off t) fw
  = (acc <- transact
              (ZoneTargetTransaction.make (default (default_zone fw) zone) target)
              st layers.1 layers.2 [] (false, []);;
     exit_json acc) fw.
Proof.
  intros Ht%truthy_nonempty Hl. unfold main. simpl. unfold bind at 1.
  rewrite Hl. simpl. unfold modification_of. simpl. rewrite Ht.
  unfold bind, ret, self_zone. simpl. rewrite andb_false_r.
  destruct (transact _ _ _ _ _ _ fw); reflexivity.
Qed.

Lemma zone_target_run zone target st fw s :
  config fw !! zone = Some s ->
  run (ZoneTargetTransaction.make zone target) st true false fw
  = if bool_decide (st ∈ [present; enabled])
    then if bool_decide (z_target s = target) then Done (false, []) fw
         else Done (true, [LayerMsg Permanent
                             (Some (ZoneTargetTransaction.enabled_msg zone target))])
                (set_config (<[zone := Settings.setTarget target s]> (config fw)) fw)
    else if bool_decide (z_target s = target)
         then Done (true, [LayerMsg Permanent
                             (Some (ZoneTargetTransaction.disabled_msg zone))])
                (set_config (<[zone := Settings.setTarget "default" s]> (config fw))
                   fw)
         else Done (false, []) fw.
Proof.
  intros Hs. unfold run. simpl.
  unfold probe, bind, ret, desired_bool. simpl.
  unfold ZoneTargetTransaction.get_enabled_permanent, get_fw_zone_settings,
    Config.get_zone_config, bind, ret. rewrite Hs. simpl.
  unfold Settings.getTarget.
  destruct st; simpl; destruct (bool_decide (z_target s = target)); simpl;
    try reflexivity;
    unfold ZoneTargetTransaction.set_enabled_permanent,
      ZoneTargetTransaction.set_disabled_permanent, get_fw_zone_settings,
      update_fw_settings, Config.get_zone_config, Config.set_zone_config,
      bind, ret; rewrite Hs; reflexivity.
Qed.

(** The reset of a target that is ["default"] already: on every zone with
    that target a disabling state makes the engine report [changed=true]
    and leave the state as it was, so that every further run does the
    same. *)
Lemma default_target_reset_changed zone st fw s :
  config fw !! zone = Some s ->
  z_target s = "default" ->
  st ∈ [absent; disabled] ->
  run (ZoneTargetTransaction.make zone "default") st true false fw
  = Done (true, [LayerMsg Permanent
                   (Some (ZoneTargetTransaction.disabled_msg zone))]) fw.
Proof.
  intros Hs Ht Hst. rewrite (zone_target_run zone "default" st fw s Hs).
  assert (bool_decide (st ∈ [present; enabled]) = false) as ->.
  { apply bool_decide_eq_false_2. intros Hin.
    apply elem_of_cons in Hst as [->|Hst];
      [|apply list_elem_of_singleton in Hst as ->];
      apply elem_of_cons in Hin as [Hin|Hin]; try discriminate Hin;
      apply list_elem_of_singleton in Hin; discriminate Hin. }
  rewrite (bool_decide_eq_true_2 _ Ht). f_equal.
  assert (Settings.setTarget "default" s = s) as ->.
  { destruct s. simpl in Ht. subst. reflexivity. }
  rewrite (insert_id _ _ _ Hs). by destruct fw.
Qed.

(** X6.  An invocation whose only primitive is [target], on the permanent
    layer alone and for an existing zone.  With state present or enabled the
    zone's target becomes the given one, [changed] telling whether it was
    another; with state absent or disabled the target goes back to
    ["default"] exactly when it is the given one, and is left alone
    otherwise.  Nothing else of the zone and no other zone changes, and the
    zone is never removed. *)
Theorem zone_target_invocation `{RichLanguage} target zone st perm imm off t fw
    layers fw' s :
  let z := default (default_zone fw) zone in
  target <> EmptyString ->
  layer_flags off perm imm fw = Done layers fw' ->
  layers.2 = false ->
  config fw !! z = Some s ->
  main (target_invocation target zone st perm imm off t) fw
  = if bool_decide (st ∈ [present; enabled])
    then if bool_decide (z_target s = target)
         then Done (false, offline_note fw) fw
         else Done (true,
                    LayerMsg Permanent
                      (Some ("Set zone " +:+ z +:+ " target to " +:+ target))
                    :: offline_note fw)
                (set_config (<[z := Settings.setTarget target s]> (config fw)) fw)
    else if bool_decide (z_target s = target)
         then Done (true,
                    LayerMsg Permanent
                      (Some ("Reset zone " +:+ z +:+ " target to default"))
                    :: offline_note fw)
                (set_config (<[z := Settings.setTarget "default" s]> (config fw))
                   fw)
         else Done (false, offline_note fw) fw.
Proof.
  intros z Ht Hl Himm Hs.
  pose proof (layer_flags_state _ _ _ _ _ _ Hl) as ->.
  pose proof (layer_flags_permanent_only _ _ _ _ _ _ Hl Himm) as Hperm.
  rewrite (main_target_invocation _ _ _ _ _ _ _ _ _ Ht Hl).
  fold z. rewrite Hperm, Himm. unfold bind at 1. unfold transact.
  unfold bind at 1. rewrite (zone_target_run z target st fw s Hs).
  destruct (bool_decide (st ∈ [present; enabled])),
    (bool_decide (z_target s = target));
    unfold ret at 1; rewrite exit_json_Done; reflexivity.
Qed.

Lemma zone_target_invocation_witness :
  let p := target_invocation "DROP" (Some "drop") present true false false 0 in
  @main plain_rules p fw_running
  = Done (true, [LayerMsg Permanent (Some "Set zone drop target to DROP")])
      (set_config
         (<["drop" := Settings.setTarget "DROP" zone_drop]> (config fw_running))
         fw_running).
Proof.
  intros p.
  refine (@zone_target_invocation plain_rules "DROP" (Some "drop") present true
            false false 0 fw_running (true, false) fw_running zone_drop
            _ eq_refl eq_refl eq_refl).
  discriminate.
Defined.

(** ** The [changed] flag *)

(** What a returning [main] went through. *)
Lemma main_Done `{RichLanguage} p fw r fw1 :
  main p fw = Done r fw1 ->
  exists layers pp sp pf acc,
    layer_flags (p_offline p) (p_permanent p) (p_immediate p) fw = Done layers fw
    /\ parse_port improper_port_msg (p_port p) fw = Done pp fw
    /\ parse_port improper_source_port_msg (p_source_port p) fw = Done sp fw
    /\ parse_port_forward (p_port_forward p) fw = Done pf fw
    /\ modification_of p pp.1 sp.1 pf.1 && zone_level_state (p_state p)
       && bool_decide (p_target p = None) = false
    /\ run_all (default (default_zone fw) (p_zone p)) layers.1 layers.2
         (planned p pp sp pf) (false, []) fw = Done acc fw1
    /\ r = (acc.1, acc.2 ++ offline_note fw1).
Proof.
  intros Hmain. rewrite main_planned in Hmain.
  apply bind_Done in Hmain as (layers & fw0 & Hl & Hmain).
  pose proof (layer_flags_state _ _ _ _ _ _ Hl) as ->.
  apply bind_Done in Hmain as (pp & fw0 & Hpp & Hmain).
  pose proof Hpp as (-> & _ & _)%parse_port_Done.
  apply bind_Done in Hmain as (sp & fw0 & Hsp & Hmain).
  pose proof Hsp as (-> & _ & _)%parse_port_Done.
  apply bind_Done in Hmain as (pf & fw0 & Hpf & Hmain).
  pose proof Hpf as (-> & _ & _)%parse_port_forward_Done.
  apply bind_Done in Hmain as ([] & fw0 & Hguard & Hmain).
  destruct (modification_of p pp.1 sp.1 pf.1 && zone_level_state (p_state p)
            && bool_decide (p_target p = None)) eqn:Hg; [discriminate|].
  injection Hguard as <-.
  apply bind_Done in Hmain as (z & fw0 & [= <- <-] & Hmain).
  apply bind_Done in Hmain as (acc & fw0 & Hall & Hexit).
  rewrite exit_json_Done in Hexit. injection Hexit as <- <-.
  by exists layers, pp, sp, pf, acc.
Qed.

(** A run reports no change exactly when it made none. *)
Lemma run_changed_accurate tx st perm imm fw r fw1 :
  Lawful tx ->
  (desired_bool tx st = Some true -> Enables tx) ->
  (desired_bool tx st = Some false -> Disables tx) ->
  run tx st perm imm fw = Done r fw1 ->
  r.1 = false <-> fw1 = fw.
Proof.
  intros L HE HD Hrun. split; [by eapply run_unchanged|].
  intros ->. destruct (desired_bool tx st) as [want|] eqn:Hwant.
  2:{ by destruct (run_unwanted _ _ _ _ _ _ _ L Hwant Hrun) as [-> _]. }
  destruct (r.1) eqn:Hr; [exfalso|done].
  destruct (run_establishes tx st perm imm fw r fw want) as (_ & Hp & Hi); auto.
  { intros ->. auto. }
  { intros ->. auto. }
  apply (run_changed_iff _ _ _ _ _ _ _ _ L Hwant Hrun) in Hr
    as [[Hperm Hget] | [Himm Hget]].
  - rewrite (Hp Hperm) in Hget. injection Hget. by destruct want.
  - rewrite (Hi Himm) in Hget. injection Hget. by destruct want.
Qed.

Section Changed.
Context `{RichLanguage}.

Lemma run_all_single_accurate z perm imm plan fw acc fw1 :
  z <> EmptyString ->
  (plan = []
   \/ exists k st extra,
        plan = [(k, st, extra)] /\ resets_default_target k st = false) ->
  run_all z perm imm plan (false, []) fw = Done acc fw1 ->
  acc.1 = false <-> fw1 = fw.
Proof.
  intros Hz [-> | (k & st & extra & -> & Hk)]; simpl.
  - by intros [= <- <-].
  - intros (acc' & fw2 & Htx & [= <- <-])%bind_Done.
    unfold transact in Htx.
    apply bind_Done in Htx as (r & fw2' & Hrun & [= <- <-]). simpl.
    apply (run_changed_accurate _ _ _ _ _ _ _ (transaction_lawful z k Hz)
             (fun _ => transaction_enables z k Hz)
             (fun Hw => transaction_disables z k
                          (resets_default_target_false z k st Hk Hw))
             Hrun).
Qed.

(** X7.  The [changed] flag of [main] is accurate.  For parameters that
    satisfy the argument spec, with a named zone, where a zone-level state
    comes with no primitive or with a target, and except the reset of a
    zone target that is ["default"]: when [main] returns, it reports
    [changed=false] exactly when it left the state as it was. *)
Theorem main_changed_accurate p fw changed msgs fw1 :
  mutually_exclusive p = true ->
  default (default_zone fw) (p_zone p) <> EmptyString ->
  (zone_level_state (p_state p) = true ->
   primitives_given p = 0%nat \/ truthy_str (p_target p) = true) ->
  (forall target, p_target p = Some target ->
                  resets_default_target (ZoneTarget target) (p_state p) = false) ->
  main p fw = Done (changed, msgs) fw1 ->
  changed = false <-> fw1 = fw.
Proof.
  intros Hex Hzone Hzl Hslip Hmain.
  apply main_Done in Hmain
    as (layers & pp & sp & pf & acc & Hl & Hpp & Hsp & Hpf & _ & Hall & Hr).
  injection Hr as -> _.
  apply (run_all_single_accurate _ _ _ _ _ _ _ Hzone
           (planned_single p pp sp pf fw Hex Hzl Hslip Hpp Hsp Hpf) Hall).
Qed.

End Changed.

Lemma main_changed_accurate_witness :
  let p := mkParams None None (Some "https") None None None None None
             (Some "public") true None true enabled 0 None None None false
             None in
  exists fw1,
    @main plain_rules p fw_running
    = Done (true, [LayerMsg Permanent None; LayerMsg Immediate None;
                   Text "Changed service https to enabled"]) fw1
    /\ (true = false <-> fw1 = fw_running).
Proof.
  intros p. eexists. 
  assert (@main plain_rules p fw_running
          = Done (true, [LayerMsg Permanent None; LayerMsg Immediate None;
                         Text "Changed service https to enabled"])
              (outcome_state (@main plain_rules p fw_running))) as Hmain
    by (vm_compute; reflexivity).
  split; [exact Hmain|].
  refine (@main_changed_accurate plain_rules p fw_running _ _ _ eq_refl _ _ _
            Hmain).
  - discriminate.
  - intros Hz. vm_compute in Hz. discriminate.
  - intros target Ht. discriminate.
Defined.

(** ** Enabling, then disabling *)

Lemma insert_twice_id (m : gmap string ZoneSettings) zone (s s' s'' : ZoneSettings) :
  m !! zone = Some s -> s'' = s -> <[zone := s'']> (<[zone := s']> m) = m.
Proof. intros Hs ->. rewrite insert_insert_eq. by apply insert_id. Qed.

Lemma insert_delete_id (m : gmap string ZoneSettings) zone (s : ZoneSettings) :
  m !! zone = None -> delete zone (<[zone := s]> m) = m.
Proof. intros Hs. rewrite delete_insert_eq. by apply delete_id. Qed.

Lemma add_remove_fresh `{Countable A} (x : A) (X : gset A) :
  x ∉ X -> ({[x]} ∪ X) ∖ {[x]} = X.
Proof.
  intros Hx. apply set_eq. intros y.
  rewrite elem_of_difference, elem_of_union, !elem_of_singleton. split.
  - intros [[->|Hy] Hne]; done.
  - intros Hy. split; [by right|]. by intros ->.
Qed.

(** The state is what it was: the zone's settings are written back. *)
Ltac restore_field :=
  first
    [ reflexivity
    | congruence
    | repeat match goal with
             | Hb : bool_decide _ = false |- _ =>
                 apply bool_decide_eq_false_1 in Hb
             end;
      apply add_remove_fresh; assumption ].

Ltac restore_map :=
  first
    [ reflexivity
    | congruence
    | apply insert_delete_id; assumption
    | eapply insert_twice_id; [eassumption|];
      match goal with
      | |- _ = ?s => destruct s
      end;
      simpl in *; f_equal; restore_field ].

Ltac restores :=
  first
    [ reflexivity
    | match goal with
      | |- _ = ?fw => destruct fw as [off dz cfg rt]
      end;
      simpl in *; f_equal; restore_map ].

(** A run on a state whose requested layers all answer the opposite of the
    desired boolean calls the setter of each requested layer, permanent
    first. *)
Lemma run_mutates tx st perm imm fw r fw1 want :
  Lawful tx ->
  desired_bool tx st = Some want ->
  (perm = true -> tx_get_enabled_permanent tx fw = Done (negb want) fw) ->
  (imm = true -> tx_get_enabled_immediate tx fw = Done (negb want) fw) ->
  run tx st perm imm fw = Done r fw1 ->
  (imm = true -> fw_offline fw = false)
  /\ exists fwp,
       (if perm then setter tx Permanent want fw = Done tt fwp else fwp = fw)
       /\ (if imm then setter tx Immediate want fwp = Done tt fw1
           else fw1 = fwp).
Proof.
  intros L Hwant Hp Hi Hrun.
  destruct (run_Done _ _ _ _ _ _ _ _ L Hwant Hrun)
    as (Hoff & op & oi & rp & fwp & ri & Hpp & Hpi & Hrp & Hri & _).
  split; [by intros ->|]. exists fwp.
  apply probe_Done in Hpp as [_ Hop]; [|apply L].
  apply probe_Done in Hpi as [_ Hoi]; [|apply L].
  split.
  - destruct perm.
    + destruct op as [b|]; [|discriminate]. destruct Hop as [_ Hget].
      rewrite (Hp eq_refl) in Hget. injection Hget as <-.
      apply reconcile_Done in Hrp as [(_ & _ & [Hc|Hc]) | (_ & _ & Hset)];
        [discriminate | by destruct want | exact Hset].
    + destruct op as [b|]; [by destruct Hop|].
      apply reconcile_Done in Hrp as [(_ & -> & _) | (Hc & _)];
        [done | discriminate].
  - destruct imm.
    + destruct oi as [b|]; [|discriminate]. destruct Hoi as [_ Hget].
      rewrite (Hi eq_refl) in Hget. injection Hget as <-.
      apply reconcile_Done in Hri as [(_ & _ & [Hc|Hc]) | (_ & _ & Hset)];
        [discriminate | by destruct want | exact Hset].
    + destruct oi as [b|]; [by destruct Hoi|].
      apply reconcile_Done in Hri as [(_ & -> & _) | (Hc & _)];
        [done | discriminate].
Qed.

Section RoundTrip.
Context `{RichLanguage}.

Lemma enable_disable_operations zone k perm imm fw fwp fw1 fwq fw2 :
  match k with Interface _ | ZoneTarget _ => False | _ => True end ->
  let tx := transaction zone k in
  (imm = true -> fw_offline fw = false) ->
  (perm = true -> tx_get_enabled_permanent tx fw = Done false fw) ->
  (imm = true -> tx_get_enabled_immediate tx fw = Done false fw) ->
  (if perm then tx_set_enabled_permanent tx fw = Done tt fwp else fwp = fw) ->
  (if imm then tx_set_enabled_immediate tx fwp = Done tt fw1 else fw1 = fwp) ->
  (if perm then tx_set_disabled_permanent tx fw1 = Done tt fwq else fwq = fw1) ->
  (if imm then tx_set_disabled_immediate tx fwq = Done tt fw2 else fw2 = fwq) ->
  fw2 = fw.
Proof.
  intros Hk tx Hrun Hp Hi Hpon Hion Hpoff Hioff. subst tx.
  destruct k; try (exfalso; exact Hk); clear Hk.
  all: destruct perm, imm; simpl in *;
    try specialize (Hrun eq_refl); try specialize (Hp eq_refl);
    try specialize (Hi eq_refl);
    try rewrite zone_get_enabled_permanent in *;
    autounfold with fw_tx in *; fw_simpl; repeat (fw_case; fw_simpl).
  all: try restores.
  apply bool_decide_eq_false_1 in Hp. apply eq_None_not_Some in Hp.
  unfold ZoneTransaction.set_enabled_permanent,
    ZoneTransaction.set_disabled_permanent in *.
  fw_simpl; repeat (fw_case; fw_simpl); restores.
Qed.

Lemma round_trip_kind_laws zone k :
  match k with Interface _ | ZoneTarget _ => False | _ => True end ->
  Lawful (transaction zone k) /\ Enables (transaction zone k).
Proof.
  intros Hk. destruct k; try (exfalso; exact Hk).
  all: first [ split; [by apply simple_kinds_lawful | by apply simple_kinds_enable]
             | split; [apply zone_lawful | apply zone_enables] ].
Qed.

(** X9.  Enabling, then disabling restores the state.  For every rule kind
    but an interface and a zone target, whatever the layers asked for: when
    no requested layer has the rule, a run with an enabling state followed
    by a run with a disabling state leaves the firewall exactly as it
    was. *)
Theorem enable_disable_round_trip zone k st_on st_off perm imm fw r1 fw1 r2 fw2 :
  match k with Interface _ | ZoneTarget _ => False | _ => True end ->
  let tx := transaction zone k in
  desired_bool tx st_on = Some true ->
  desired_bool tx st_off = Some false ->
  (perm = true -> tx_get_enabled_permanent tx fw = Done false fw) ->
  (imm = true -> tx_get_enabled_immediate tx fw = Done false fw) ->
  run tx st_on perm imm fw = Done r1 fw1 ->
  run tx st_off perm imm fw1 = Done r2 fw2 ->
  fw2 = fw.
Proof.
  intros Hk tx Hon Hoff Hp Hi Hrun1 Hrun2.
  destruct (round_trip_kind_laws zone k Hk) as [L E]. fold tx in L, E.
  destruct (run_establishes tx st_on perm imm fw r1 fw1 true L
              (fun _ => E) (fun Hc => False_ind _ (diff_true_false Hc)) Hon Hrun1)
    as (_ & Hp1 & Hi1).
  destruct (run_mutates tx st_on perm imm fw r1 fw1 true L Hon Hp Hi Hrun1)
    as (Hmode & fwp & Hpon & Hion).
  destruct (run_mutates tx st_off perm imm fw1 r2 fw2 false L Hoff Hp1 Hi1 Hrun2)
    as (_ & fwq & Hpoff & Hioff).
  exact (enable_disable_operations zone k perm imm fw fwp fw1 fwq fw2 Hk
           Hmode Hp Hi Hpon Hion Hpoff Hioff).
Qed.

End RoundTrip.

Lemma enable_disable_round_trip_witness :
  let tx := @transaction plain_rules "public" (Service "https" 0) in
  let fw1 := outcome_state (run tx enabled true true fw_running) in
  outcome_state (run tx disabled true true fw1) = fw_running.
Proof.
  intros tx fw1.
  assert (run tx enabled true true fw_running
          = Done (true, [LayerMsg Permanent None; LayerMsg Immediate None]) fw1)
    as Hrun1 by (vm_compute; reflexivity).
  assert (run tx disabled true true fw1
          = Done (true, [LayerMsg Permanent None; LayerMsg Immediate None])
              (outcome_state (run tx disabled true true fw1)))
    as Hrun2 by (vm_compute; reflexivity).
  refine (@enable_disable_round_trip plain_rules "public" (Service "https" 0)
            enabled disabled true true fw_running _ fw1 _ _ I eq_refl eq_refl
            _ _ Hrun1 Hrun2).
  - intros _. vm_compute. reflexivity.
  - intros _. vm_compute. reflexivity.
Defined.

(** ** Interfaces stay bound to one zone *)

#[local] Instance preserves_refl I : Reflexive (preserves I).
Proof. intros fw Hfw. exact Hfw. Qed.

#[local] Instance preserves_trans I : Transitive (preserves I).
Proof. intros a b c Hab Hbc Ha. apply Hbc, Hab, Ha. Qed.

Lemma exclusive_insert m zone s' :
  exclusive m ->
  (forall i z2 s2, i ∈ z_interfaces s' -> m !! z2 = Some s2 ->
                   i ∈ z_interfaces s2 -> z2 = zone) ->
  exclusive (<[zone := s']> m).
Proof.
  intros Hm Hnew i z1 z2 s1 s2 H1 H2 Hi1 Hi2.
  destruct (decide (z1 = zone)) as [->|Hn1], (decide (z2 = zone)) as [->|Hn2].
  - done.
  - rewrite lookup_insert_eq in H1. rewrite lookup_insert_ne in H2 by done.
    injection H1 as <-. symmetry. by eapply Hnew.
  - rewrite lookup_insert_eq in H2. rewrite lookup_insert_ne in H1 by done.
    injection H2 as <-. by eapply Hnew.
  - rewrite lookup_insert_ne in H1 by done.
    rewrite lookup_insert_ne in H2 by done. by eapply Hm.
Qed.

Lemma exclusive_insert_sub m zone s s' :
  exclusive m -> m !! zone = Some s ->
  z_interfaces s' ⊆ z_interfaces s ->
  exclusive (<[zone := s']> m).
Proof.
  intros Hm Hs Hsub. apply exclusive_insert; [done|].
  intros i z2 s2 Hi H2 Hi2. eapply Hm; [exact H2 | exact Hs | exact Hi2 |].
  by apply Hsub.
Qed.

Lemma exclusive_delete m zone : exclusive m -> exclusive (delete zone m).
Proof.
  intros Hm i z1 z2 s1 s2 H1 H2.
  apply lookup_delete_Some in H1 as [_ H1].
  apply lookup_delete_Some in H2 as [_ H2]. by eapply Hm.
Qed.

Lemma exclusive_fmap_sub m (f : ZoneSettings -> ZoneSettings) :
  exclusive m ->
  (forall s, z_interfaces (f s) ⊆ z_interfaces s) ->
  exclusive (f <$> m).
Proof.
  intros Hm Hsub i z1 z2 s1 s2 H1 H2 Hi1 Hi2.
  apply lookup_fmap_Some in H1 as (t1 & <- & H1).
  apply lookup_fmap_Some in H2 as (t2 & <- & H2).
  eapply Hm; [exact H1 | exact H2 | by apply Hsub | by apply Hsub].
Qed.

Lemma interfaces_addInterface i s :
  z_interfaces (Settings.addInterface i s) = {[i]} ∪ z_interfaces s.
Proof. reflexivity. Qed.

Lemma interfaces_removeInterface i s :
  z_interfaces (Settings.removeInterface i s) = z_interfaces s ∖ {[i]}.
Proof. reflexivity. Qed.

Lemma removeInterface_sub i s :
  z_interfaces (Settings.removeInterface i s) ⊆ z_interfaces s.
Proof.
  rewrite interfaces_removeInterface. intros j Hj.
  by apply elem_of_difference in Hj as [Hj _].
Qed.

(** Binding [i] to [zone] when no other zone has it. *)
Lemma exclusive_bind m zone s i :
  exclusive m -> m !! zone = Some s ->
  (forall z2 s2, m !! z2 = Some s2 -> i ∈ z_interfaces s2 -> z2 = zone) ->
  exclusive (<[zone := Settings.addInterface i s]> m).
Proof.
  intros Hm Hs Hsole. apply exclusive_insert; [done|].
  intros j z2 s2 Hj H2 Hj2. rewrite interfaces_addInterface in Hj.
  apply elem_of_union in Hj as [->%elem_of_singleton | Hj].
  - by eapply Hsole.
  - by eapply Hm.
Qed.

(** Moving [i] from the zone that has it to [zone]. *)
Lemma exclusive_move m zone s old so i :
  exclusive m -> m !! zone = Some s -> m !! old = Some so ->
  i ∈ z_interfaces so -> old <> zone ->
  exclusive (<[zone := Settings.addInterface i s]>
               (<[old := Settings.removeInterface i so]> m)).
Proof.
  intros Hm Hs Hso Hi Hne. apply exclusive_bind.
  - eapply exclusive_insert_sub; [done | exact Hso | apply removeInterface_sub].
  - by rewrite lookup_insert_ne.
  - intros z2 s2 H2 Hi2. exfalso.
    destruct (decide (z2 = old)) as [->|Hn].
    + rewrite lookup_insert_eq in H2. injection H2 as <-.
      rewrite interfaces_removeInterface in Hi2.
      apply elem_of_difference in Hi2 as [_ Hi2]. by apply Hi2, elem_of_singleton.
    + rewrite lookup_insert_ne in H2 by done.
      apply Hn. by eapply Hm.
Qed.

Lemma exclusive_set_config fw c :
  interfaces_exclusive fw -> exclusive c -> c !! EmptyString = None ->
  interfaces_exclusive (set_config c fw).
Proof. intros (_ & Hr & _) Hc Hn. by split; [|split]. Qed.

Lemma exclusive_set_runtime fw r :
  interfaces_exclusive fw -> exclusive r ->
  interfaces_exclusive (set_runtime r fw).
Proof. intros (Hc & _ & Hn) Hr. by split; [|split]. Qed.

Lemma lookup_insert_unnamed (m : gmap string ZoneSettings) zone s s' :
  m !! EmptyString = None -> m !! zone = Some s ->
  <[zone := s']> m !! EmptyString = None.
Proof.
  intros Hn Hs. rewrite lookup_insert_ne; [done|]. intros ->. congruence.
Qed.

(** The building blocks of the setters. *)
Lemma exclusive_permanent_update zone (g : string * ZoneSettings -> ZoneSettings) :
  (forall s, z_interfaces (g s) ⊆ z_interfaces s.2) ->
  keeps (preserves interfaces_exclusive)
    (s <- get_fw_zone_settings zone;; update_fw_settings s.1 (g s)).
Proof.
  intros Hg fw Hinv.
  unfold get_fw_zone_settings, update_fw_settings, Config.get_zone_config,
    Config.set_zone_config, bind, ret.
  destruct (config fw !! zone) as [s|] eqn:Hs; simpl; [|done].
  destruct Hinv as (Hc & Hr & Hn). apply exclusive_set_config; [done | |].
  - eapply exclusive_insert_sub; [done | exact Hs | apply (Hg (zone, s))].
  - by eapply lookup_insert_unnamed.
Qed.

Lemma exclusive_live_change zone (f : ZoneSettings -> ZoneSettings) :
  (forall s, z_interfaces (f s) ⊆ z_interfaces s) ->
  keeps (preserves interfaces_exclusive) (Live.change zone f).
Proof.
  intros Hf fw Hinv. unfold Live.change.
  destruct (runtime fw !! zone) as [s|] eqn:Hs; simpl; [|done].
  apply exclusive_set_runtime; [done|].
  eapply exclusive_insert_sub; [apply Hinv | exact Hs | apply Hf].
Qed.

Lemma exclusive_changeZoneOfInterface zone interface :
  keeps (preserves interfaces_exclusive)
    (Live.changeZoneOfInterface zone interface).
Proof.
  intros fw Hinv. unfold Live.changeZoneOfInterface.
  destruct (runtime fw !! zone) as [s|] eqn:Hs; simpl; [|done].
  apply exclusive_set_runtime; [done|].
  destruct Hinv as (_ & Hr & _).
  apply exclusive_insert.
  - apply exclusive_fmap_sub; [done|]. intros t. apply removeInterface_sub.
  - intros j z2 s2 Hj H2 Hj2.
    apply lookup_fmap_Some in H2 as (t2 & <- & H2).
    rewrite interfaces_removeInterface in Hj2.
    apply elem_of_difference in Hj2 as [Hj2 Hne].
    rewrite interfaces_addInterface in Hj.
    apply elem_of_union in Hj as [Hj | Hj]; [done|]. by eapply Hr.
Qed.

Lemma exclusive_new_zone zone :
  zone <> EmptyString ->
  keeps (preserves interfaces_exclusive)
    (Config.set_zone_config zone FirewallClientZoneSettings).
Proof.
  intros Hzone fw Hinv. unfold Config.set_zone_config. simpl.
  destruct Hinv as (Hc & Hr & Hn). apply exclusive_set_config; [done | |].
  - apply exclusive_insert; [done|]. intros i z2 s2 Hi.
    by apply elem_of_empty in Hi.
  - by rewrite lookup_insert_ne.
Qed.

Lemma exclusive_remove_zone zone :
  keeps (preserves interfaces_exclusive) (Config.remove_zone zone).
Proof.
  intros fw Hinv. unfold Config.remove_zone.
  destruct (config fw !! zone) as [s|] eqn:Hs; simpl; [|done].
  destruct Hinv as (Hc & Hr & Hn). apply exclusive_set_config; [done | |].
  - by apply exclusive_delete.
  - by apply lookup_delete_None; right.
Qed.

Lemma zones_of_interface_nil interface fw z2 s2 :
  Config.zones_of_interface interface fw = [] ->
  config fw !! z2 = Some s2 -> interface ∈ z_interfaces s2 -> False.
Proof.
  intros Hnil H2 Hi.
  assert ((z2, s2) ∈ Config.zones_of_interface interface fw) as Hin
    by by apply elem_of_zones_of_interface.
  rewrite Hnil in Hin. by apply elem_of_nil in Hin.
Qed.

Lemma exclusive_interface_set_enabled_permanent zone interface :
  keeps (preserves interfaces_exclusive)
    (InterfaceTransaction.set_enabled_permanent zone interface).
Proof.
  intros fw Hinv. pose proof Hinv as (Hc & Hr & Hn).
  unfold InterfaceTransaction.set_enabled_permanent, get_fw_zone_settings,
    Config.get_zone_config, self_fw_offline, bind, ret.
  destruct (config fw !! zone) as [s|] eqn:Hs; simpl; [|done].
  assert (forall o l, Config.zones_of_interface interface fw = o :: l ->
            o.1 <> zone ->
            interfaces_exclusive
              (set_config
                 (<[zone := Settings.addInterface interface s]>
                    (<[o.1 := Settings.removeInterface interface o.2]>
                       (config fw))) fw)) as Hmove.
  { intros o l [Ho Hi]%zones_of_interface_head Hne.
    apply exclusive_set_config; [done | |].
    - by apply exclusive_move.
    - rewrite lookup_insert_ne by (intros ->; congruence).
      by eapply lookup_insert_unnamed. }
  assert ((forall z2 s2, config fw !! z2 = Some s2 ->
                         interface ∈ z_interfaces s2 -> z2 = zone) ->
          interfaces_exclusive
            (set_config (<[zone := Settings.addInterface interface s]> (config fw))
               fw)) as Hbind.
  { intros Hsole. apply exclusive_set_config; [done | |].
    - by apply exclusive_bind.
    - by eapply lookup_insert_unnamed. }
  destruct (fw_offline fw).
  - destruct (1 <? length (Config.zones_of_interface interface fw))%nat
      eqn:Hmany; simpl; [done|].
    destruct (Config.zones_of_interface interface fw) as [|o l] eqn:Hobjs.
    + simpl. apply Hbind. intros z2 s2 H2 Hi. exfalso.
      by eapply zones_of_interface_nil.
    + destruct ((length (o :: l) =? 1)%nat && bool_decide (o.1 ≠ zone)) eqn:Hmv.
      * apply andb_true_iff in Hmv as [_ Hne%bool_decide_eq_true_1].
        destruct (zones_of_interface_head _ _ _ _ Hobjs) as [Ho _].
        unfold Config.get_zone_config, Config.set_zone_config. rewrite Ho. simpl.
        by eapply Hmove.
      * simpl. apply Hbind. intros z2 s2 H2 Hi.
        destruct (zones_of_interface_head _ _ _ _ Hobjs) as [Ho Hio].
        assert (z2 = o.1) as -> by by eapply Hc.
        apply andb_false_iff in Hmv as [Hlen | Hne].
        -- exfalso. apply Nat.ltb_ge in Hmany. apply Nat.eqb_neq in Hlen.
           simpl in Hmany, Hlen. lia.
        -- apply bool_decide_eq_false_1 in Hne. by apply dec_stable in Hne.
  - unfold Config.getZoneOfInterface.
    destruct (Config.zones_of_interface interface fw) as [|o l] eqn:Hobjs.
    + destruct (bool_decide (EmptyString ≠ zone)); simpl; [|done].
      apply Hbind. intros z2 s2 H2 Hi. exfalso.
      by eapply zones_of_interface_nil.
    + destruct (bool_decide (o.1 ≠ zone)) eqn:Hne; simpl; [|done].
      apply bool_decide_eq_true_1 in Hne.
      destruct (zones_of_interface_head _ _ _ _ Hobjs) as [Ho _].
      assert (PyStr.truthy o.1 = true) as ->.
      { apply truthy_nonempty. intros Hempty. congruence. }
      unfold Config.getSettings, Config.update, Config.get_zone_config,
        Config.set_zone_config, bind. rewrite Ho. simpl.
      by eapply Hmove.
Qed.

Ltac exclusive_side :=
  intros ?; simpl; first [reflexivity | apply removeInterface_sub].

Ltac exclusive_step :=
  first
    [ apply keeps_ret; apply _
    | apply keeps_fail_json; apply _
    | apply exclusive_interface_set_enabled_permanent
    | apply exclusive_changeZoneOfInterface
    | apply exclusive_new_zone; assumption
    | apply exclusive_remove_zone
    | match goal with
      | |- keeps _ (bind (get_fw_zone_settings ?z)
                      (fun s => Config.set_zone_config _ (@?g s))) =>
          apply (exclusive_permanent_update z g); exclusive_side
      | |- keeps _ (Live.change ?z ?f) =>
          apply (exclusive_live_change z f); exclusive_side
      end
    | apply keeps_eq_any;
        [apply _
        | first [ apply keeps_get_fw_zone_settings
                | apply keeps_get_zone_config
                | apply keeps_live_query
                | apply keeps_getZoneOfInterface
                | intros ?; reflexivity ] ]
    | apply keeps_bind; [apply _ | | intros ?]
    | match goal with
      | |- keeps _ (if ?b then _ else _) => destruct b
      | |- keeps _ (match ?x with _ => _ end) => destruct x
      | |- keeps _ (let _ := _ in _) => simpl
      end ].

Section Exclusive.
Context `{RichLanguage}.

Lemma exclusive_setter zone k l want :
  zone <> EmptyString ->
  keeps (preserves interfaces_exclusive) (setter (transaction zone k) l want).
Proof.
  intros Hzone. destruct k, l, want; simpl.
  all: try apply exclusive_interface_set_enabled_permanent.
  all: autounfold with fw_tx fw_names; repeat exclusive_step.
Qed.

End Exclusive.


(** A check of exclusivity that can be computed. *)
Lemma exclusive_by_zones (m : gmap string ZoneSettings) :
  map_Forall (fun z1 s1 =>
    map_Forall (fun z2 s2 =>
      z1 = z2 \/ z_interfaces s1 ## z_interfaces s2) m) m ->
  exclusive m.
Proof.
  intros Hall i z1 z2 s1 s2 H1 H2 Hi1 Hi2.
  destruct (Hall z1 s1 H1 z2 s2 H2) as [Heq | Hdisj]; [done|].
  exfalso. by apply (Hdisj i).
Qed.

Section Exclusive.
Context `{RichLanguage}.

Lemma exclusive_run zone k st perm imm :
  zone <> EmptyString ->
  keeps (preserves interfaces_exclusive) (run (transaction zone k) st perm imm).
Proof.
  intros Hzone. apply keeps_run; [apply _ | apply _ | apply transaction_frame | |].
  - intros _ want. by apply exclusive_setter.
  - intros _ want. by apply exclusive_setter.
Qed.

(** The state [main] ends in is the state it started in, or the state its
    plan of transactions ends in. *)
Lemma main_outcome_state p fw (P : Firewall -> Prop) :
  P fw ->
  (forall layers pp sp pf,
     layer_flags (p_offline p) (p_permanent p) (p_immediate p) fw
     = Done layers fw ->
     P (outcome_state
          (run_all (default (default_zone fw) (p_zone p)) layers.1 layers.2
             (planned p pp sp pf) (false, []) fw))) ->
  P (outcome_state (main p fw)).
Proof.
  intros Hfw Hplan. rewrite main_planned. unfold bind at 1.
  pose proof (keeps_layer_flags (p_offline p) (p_permanent p) (p_immediate p) fw)
    as Hk.
  destruct (layer_flags _ _ _ fw) as [layers fw0|msg fw0|e fw0] eqn:Hl;
    simpl in Hk; subst fw0; [|exact Hfw..].
  unfold bind at 1.
  pose proof (keeps_parse_port improper_port_msg (p_port p) fw) as Hk.
  destruct (parse_port _ (p_port p) fw) as [pp fw0|msg fw0|e fw0];
    simpl in Hk; subst fw0; [|exact Hfw..].
  unfold bind at 1.
  pose proof (keeps_parse_port improper_source_port_msg (p_source_port p) fw)
    as Hk.
  destruct (parse_port _ (p_source_port p) fw) as [sp fw0|msg fw0|e fw0];
    simpl in Hk; subst fw0; [|exact Hfw..].
  unfold bind at 1.
  pose proof (keeps_parse_port_forward (p_port_forward p) fw) as Hk.
  destruct (parse_port_forward _ fw) as [pf fw0|msg fw0|e fw0];
    simpl in Hk; subst fw0; [|exact Hfw..].
  unfold bind at 1.
  destruct (modification_of p pp.1 sp.1 pf.1 && zone_level_state (p_state p)
            && bool_decide (p_target p = None)); simpl; [exact Hfw|].
  unfold bind at 1, self_zone. unfold bind.
  specialize (Hplan layers pp sp pf eq_refl).
  destruct (run_all _ _ _ _ _ fw); exact Hplan.
Qed.

(** X10.  Every invocation maintains the binding of interfaces.  When the
    zone of the invocation has a name: if in each layer every interface is
    bound to at most one zone (and no zone of the permanent configuration
    has the empty name), then so it is in the state [main] ends in,
    however it ends. *)
Theorem interfaces_stay_exclusive p fw :
  default (default_zone fw) (p_zone p) <> EmptyString ->
  interfaces_exclusive fw ->
  interfaces_exclusive (outcome_state (main p fw)).
Proof.
  intros Hzone Hinv. apply main_outcome_state; [done|].
  intros layers pp sp pf _.
  apply (keeps_run_all (preserves interfaces_exclusive)); [|done].
  intros k st. by apply exclusive_run.
Qed.

End Exclusive.

Lemma interfaces_stay_exclusive_witness :
  let p := mkParams None None None None None None None None
             (Some "public") true None true enabled 0 (Some "eth0") None None
             false None in
  interfaces_exclusive (outcome_state (@main plain_rules p fw_running)).
Proof.
  intros p. apply (@interfaces_stay_exclusive plain_rules p fw_running).
  - discriminate.
  - split; [|split].
    + apply exclusive_by_zones. refine (bool_decide_unpack _ _).
      vm_compute. exact I.
    + apply exclusive_by_zones. refine (bool_decide_unpack _ _).
      vm_compute. exact I.
    + reflexivity.
Defined.


(** ** An unreachable daemon *)

Section Offline.
Context `{RichLanguage}.

(** X11.  The offline note is true.  When the daemon is unreachable,
    [main] leaves the runtime configuration, the mode and the default zone
    as they were, however it ends; and when it returns, its last message is
    the note that only the on-disk configuration was altered. *)
Theorem offline_only_on_disk p fw :
  fw_offline fw = true ->
  same_runtime fw (outcome_state (main p fw))
  /\ (forall changed msgs fw1,
        main p fw = Done (changed, msgs) fw1 ->
        exists msgs',
          msgs = msgs'
                 ++ [Text "(offline operation: only on-disk configs were altered)"]).
Proof.
  intros Hoff. split.
  - apply main_outcome_state; [reflexivity|].
    intros layers pp sp pf Hl.
    apply layer_flags_Done in Hl as (_ & _ & Hrunning).
    destruct (layers.2) eqn:Himm; [specialize (Hrunning eq_refl); congruence|].
    apply (keeps_run_all same_runtime). intros k st.
    apply keeps_run_permanent_only, transaction_frame.
  - intros changed msgs fw1 Hmain.
    apply main_Done in Hmain
      as (layers & pp & sp & pf & acc & Hl & _ & _ & _ & _ & Hall & Hr).
    injection Hr as _ ->. exists acc.2. f_equal.
    assert (fw_offline fw1 = true) as Hoff1.
    { pose proof (keeps_run_all same_mode
                    (default (default_zone fw) (p_zone p)) layers.1 layers.2
                    (planned p pp sp pf) (false, [])
                    (fun k st => keeps_run_mode _ st _ _ (transaction_frame _ k))
                    fw) as [Hm _].
      rewrite Hall in Hm. simpl in Hm. congruence. }
    unfold offline_note. by rewrite Hoff1.
Qed.

End Offline.

Lemma offline_only_on_disk_witness :
  let p := mkParams None None (Some "https") None None None None None
             (Some "public") false None true enabled 0 None None None true
             None in
  same_runtime fw_stopped (outcome_state (@main plain_rules p fw_stopped)).
Proof.
  intros p. exact (proj1 (@offline_only_on_disk plain_rules p fw_stopped eq_refl)).
Defined.

(** ** The zones an invocation does not name *)

#[local] Instance other_zones_refl zone : Reflexive (other_zones zone).
Proof. by intros fw z' Hz. Qed.

#[local] Instance other_zones_trans zone : Transitive (other_zones zone).
Proof.
  intros a b c Hab Hbc z' Hz.
  destruct (Hab z' Hz) as [? ?], (Hbc z' Hz) as [? ?]. split; congruence.
Qed.

Lemma other_zones_set_zone_config zone s :
  keeps (other_zones zone) (Config.set_zone_config zone s).
Proof.
  intros fw z' Hz. unfold Config.set_zone_config. simpl.
  by rewrite lookup_insert_ne.
Qed.

Lemma other_zones_permanent_update zone
    (g : string * ZoneSettings -> ZoneSettings) :
  keeps (other_zones zone)
    (s <- get_fw_zone_settings zone;; Config.set_zone_config s.1 (g s)).
Proof.
  intros fw z' Hz.
  unfold get_fw_zone_settings, Config.get_zone_config, Config.set_zone_config,
    bind, ret.
  destruct (config fw !! zone); simpl; [|done]. by rewrite lookup_insert_ne.
Qed.

Lemma other_zones_remove_zone zone :
  keeps (other_zones zone) (Config.remove_zone zone).
Proof.
  intros fw z' Hz. unfold Config.remove_zone.
  destruct (config fw !! zone); simpl; [|done]. by rewrite lookup_delete_ne.
Qed.

Lemma other_zones_live_change zone f :
  keeps (other_zones zone) (Live.change zone f).
Proof.
  intros fw z' Hz. unfold Live.change.
  destruct (runtime fw !! zone); simpl; [|done]. by rewrite lookup_insert_ne.
Qed.

Ltac other_zones_step :=
  first
    [ apply keeps_ret; apply _
    | apply keeps_fail_json; apply _
    | apply other_zones_set_zone_config
    | apply other_zones_remove_zone
    | apply other_zones_live_change
    | match goal with
      | |- keeps _ (bind (get_fw_zone_settings ?z)
                      (fun s => Config.set_zone_config _ (@?g s))) =>
          apply (other_zones_permanent_update z g)
      end
    | apply keeps_eq_any;
        [apply _
        | first [ apply keeps_get_fw_zone_settings
                | apply keeps_get_zone_config
                | apply keeps_live_query
                | intros ?; reflexivity ] ]
    | apply keeps_bind; [apply _ | | intros ?]
    | match goal with
      | |- keeps _ (if ?b then _ else _) => destruct b
      | |- keeps _ (match ?x with _ => _ end) => destruct x
      | |- keeps _ (let _ := _ in _) => simpl
      end ].

Section OtherZones.
Context `{RichLanguage}.

Lemma other_zones_setter zone k l want :
  is_interface k = false ->
  keeps (other_zones zone) (setter (transaction zone k) l want).
Proof.
  intros Hk. destruct k; try discriminate Hk; destruct l, want; simpl.
  all: autounfold with fw_tx fw_names; repeat other_zones_step.
Qed.

Lemma other_zones_run zone k st perm imm :
  is_interface k = false ->
  keeps (other_zones zone) (run (transaction zone k) st perm imm).
Proof.
  intros Hk. apply keeps_run; [apply _ | apply _ | apply transaction_frame | |].
  - intros _ want. by apply other_zones_setter.
  - intros _ want. by apply other_zones_setter.
Qed.

Lemma keeps_run_all_Forall R `{!Reflexive R, !Transitive R} z perm imm plan acc :
  Forall (fun x => keeps R (run (transaction z x.1.1) x.1.2 perm imm)) plan ->
  keeps R (run_all z perm imm plan acc).
Proof.
  intros Hplan. revert acc.
  induction Hplan as [|[[k st] extra] plan Hx _ IH]; intros acc; simpl.
  - by apply keeps_ret.
  - apply keeps_bind; [done | by apply keeps_transact | done].
Qed.

Lemma planned_no_interface p pp sp pf :
  p_interface p = None ->
  Forall (fun x => is_interface x.1.1 = false) (planned p pp sp pf).
Proof.
  intros Hi. unfold planned. rewrite Hi.
  repeat (apply Forall_app; split).
  all: repeat match goal with
              | |- Forall _ (match ?x with _ => _ end) => destruct x
              | |- Forall _ (if ?x then _ else _) => destruct x
              end.
  all: first [apply Forall_nil_2 | by apply Forall_singleton].
Qed.

(** X12.  Without the [interface] parameter an invocation touches the zone
    it names and no other: every other zone is what it was in both
    layers, however [main] ends. *)
Theorem other_zones_untouched p fw z' :
  p_interface p = None ->
  z' <> default (default_zone fw) (p_zone p) ->
  config (outcome_state (main p fw)) !! z' = config fw !! z'
  /\ runtime (outcome_state (main p fw)) !! z' = runtime fw !! z'.
Proof.
  intros Hi Hz.
  assert (other_zones (default (default_zone fw) (p_zone p)) fw
            (outcome_state (main p fw))) as Hother; [|by apply Hother].
  apply main_outcome_state; [reflexivity|].
  intros layers pp sp pf _.
  apply (keeps_run_all_Forall (other_zones _)).
  eapply Forall_impl; [by apply planned_no_interface|].
  intros [[k st] extra] Hk. by apply other_zones_run.
Qed.

End OtherZones.

Lemma other_zones_untouched_witness :
  let p := mkParams None None (Some "https") None None None None None
             (Some "public") true None true enabled 0 None None None false
             None in
  config (outcome_state (@main plain_rules p fw_running)) !! "home"
  = config fw_running !! "home"
  /\ runtime (outcome_state (@main plain_rules p fw_running)) !! "home"
     = runtime fw_running !! "home".
Proof.
  intros p.
  apply (@other_zones_untouched plain_rules p fw_running "home" eq_refl).
  discriminate.
Defined.

(** ** What a returning invocation has established *)

Section Established.
Context `{RichLanguage}.

Lemma run_all_single_establishes z perm imm plan fw acc fw1 :
  z <> EmptyString ->
  (plan = []
   \/ exists k st extra,
        plan = [(k, st, extra)] /\ resets_default_target k st = false) ->
  run_all z perm imm plan (false, []) fw = Done acc fw1 ->
  forall k st extra want,
    (k, st, extra) ∈ plan ->
    desired_bool (transaction z k) st = Some want ->
    (perm = true ->
     tx_get_enabled_permanent (transaction z k) fw1 = Done want fw1)
    /\ (imm = true ->
        tx_get_enabled_immediate (transaction z k) fw1 = Done want fw1).
Proof.
  intros Hz [-> | (k0 & st0 & extra0 & -> & Hk)] Hall k st extra want Hin Hwant.
  - by apply elem_of_nil in Hin.
  - apply list_elem_of_singleton in Hin. injection Hin as -> -> ->.
    simpl in Hall.
    apply bind_Done in Hall as (acc' & fw2 & Htx & [= <- <-]).
    unfold transact in Htx.
    apply bind_Done in Htx as (r & fw2' & Hrun & [= <- <-]).
    assert (want = false -> Disables (transaction z k0)) as HD.
    { intros ->. eapply transaction_disables, resets_default_target_false; eauto. }
    destruct (run_establishes _ _ _ _ _ _ _ want (transaction_lawful z k0 Hz)
                (fun _ => transaction_enables z k0 Hz) HD Hwant Hrun)
      as (_ & Hp & Hi).
    by split.
Qed.

(** X13.  What [main] returns after.  For parameters that satisfy the
    argument spec, with a named zone, where a zone-level state comes with no
    primitive or with a target, and except the reset of a zone target that
    is ["default"]: when [main] returns, every transaction of its plan whose
    state asks for a boolean finds that boolean in each layer [main] worked
    on: the rule is there after an enabling state and is not there after a
    disabling one. *)
Theorem main_establishes p fw r fw1 :
  mutually_exclusive p = true ->
  default (default_zone fw) (p_zone p) <> EmptyString ->
  (zone_level_state (p_state p) = true ->
   primitives_given p = 0%nat \/ truthy_str (p_target p) = true) ->
  (forall target, p_target p = Some target ->
                  resets_default_target (ZoneTarget target) (p_state p) = false) ->
  main p fw = Done r fw1 ->
  exists layers pp sp pf,
    layer_flags (p_offline p) (p_permanent p) (p_immediate p) fw = Done layers fw
    /\ parse_port improper_port_msg (p_port p) fw = Done pp fw
    /\ parse_port improper_source_port_msg (p_source_port p) fw = Done sp fw
    /\ parse_port_forward (p_port_forward p) fw = Done pf fw
    /\ forall k st extra want,
         (k, st, extra) ∈ planned p pp sp pf ->
         let tx := transaction (default (default_zone fw) (p_zone p)) k in
         desired_bool tx st = Some want ->
         (layers.1 = true -> tx_get_enabled_permanent tx fw1 = Done want fw1)
         /\ (layers.2 = true -> tx_get_enabled_immediate tx fw1 = Done want fw1).
Proof.
  intros Hex Hzone Hzl Hslip Hmain.
  apply main_Done in Hmain
    as (layers & pp & sp & pf & acc & Hl & Hpp & Hsp & Hpf & _ & Hall & _).
  exists layers, pp, sp, pf. split; [done|]. split; [done|]. split; [done|].
  split; [done|]. intros k st extra want Hin tx Hwant.
  exact (run_all_single_establishes _ _ _ _ _ _ _ Hzone
           (planned_single p pp sp pf fw Hex Hzl Hslip Hpp Hsp Hpf) Hall
           k st extra want Hin Hwant).
Qed.

End Established.

Lemma main_establishes_witness :
  let p := mkParams None None (Some "https") None None None None None
             (Some "public") true None true enabled 0 None None None false
             None in
  let tx := @transaction plain_rules "public" (Service "https" 0) in
  let fw1 := outcome_state (@main plain_rules p fw_running) in
  tx_get_enabled_permanent tx fw1 = Done true fw1
  /\ tx_get_enabled_immediate tx fw1 = Done true fw1.
Proof.
  intros p tx fw1.
  assert (@main plain_rules p fw_running
          = Done (true, [LayerMsg Permanent None; LayerMsg Immediate None;
                         Text "Changed service https to enabled"]) fw1)
    as Hmain by (vm_compute; reflexivity).
  assert (default (default_zone fw_running) (p_zone p) <> EmptyString) as Hzone
    by discriminate.
  assert (zone_level_state (p_state p) = true ->
          primitives_given p = 0%nat \/ truthy_str (p_target p) = true) as Hzl.
  { intros Hz. vm_compute in Hz. discriminate. }
  assert (forall target, p_target p = Some target ->
            resets_default_target (ZoneTarget target) (p_state p) = false)
    as Hslip by (intros target Ht; discriminate).
  destruct (@main_establishes plain_rules p fw_running _ fw1 eq_refl Hzone Hzl
              Hslip Hmain)
    as (layers & pp & sp & pf & Hl & Hpp & Hsp & Hpf & Hest).
  injection Hl as <-. injection Hpp as <-. injection Hsp as <-.
  injection Hpf as <-.
  destruct (Hest (Service "https" 0) enabled
              [Text "Changed service https to enabled"] true) as [Hp Hi].
  - vm_compute. left.
  - reflexivity.
  - split; [exact (Hp eq_refl) | exact (Hi eq_refl)].
Defined.
